(** * The fraud-detection engine of [main.py]

    A shallow embedding of the risk-evaluation code of [main.py]
    ([initialize_blacklist], [get_coordinates], [calculate_distance],
    [is_odd_hour], [calculate_z_score], [check_geographic_drift],
    [detect_fraud] and [check_fraud_endpoint]) together with the part of
    MongoDB, numpy and the Python run time these functions rely on.

    - Python exceptions are an error monad; the two MongoDB collections, the
      clock and the logger are a state that is threaded through it.
    - Amounts, z-scores and distances are IEEE 754 binary64 numbers
      (Rocq's primitive floats), as Python's [float] and numpy's [float64].
    - What the services outside the program answer (the geocoder, the
      geodesic computation, the MongoDB driver failing, [strptime], the
      clock) is a parameter [Env] of every run. *)

From Stdlib Require Import ZArith List Bool Lia Ascii String.
From Stdlib Require Import Sorted Permutation.
From Stdlib Require Import Decimal DecimalString.
From Stdlib Require Import PrimFloat FloatOps SpecFloat.
Import ListNotations.

Local Open Scope string_scope.
Local Open Scope Z_scope.

(** ** Documents and requests *)

(** [class Transaction(BaseModel)] *)
Record Transaction : Type := mkTransaction {
  transaction_id : string;
  timestamp : string;
  amount : float;
  location : string;
  card_type : string;
  currency : string;
  recipient_account_number : string
}.

(** [class TransactionResponse(BaseModel)] *)
Record TransactionResponse : Type := mkTransactionResponse {
  resp_transaction_id : string;
  resp_timestamp : string;
  resp_amount : float;
  resp_location : string;
  resp_card_type : string;
  resp_currency : string;
  resp_recipient_account_number : string;
  resp_is_fraud : bool;
  resp_fraud_reasons : list string;
  resp_risk_score : Z
}.

(** A document of [db.transactions], as [check_fraud_endpoint] writes it. *)
Record TransactionDoc : Type := mkTransactionDoc {
  doc_transaction_id : string;
  doc_timestamp : string;
  doc_amount : float;
  doc_location : string;
  doc_card_type : string;
  doc_currency : string;
  doc_recipient_account_number : string;
  doc_is_fraud : bool;
  doc_fraud_reasons : list string;
  doc_risk_score : Z;
  doc_checked_by : string;
  doc_checked_at : Z
}.

(** A document of [db.blacklist]: the fields "type", "value", "added_at" and,
    when it was written by the feedback of [check_fraud_endpoint],
    "reason". *)
Record BlacklistEntry : Type := mkBlacklistEntry {
  b_type : string;
  b_value : string;
  b_added_at : Z;
  b_reason : option string
}.

(** The fields of [datetime] that [strptime] fills in. *)
Record datetime : Type := mkDatetime {
  year : Z;
  month : Z;
  day : Z;
  hour : Z;
  minute : Z;
  second : Z
}.

(** A (latitude, longitude) pair. *)
Definition LatLon : Type := (float * float)%type.

(** ** Python exceptions and the state of a run *)

Module Py.

Inductive exn : Type :=
| PyMongoError
| GeocoderError
| ValueError
| HTTPException (status_code : Z) (detail : string).

Inductive result (A : Type) : Type :=
| Ok (a : A)
| Raise (e : exn).

Arguments Ok {A} a.
Arguments Raise {A} e.

(** [if s:] on a string: only the empty string is false. *)
Definition truthy (s : string) : bool :=
  match s with
  | EmptyString => false
  | String _ _ => true
  end.

End Py.
Export Py.

(** The calls to the MongoDB driver that the engine makes. *)
Inductive MongoOp : Type :=
| OpBlacklistFindOne (kind value : string)
| OpBlacklistUpdateOne (kind value : string)
| OpTransactionsFind (card : string)
| OpTransactionsFindOne (card : string)
| OpTransactionsInsertOne (id : string).

(** What the outside answers during one run.  [mongo_fails op] says that the
    driver raises on [op]; [geocode] is [geolocator.geocode], which raises,
    finds nothing or returns a place; [geodesic_km] is
    [geodesic(c1, c2).kilometers]; [strptime] is
    [datetime.strptime(_, "%Y-%m-%d %H:%M:%S")]; [clock n] is the [n]-th
    reading of [datetime.now()]. *)
Record Env : Type := mkEnv {
  mongo_fails : MongoOp -> bool;
  geocode : string -> result (option LatLon);
  geodesic_km : LatLon -> LatLon -> result float;
  strptime : string -> result datetime;
  clock : nat -> Z
}.

(** The mutable world: both collections in insertion order, the number of
    clock readings taken, and the lines handed to the logger (a line ends
    where the source appends the text of the exception). *)
Record World : Type := mkWorld {
  blacklist : list BlacklistEntry;
  transactions : list TransactionDoc;
  ticks : nat;
  log : list string
}.

Definition set_blacklist (l : list BlacklistEntry) (w : World) : World :=
  {| blacklist := l; transactions := transactions w;
     ticks := ticks w; log := log w |}.

Definition set_transactions (l : list TransactionDoc) (w : World) : World :=
  {| blacklist := blacklist w; transactions := l;
     ticks := ticks w; log := log w |}.

Definition tick (w : World) : World :=
  {| blacklist := blacklist w; transactions := transactions w;
     ticks := S (ticks w); log := log w |}.

Definition logged (lines : list string) (w : World) : World :=
  {| blacklist := blacklist w; transactions := transactions w;
     ticks := ticks w; log := (log w ++ lines)%list |}.

(** ** The monad of the embedding: reader of [Env], state [World], errors *)

Definition M (A : Type) : Type := Env -> World -> result A * World.

Definition ret {A : Type} (a : A) : M A := fun _ w => (Ok a, w).

Definition raise {A : Type} (e : exn) : M A := fun _ w => (Raise e, w).

Definition bind {A B : Type} (m : M A) (k : A -> M B) : M B :=
  fun env w =>
    match m env w with
    | (Ok a, w') => k a env w'
    | (Raise e, w') => (Raise e, w')
    end.

(** [try: body except Exception as e: handler]; what [body] did to the world
    before it raised stays done. *)
Definition try_except {A : Type} (body : M A) (handler : exn -> M A) : M A :=
  fun env w =>
    match body env w with
    | (Ok a, w') => (Ok a, w')
    | (Raise e, w') => handler e env w'
    end.

Declare Scope py_scope.
Delimit Scope py_scope with py.
Notation "x <- m ;; k" := (bind m (fun x => k))
  (at level 61, m at next level, right associativity) : py_scope.
Notation "' pat <- m ;; k" := (bind m (fun x => match x with pat => k end))
  (at level 61, pat pattern, m at next level, right associativity) : py_scope.
Local Open Scope py_scope.

Definition logger_error (line : string) : M unit :=
  fun _ w => (Ok tt, logged [line] w).

Definition logger_info (line : string) : M unit :=
  fun _ w => (Ok tt, logged [line] w).

(** [datetime.now()] *)
Definition datetime_now : M Z :=
  fun env w => (Ok (clock env (ticks w)), tick w).

(** [datetime.strptime(timestamp_str, "%Y-%m-%d %H:%M:%S")] *)
Definition datetime_strptime (timestamp_str : string) : M datetime :=
  fun env w => (strptime env timestamp_str, w).

(** [geolocator.geocode(location)] *)
Definition geolocator_geocode (loc : string) : M (option LatLon) :=
  fun env w => (geocode env loc, w).

(** [geodesic(coords1, coords2).kilometers] *)
Definition geodesic_kilometers (c1 c2 : LatLon) : M float :=
  fun env w => (geodesic_km env c1 c2, w).

(** ** MongoDB: the queries and writes the engine issues *)

Module Mongo.

(** The filter [{"type": kind, "value": value}]. *)
Definition matches (kind value : string) (e : BlacklistEntry) : bool :=
  (b_type e =? kind)%string && (b_value e =? value)%string.

(** [blacklist_collection.find_one({"type": kind, "value": value})]: the
    first matching document in natural order, or [None]. *)
Definition blacklist_find_one (kind value : string)
  : M (option BlacklistEntry) :=
  fun env w =>
    if mongo_fails env (OpBlacklistFindOne kind value)
    then (Raise PyMongoError, w)
    else (Ok (find (matches kind value) (blacklist w)), w).

(** The [$set] document of the two [update_one] calls of the source:
    "type", "value" and "added_at" are always set, "reason" only by the
    feedback write. *)
Record SetDoc : Type := mkSetDoc {
  set_type : string;
  set_value : string;
  set_added_at : Z;
  set_reason : option string
}.

Definition apply_set (s : SetDoc) (e : BlacklistEntry) : BlacklistEntry :=
  {| b_type := set_type s;
     b_value := set_value s;
     b_added_at := set_added_at s;
     b_reason := match set_reason s with
                 | Some r => Some r
                 | None => b_reason e
                 end |}.

(** The document an upsert inserts when nothing matches: the fields of the
    equality filter, then [$set] applied. *)
Definition upserted (kind value : string) (s : SetDoc) : BlacklistEntry :=
  apply_set s {| b_type := kind; b_value := value;
                 b_added_at := 0; b_reason := None |}.

(** Update the first document that satisfies [p]; [None] when none does. *)
Fixpoint update_first (p : BlacklistEntry -> bool)
    (f : BlacklistEntry -> BlacklistEntry) (l : list BlacklistEntry)
  : option (list BlacklistEntry) :=
  match l with
  | [] => None
  | e :: l' =>
      if p e then Some (f e :: l')
      else match update_first p f l' with
           | Some l'' => Some (e :: l'')
           | None => None
           end
  end.

(** [blacklist_collection.update_one({"type": kind, "value": value},
    {"$set": s}, upsert=True)] *)
Definition blacklist_update_one (kind value : string) (s : SetDoc)
  : M unit :=
  fun env w =>
    if mongo_fails env (OpBlacklistUpdateOne kind value)
    then (Raise PyMongoError, w)
    else
      match update_first (matches kind value) (apply_set s) (blacklist w) with
      | Some l => (Ok tt, set_blacklist l w)
      | None =>
          (Ok tt, set_blacklist (blacklist w ++ [upserted kind value s]) w)
      end.

(** Insertion into a list that is sorted by "timestamp", newest first.
    Strings compare byte by byte, as MongoDB's default collation does.
    Among documents with the same timestamp MongoDB fixes no order; here
    the earlier document of the collection comes first. *)
Fixpoint insert_desc (d : TransactionDoc) (l : list TransactionDoc)
  : list TransactionDoc :=
  match l with
  | [] => [d]
  | d' :: l' =>
      if String.leb (doc_timestamp d') (doc_timestamp d)
      then d :: d' :: l'
      else d' :: insert_desc d l'
  end.

(** [.sort("timestamp", -1)] *)
Definition sort_timestamp_desc (l : list TransactionDoc)
  : list TransactionDoc :=
  fold_right insert_desc [] l.

(** The filter [{"card_type": card}]. *)
Definition has_card_type (card : string) (d : TransactionDoc) : bool :=
  (doc_card_type d =? card)%string.

(** [list(transactions_collection.find({"card_type": card})
          .sort("timestamp", -1).limit(n))] *)
Definition transactions_find_sorted_limit (card : string) (n : nat)
  : M (list TransactionDoc) :=
  fun env w =>
    if mongo_fails env (OpTransactionsFind card)
    then (Raise PyMongoError, w)
    else (Ok (firstn n (sort_timestamp_desc
                          (filter (has_card_type card) (transactions w)))),
          w).

(** [transactions_collection.find_one({"card_type": card},
                                      sort=[("timestamp", -1)])] *)
Definition transactions_find_one_sorted (card : string)
  : M (option TransactionDoc) :=
  fun env w =>
    if mongo_fails env (OpTransactionsFindOne card)
    then (Raise PyMongoError, w)
    else (Ok (hd_error (sort_timestamp_desc
                          (filter (has_card_type card) (transactions w)))),
          w).

(** [transactions_collection.insert_one(doc)] *)
Definition transactions_insert_one (d : TransactionDoc) : M unit :=
  fun env w =>
    if mongo_fails env (OpTransactionsInsertOne (doc_transaction_id d))
    then (Raise PyMongoError, w)
    else (Ok tt, set_transactions (transactions w ++ [d]) w).

End Mongo.

(** ** numpy on short lists of [float64] *)

Module Np.

Local Open Scope float_scope.

(** [np.add.reduce]: below eight elements numpy adds from left to right,
    starting from zero (the sign of that zero shows only in a sum that is
    itself a zero). *)
Definition sum (l : list float) : float := fold_left PrimFloat.add l 0.

(** The element count as a float; exact for every length a list can have
    here. *)
Fixpoint float_of_nat (n : nat) : float :=
  match n with
  | O => 0
  | S k => float_of_nat k + 1
  end.

(** [np.mean(l)] *)
Definition mean (l : list float) : float :=
  sum l / float_of_nat (List.length l).

(** numpy's [_var] with [ddof] delta degrees of freedom: the mean of the
    squared deviations, divided by [max(len(l) - ddof, 0)]. *)
Definition var (ddof : nat) (l : list float) : float :=
  let arrmean := mean l in
  let x := map (fun a => a - arrmean) l in
  let x := map (fun d => d * d) x in
  sum x / float_of_nat (List.length l - ddof).

(** [np.std(l)]: [ddof] defaults to 0, the population standard
    deviation. *)
Definition std (l : list float) : float := sqrt (var 0 l).

(** The sample standard deviation, [np.std(l, ddof=1)]; the source never
    calls it. *)
Definition std_sample (l : list float) : float := sqrt (var 1 l).

End Np.

(** ** [format(x, ".2f")] *)

Module Fmt.

(** [num / den] rounded to the nearest integer, ties to even. *)
Definition round_half_even (num den : Z) : Z :=
  let q := num / den in
  let r := num mod den in
  if 2 * r <? den then q
  else if den <? 2 * r then q + 1
  else if Z.even q then q else q + 1.

Definition decimal (n : Z) : string :=
  NilZero.string_of_uint (N.to_uint (Z.to_N n)).

Definition two_digits (n : Z) : string :=
  if n <? 10 then "0" ++ decimal n else decimal n.

(** The exact binary value of [x], correctly rounded to two decimals. *)
Definition format_2f (x : float) : string :=
  match Prim2SF x with
  | S754_nan => "nan"
  | S754_infinity s => if s then "-inf" else "inf"
  | S754_zero s => if s then "-0.00" else "0.00"
  | S754_finite s m e =>
      let hundredths :=
        if 0 <=? e then Z.pos m * 2 ^ e * 100
        else round_half_even (Z.pos m * 100) (2 ^ (- e)) in
      (if s then "-" else "")
        ++ decimal (hundredths / 100) ++ "." ++ two_digits (hundredths mod 100)
  end.

End Fmt.

(** ** The functions of [main.py] *)

Import Mongo.

(** The reason texts that [detect_fraud] appends. *)
Definition REASON_IP : string := "Blacklisted IP address".
Definition REASON_ACCOUNT : string := "Blacklisted recipient account".
Definition REASON_ODD_HOUR : string :=
  "Transaction at odd hours (12 AM - 4 AM)".
Definition REASON_AMOUNT_PREFIX : string :=
  "Abnormal transaction amount (z-score: ".
Definition REASON_GEO : string :=
  "Geographic drift detected (>500km from last location)".

(** [f"Abnormal transaction amount (z-score: {z_score:.2f})"] *)
Definition reason_amount (z_score : float) : string :=
  REASON_AMOUNT_PREFIX ++ Fmt.format_2f z_score ++ ")".

(** [BLACKLISTED_IPS] and [BLACKLISTED_ACCOUNTS] *)
Definition BLACKLISTED_IPS : list string :=
  ["192.168.1.100"; "10.0.0.50"; "172.16.0.25"; "203.0.113.45";
   "198.51.100.78"].

Definition BLACKLISTED_ACCOUNTS : list string :=
  ["ACC123456789"; "ACC987654321"; "ACC555666777"; "ACC111222333"].

(** [for x in l: body] *)
Fixpoint for_each {A : Type} (l : list A) (body : A -> M unit) : M unit :=
  match l with
  | [] => ret tt
  | x :: l' => _ <- body x ;; for_each l' body
  end.

(** [initialize_blacklist()] *)
Definition initialize_blacklist : M unit :=
  try_except
    (_ <- for_each BLACKLISTED_IPS
            (fun ip =>
               added_at <- datetime_now ;;
               blacklist_update_one "ip" ip
                 {| set_type := "ip"; set_value := ip;
                    set_added_at := added_at; set_reason := None |}) ;;
     _ <- for_each BLACKLISTED_ACCOUNTS
            (fun account =>
               added_at <- datetime_now ;;
               blacklist_update_one "account" account
                 {| set_type := "account"; set_value := account;
                    set_added_at := added_at; set_reason := None |}) ;;
     logger_info "Blacklist initialized successfully")
    (fun e => logger_error "Error initializing blacklist").

(** [get_coordinates(location)] *)
Definition get_coordinates (loc : string) : M (option LatLon) :=
  try_except
    (location_data <- geolocator_geocode loc ;;
     match location_data with
     | Some (latitude, longitude) => ret (Some (latitude, longitude))
     | None => ret None
     end)
    (fun e =>
       _ <- logger_error ("Error geocoding location " ++ loc) ;;
       ret None).

(** [calculate_distance(loc1, loc2)] *)
Definition calculate_distance (loc1 loc2 : string) : M float :=
  try_except
    (coords1 <- get_coordinates loc1 ;;
     coords2 <- get_coordinates loc2 ;;
     match coords1, coords2 with
     | Some c1, Some c2 => geodesic_kilometers c1 c2
     | _, _ => ret 0%float
     end)
    (fun e =>
       _ <- logger_error "Error calculating distance" ;;
       ret 0%float).

(** [is_odd_hour(timestamp_str)] *)
Definition is_odd_hour (timestamp_str : string) : M bool :=
  try_except
    (dt <- datetime_strptime timestamp_str ;;
     let hour := hour dt in
     ret ((0 <=? hour) && (hour <=? 4)))
    (fun e =>
       _ <- logger_error "Error parsing timestamp" ;;
       ret false).

(** [calculate_z_score(current_amount, card_type)] *)
Definition calculate_z_score (current_amount : float) (card : string)
  : M float :=
  try_except
    (recent_transactions <- transactions_find_sorted_limit card 5 ;;
     if (List.length recent_transactions <? 2)%nat then ret 0%float
     else
       let amounts := map doc_amount recent_transactions in
       let mean_amount := Np.mean amounts in
       let std_amount := Np.std amounts in
       if PrimFloat.eqb std_amount 0 then ret 0%float
       else
         let z_score := abs ((current_amount - mean_amount) / std_amount) in
         ret z_score)
    (fun e =>
       _ <- logger_error "Error calculating z-score" ;;
       ret 0%float).

(** [check_geographic_drift(location, card_type)] *)
Definition check_geographic_drift (loc card : string) : M bool :=
  try_except
    (last_transaction <- transactions_find_one_sorted card ;;
     match last_transaction with
     | None => ret false
     | Some t =>
         let last_location := doc_location t in
         distance <- calculate_distance loc last_location ;;
         ret (PrimFloat.ltb 500 distance)
     end)
    (fun e =>
       _ <- logger_error "Error checking geographic drift" ;;
       ret false).

(** The running pair ([fraud_reasons], [risk_score]) of [detect_fraud]. *)
Definition Acc : Type := (list string * Z)%type.

(** [fraud_reasons.append(reason); risk_score += weight] *)
Definition flag (reason : string) (weight : Z) (acc : Acc) : Acc :=
  ((fst acc ++ [reason])%list, snd acc + weight).

(** The five blocks of [detect_fraud], in the order of the source. *)

(** [# Check blacklisted IP] *)
Definition step_blacklisted_ip (client_ip : option string) (acc : Acc)
  : M Acc :=
  match client_ip with
  | None => ret acc
  | Some ip =>
      if truthy ip then
        blacklisted_ip <- blacklist_find_one "ip" ip ;;
        match blacklisted_ip with
        | Some _ => ret (flag REASON_IP 30 acc)
        | None => ret acc
        end
      else ret acc
  end.

(** [# Check blacklisted recipient account] *)
Definition step_blacklisted_account (transaction : Transaction) (acc : Acc)
  : M Acc :=
  blacklisted_account <-
    blacklist_find_one "account" (recipient_account_number transaction) ;;
  match blacklisted_account with
  | Some _ => ret (flag REASON_ACCOUNT 40 acc)
  | None => ret acc
  end.

(** [# Check odd hours] *)
Definition step_odd_hours (transaction : Transaction) (acc : Acc) : M Acc :=
  odd <- is_odd_hour (timestamp transaction) ;;
  if odd then ret (flag REASON_ODD_HOUR 15 acc) else ret acc.

(** [# Check amount anomaly] *)
Definition step_amount_anomaly (transaction : Transaction) (acc : Acc)
  : M Acc :=
  z_score <- calculate_z_score (amount transaction) (card_type transaction) ;;
  if PrimFloat.ltb 2 z_score
  then ret (flag (reason_amount z_score) 20 acc)
  else ret acc.

(** [# Check geographic drift] *)
Definition step_geographic_drift (transaction : Transaction) (acc : Acc)
  : M Acc :=
  drift <- check_geographic_drift (location transaction)
                                  (card_type transaction) ;;
  if drift then ret (flag REASON_GEO 25 acc) else ret acc.

(** [is_fraud = len(fraud_reasons) > 0 or risk_score >= 30] *)
Definition verdict (fraud_reasons : list string) (risk_score : Z) : bool :=
  (0 <? List.length fraud_reasons)%nat || (30 <=? risk_score).

(** [detect_fraud(transaction, client_ip=None)] *)
Definition detect_fraud (transaction : Transaction)
    (client_ip : option string) : M (bool * list string * Z) :=
  let acc : Acc := ([], 0) in
  acc <- step_blacklisted_ip client_ip acc ;;
  acc <- step_blacklisted_account transaction acc ;;
  acc <- step_odd_hours transaction acc ;;
  acc <- step_amount_anomaly transaction acc ;;
  acc <- step_geographic_drift transaction acc ;;
  let '(fraud_reasons, risk_score) := acc in
  let is_fraud := verdict fraud_reasons risk_score in
  ret (is_fraud, fraud_reasons, risk_score).

(** [check_fraud_endpoint(transaction, username)]: the handler of
    [POST /check_fraud], after [verify_token] has produced [username]. *)
Definition check_fraud_endpoint (transaction : Transaction)
    (username : string) : M TransactionResponse :=
  try_except
    ('(is_fraud, fraud_reasons, risk_score) <- detect_fraud transaction None ;;
     checked_at <- datetime_now ;;
     let transaction_doc :=
       {| doc_transaction_id := transaction_id transaction;
          doc_timestamp := timestamp transaction;
          doc_amount := amount transaction;
          doc_location := location transaction;
          doc_card_type := card_type transaction;
          doc_currency := currency transaction;
          doc_recipient_account_number := recipient_account_number transaction;
          doc_is_fraud := is_fraud;
          doc_fraud_reasons := fraud_reasons;
          doc_risk_score := risk_score;
          doc_checked_by := username;
          doc_checked_at := checked_at |} in
     _ <- transactions_insert_one transaction_doc ;;
     _ <- (if is_fraud then
             added_at <- datetime_now ;;
             _ <- blacklist_update_one
                    "account" (recipient_account_number transaction)
                    {| set_type := "account";
                       set_value := recipient_account_number transaction;
                       set_added_at := added_at;
                       set_reason :=
                         Some "Fraudulent transaction detected" |} ;;
             logger_info ("Fraudulent transaction detected: "
                          ++ transaction_id transaction)
           else ret tt) ;;
     ret {| resp_transaction_id := transaction_id transaction;
            resp_timestamp := timestamp transaction;
            resp_amount := amount transaction;
            resp_location := location transaction;
            resp_card_type := card_type transaction;
            resp_currency := currency transaction;
            resp_recipient_account_number :=
              recipient_account_number transaction;
            resp_is_fraud := is_fraud;
            resp_fraud_reasons := fraud_reasons;
            resp_risk_score := risk_score |})
    (fun e =>
       _ <- logger_error "Error checking fraud" ;;
       raise (HTTPException 500 "Error processing transaction")).

(** ** What a run computes, without the plumbing

    The evaluators never raise and touch nothing but the logger, so each has
    a value that depends on [Env] and on the stored transactions only.  The
    functions below are these values; the lemmas of the next part show that
    the monadic code computes them. *)

(** The coordinates [get_coordinates] returns. *)
Definition resolved (env : Env) (loc : string) : option LatLon :=
  match geocode env loc with
  | Ok (Some c) => Some c
  | Ok None => None
  | Raise _ => None
  end.

(** The distance [calculate_distance] returns. *)
Definition distance_of (env : Env) (loc1 loc2 : string) : float :=
  match resolved env loc1, resolved env loc2 with
  | Some c1, Some c2 =>
      match geodesic_km env c1 c2 with
      | Ok d => d
      | Raise _ => 0%float
      end
  | _, _ => 0%float
  end.

(** The value of [is_odd_hour]. *)
Definition odd_hour_of (env : Env) (timestamp_str : string) : bool :=
  match strptime env timestamp_str with
  | Ok dt => (0 <=? hour dt) && (hour dt <=? 4)
  | Raise _ => false
  end.

(** The history window of the amount check: the five newest documents of
    the card type, when the query is answered. *)
Definition recent (txs : list TransactionDoc) (card : string)
  : list TransactionDoc :=
  firstn 5 (sort_timestamp_desc (filter (has_card_type card) txs)).

(** The z-score of [current_amount] against the amounts of a window. *)
Definition z_of_window (current_amount : float) (window : list TransactionDoc)
  : float :=
  let amounts := map doc_amount window in
  if (List.length window <? 2)%nat then 0%float
  else if PrimFloat.eqb (Np.std amounts) 0 then 0%float
  else abs ((current_amount - Np.mean amounts) / Np.std amounts).

(** The value of [calculate_z_score]. *)
Definition z_score_of (env : Env) (txs : list TransactionDoc)
    (current_amount : float) (card : string) : float :=
  if mongo_fails env (OpTransactionsFind card) then 0%float
  else z_of_window current_amount (recent txs card).

(** The newest document of the card type. *)
Definition last_of (txs : list TransactionDoc) (card : string)
  : option TransactionDoc :=
  hd_error (sort_timestamp_desc (filter (has_card_type card) txs)).

(** The value of [check_geographic_drift]. *)
Definition drift_of (env : Env) (txs : list TransactionDoc)
    (loc card : string) : bool :=
  if mongo_fails env (OpTransactionsFindOne card) then false
  else match last_of txs card with
       | None => false
       | Some t => PrimFloat.ltb 500 (distance_of env loc (doc_location t))
       end.

(** Whether the blacklist holds a document of the given kind and value. *)
Definition listed (w : World) (kind value : string) : bool :=
  match find (matches kind value) (blacklist w) with
  | Some _ => true
  | None => false
  end.

(** Whether [detect_fraud] consults the blacklist for [client_ip]. *)
Definition ip_consulted (client_ip : option string) : option string :=
  match client_ip with
  | Some ip => if truthy ip then Some ip else None
  | None => None
  end.

(** The two store lookups of [detect_fraud] are answered (the driver does
    not raise on them). *)
Definition lookups_answered (env : Env) (transaction : Transaction)
    (client_ip : option string) : Prop :=
  match ip_consulted client_ip with
  | Some ip => mongo_fails env (OpBlacklistFindOne "ip" ip) = false
  | None => True
  end
  /\ mongo_fails env
       (OpBlacklistFindOne "account" (recipient_account_number transaction))
     = false.

(** Which of the five findings a call raises. *)
Record Triggers : Type := mkTriggers {
  t_ip : bool;
  t_account : bool;
  t_odd : bool;
  t_amount : option float;
  t_geo : bool
}.

Definition triggers_of (env : Env) (w : World) (transaction : Transaction)
    (client_ip : option string) : Triggers :=
  {| t_ip := match ip_consulted client_ip with
             | Some ip => listed w "ip" ip
             | None => false
             end;
     t_account := listed w "account" (recipient_account_number transaction);
     t_odd := odd_hour_of env (timestamp transaction);
     t_amount :=
       (let z := z_score_of env (transactions w) (amount transaction)
                            (card_type transaction) in
        if PrimFloat.ltb 2 z then Some z else None);
     t_geo := drift_of env (transactions w) (location transaction)
                       (card_type transaction) |}.

(** The reasons and the score that a set of triggered findings amounts to,
    in the order of the blocks of [detect_fraud]. *)
Definition assessment (t : Triggers) : Acc :=
  let acc : Acc := ([], 0) in
  let acc := if t_ip t then flag REASON_IP 30 acc else acc in
  let acc := if t_account t then flag REASON_ACCOUNT 40 acc else acc in
  let acc := if t_odd t then flag REASON_ODD_HOUR 15 acc else acc in
  let acc := match t_amount t with
             | Some z => flag (reason_amount z) 20 acc
             | None => acc
             end in
  if t_geo t then flag REASON_GEO 25 acc else acc.

(** [s.startswith(p)] *)
Fixpoint starts_with (p s : string) : bool :=
  match p with
  | EmptyString => true
  | String a p' =>
      match s with
      | EmptyString => false
      | String b s' => Ascii.eqb a b && starts_with p' s'
      end
  end.

(** The point value of a finding, read off its reason text. *)
Definition finding_weight (reason : string) : Z :=
  if (reason =? REASON_IP)%string then 30
  else if (reason =? REASON_ACCOUNT)%string then 40
  else if (reason =? REASON_ODD_HOUR)%string then 15
  else if starts_with REASON_AMOUNT_PREFIX reason then 20
  else if (reason =? REASON_GEO)%string then 25
  else 0.

Definition sum_weights (reasons : list string) : Z :=
  fold_right (fun r s => finding_weight r + s) 0 reasons.

(** A reason text of the amount-anomaly finding. *)
Definition is_amount_reason (reason : string) : bool :=
  starts_with REASON_AMOUNT_PREFIX reason.

(** ** The wording of the specification, for comparison *)

(** The verdict rule without its numeric clause: fraud is any finding. *)
Definition verdict_simplified (fraud_reasons : list string) : bool :=
  (0 <? List.length fraud_reasons)%nat.

(** [detect_fraud] with the simplified verdict rule. *)
Definition detect_fraud_simplified (transaction : Transaction)
    (client_ip : option string) : M (bool * list string * Z) :=
  let acc : Acc := ([], 0) in
  acc <- step_blacklisted_ip client_ip acc ;;
  acc <- step_blacklisted_account transaction acc ;;
  acc <- step_odd_hours transaction acc ;;
  acc <- step_amount_anomaly transaction acc ;;
  acc <- step_geographic_drift transaction acc ;;
  let '(fraud_reasons, risk_score) := acc in
  ret (verdict_simplified fraud_reasons, fraud_reasons, risk_score).

(** The z-score as the specification words it: the distance of the amount
    from the sample mean, in sample standard deviations (divisor [n - 1]). *)
Definition z_of_window_sample (current_amount : float)
    (window : list TransactionDoc) : float :=
  let amounts := map doc_amount window in
  if (List.length window <? 2)%nat then 0%float
  else if PrimFloat.eqb (Np.std_sample amounts) 0 then 0%float
  else (abs (current_amount - Np.mean amounts) / Np.std_sample amounts)%float.

(** The odd-hour reason as the specification spells it, with an en dash
    (U+2013, bytes E2 80 93) where the source has a hyphen-minus. *)
Definition REASON_ODD_HOUR_EN_DASH : string :=
  "Transaction at odd hours (12 AM " ++
  String (ascii_of_nat 226) (String (ascii_of_nat 128)
    (String (ascii_of_nat 147) " 4 AM)")).

(** The number of blacklist documents with the given kind and value. *)
Definition entries_for (w : World) (kind value : string) : nat :=
  List.length (filter (matches kind value) (blacklist w)).

(** ** Example data *)

Module Example.

Definition digit_value (c : ascii) : option Z :=
  let n := Z.of_nat (nat_of_ascii c) in
  if (48 <=? n) && (n <=? 57) then Some (n - 48) else None.

Fixpoint digits_value (s : string) (acc : Z) : option Z :=
  match s with
  | EmptyString => Some acc
  | String c s' =>
      match digit_value c with
      | Some d => digits_value s' (10 * acc + d)
      | None => None
      end
  end.

Definition field (s : string) (start len : nat) : option Z :=
  digits_value (substring start len s) 0.

Definition leap (y : Z) : bool :=
  (y mod 4 =? 0) && (negb (y mod 100 =? 0) || (y mod 400 =? 0)).

Definition days_in_month (y m : Z) : Z :=
  if m =? 2 then (if leap y then 29 else 28)
  else if (m =? 4) || (m =? 6) || (m =? 9) || (m =? 11) then 30
  else 31.

Definition separators_ok (s : string) : bool :=
  (String.length s =? 19)%nat
  && (substring 4 1 s =? "-")%string && (substring 7 1 s =? "-")%string
  && (substring 10 1 s =? " ")%string
  && (substring 13 1 s =? ":")%string && (substring 16 1 s =? ":")%string.

(** [strptime] on timestamps written in full, "YYYY-MM-DD HH:MM:SS" with
    every field zero-padded; the shorter spellings that Python also
    accepts are refused here.  The example environments use it. *)
Definition strptime_canonical (s : string) : result datetime :=
  if separators_ok s then
    match field s 0 4, field s 5 2, field s 8 2,
          field s 11 2, field s 14 2, field s 17 2 with
    | Some y, Some mo, Some d, Some h, Some mi, Some se =>
        if (1 <=? y) && (1 <=? mo) && (mo <=? 12)
           && (1 <=? d) && (d <=? days_in_month y mo)
           && (h <=? 23) && (mi <=? 59) && (se <=? 59)
        then Ok {| year := y; month := mo; day := d;
                   hour := h; minute := mi; second := se |}
        else Raise ValueError
    | _, _, _, _, _, _ => Raise ValueError
    end
  else Raise ValueError.

(** A geocoder that knows three cities, finds nothing for other names and
    times out on "Timeout". *)
Definition geocoder (loc : string) : result (option LatLon) :=
  if (loc =? "Chennai")%string then Ok (Some (13.0, 80.25)%float)
  else if (loc =? "Mumbai")%string then Ok (Some (19.0, 72.75)%float)
  else if (loc =? "Vellore")%string then Ok (Some (13.0, 79.0)%float)
  else if (loc =? "Timeout")%string then Raise GeocoderError
  else Ok None.

(** A stand-in for the geodesic: 111 km for each degree of difference in
    latitude and in longitude. *)
Definition flat_km (c1 c2 : LatLon) : result float :=
  Ok (111 * (abs (fst c1 - fst c2) + abs (snd c1 - snd c2)))%float.

Definition env : Env :=
  {| mongo_fails := fun _ => false;
     geocode := geocoder;
     geodesic_km := flat_km;
     strptime := strptime_canonical;
     clock := fun n => 1700000000 + Z.of_nat n |}.

(** The same, with the blacklist lookups failing. *)
Definition env_blacklist_down : Env :=
  {| mongo_fails := fun op => match op with
                              | OpBlacklistFindOne _ _ => true
                              | _ => false
                              end;
     geocode := geocoder;
     geodesic_km := flat_km;
     strptime := strptime_canonical;
     clock := fun n => 1700000000 + Z.of_nat n |}.

Definition past (id ts : string) (amt : float) (loc card : string)
  : TransactionDoc :=
  {| doc_transaction_id := id; doc_timestamp := ts; doc_amount := amt;
     doc_location := loc; doc_card_type := card; doc_currency := "USD";
     doc_recipient_account_number := "ACC000000001";
     doc_is_fraud := false; doc_fraud_reasons := []; doc_risk_score := 0;
     doc_checked_by := "alice"; doc_checked_at := 1699990000 |}.

(** The state after start-up on empty collections: the predefined
    blacklist of the source, written by [initialize_blacklist]. *)
Definition started : World :=
  snd (initialize_blacklist env
         {| blacklist := []; transactions := []; ticks := 0; log := [] |}).

Definition predefined : list BlacklistEntry :=
  Eval vm_compute in blacklist started.

(** Five earlier "visa" payments in Chennai, two "amex" payments. *)
Definition history : list TransactionDoc :=
  [ past "T1" "2024-03-01 10:00:00" 10 "Chennai" "visa";
    past "T2" "2024-03-02 11:00:00" 12 "Chennai" "visa";
    past "T3" "2024-03-03 12:00:00" 11 "Chennai" "visa";
    past "T4" "2024-03-04 13:00:00" 13 "Chennai" "visa";
    past "T5" "2024-03-05 14:00:00" 10 "Chennai" "visa";
    past "A1" "2024-03-01 09:00:00" 1 "Vellore" "amex";
    past "A2" "2024-03-02 09:00:00" 3 "Vellore" "amex" ]%float.

(** The state the examples start from. *)
Definition world : World :=
  Eval vm_compute in set_transactions history started.

(** An ordinary payment: nothing triggers. *)
Definition tx_clean : Transaction :=
  {| transaction_id := "T6"; timestamp := "2024-03-06 15:30:00";
     amount := 11%float; location := "Chennai"; card_type := "visa";
     currency := "USD"; recipient_account_number := "ACC000000002" |}.

(** A payment to a blacklisted account at three in the morning, from
    Mumbai, of an unusual amount. *)
Definition tx_bad : Transaction :=
  {| transaction_id := "T7"; timestamp := "2024-03-06 03:15:00";
     amount := 50%float; location := "Mumbai"; card_type := "visa";
     currency := "USD"; recipient_account_number := "ACC123456789" |}.

(** An "amex" payment of 4.5 against the history amounts 1 and 3. *)
Definition tx_amex : Transaction :=
  {| transaction_id := "A3"; timestamp := "2024-03-06 16:00:00";
     amount := 4.5%float; location := "Vellore"; card_type := "amex";
     currency := "USD"; recipient_account_number := "ACC000000003" |}.

End Example.

(** ** Vocabulary of the statements *)

(** [detect_fraud] with the verdict rule as a parameter; [detect_fraud] is
    [detect_with verdict] and [detect_fraud_simplified] is
    [detect_with (fun reasons _ => verdict_simplified reasons)]. *)
Definition detect_with (rule : list string -> Z -> bool)
    (transaction : Transaction) (client_ip : option string)
  : M (bool * list string * Z) :=
  let acc : Acc := ([], 0) in
  acc <- step_blacklisted_ip client_ip acc ;;
  acc <- step_blacklisted_account transaction acc ;;
  acc <- step_odd_hours transaction acc ;;
  acc <- step_amount_anomaly transaction acc ;;
  acc <- step_geographic_drift transaction acc ;;
  let '(fraud_reasons, risk_score) := acc in
  ret (rule fraud_reasons risk_score, fraud_reasons, risk_score).

(** The five blocks of [detect_fraud] alone, before the verdict. *)
Definition blocks (transaction : Transaction) (client_ip : option string)
  : M Acc :=
  let acc : Acc := ([], 0) in
  acc <- step_blacklisted_ip client_ip acc ;;
  acc <- step_blacklisted_account transaction acc ;;
  acc <- step_odd_hours transaction acc ;;
  acc <- step_amount_anomaly transaction acc ;;
  step_geographic_drift transaction acc.

(** The reason [r] is in the list. *)
Definition mentions (r : string) (reasons : list string) : bool :=
  existsb (String.eqb r) reasons.

(** The score that a list of reasons stands for: each of the five findings
    counts once, with its weight, when its text is in the list. *)
Definition score_by_reasons (reasons : list string) : Z :=
  (if mentions REASON_IP reasons then 30 else 0)
  + (if mentions REASON_ACCOUNT reasons then 40 else 0)
  + (if mentions REASON_ODD_HOUR reasons then 15 else 0)
  + (if existsb is_amount_reason reasons then 20 else 0)
  + (if mentions REASON_GEO reasons then 25 else 0).

(** What [update_one(..., upsert=True)] makes of the blacklist. *)
Definition upsert (kind value : string) (s : SetDoc)
    (l : list BlacklistEntry) : list BlacklistEntry :=
  match update_first (matches kind value) (apply_set s) l with
  | Some l' => l'
  | None => (l ++ [upserted kind value s])%list
  end.

(** The [$set] document of the feedback write. *)
Definition feedback_set (transaction : Transaction) (added_at : Z) : SetDoc :=
  {| set_type := "account";
     set_value := recipient_account_number transaction;
     set_added_at := added_at;
     set_reason := Some "Fraudulent transaction detected" |}.

(** The blacklist document that the feedback write leaves for the recipient
    account of a transaction. *)
Definition feedback_entry (transaction : Transaction) (added_at : Z)
  : BlacklistEntry :=
  {| b_type := "account";
     b_value := recipient_account_number transaction;
     b_added_at := added_at;
     b_reason := Some "Fraudulent transaction detected" |}.

(** The document [check_fraud_endpoint] stores for a transaction. *)
Definition stored_doc (transaction : Transaction) (username : string)
    (is_fraud : bool) (fraud_reasons : list string) (risk_score : Z)
    (checked_at : Z) : TransactionDoc :=
  {| doc_transaction_id := transaction_id transaction;
     doc_timestamp := timestamp transaction;
     doc_amount := amount transaction;
     doc_location := location transaction;
     doc_card_type := card_type transaction;
     doc_currency := currency transaction;
     doc_recipient_account_number := recipient_account_number transaction;
     doc_is_fraud := is_fraud;
     doc_fraud_reasons := fraud_reasons;
     doc_risk_score := risk_score;
     doc_checked_by := username;
     doc_checked_at := checked_at |}.

(** The response [check_fraud_endpoint] returns for a transaction. *)
Definition response (transaction : Transaction) (is_fraud : bool)
    (fraud_reasons : list string) (risk_score : Z) : TransactionResponse :=
  {| resp_transaction_id := transaction_id transaction;
     resp_timestamp := timestamp transaction;
     resp_amount := amount transaction;
     resp_location := location transaction;
     resp_card_type := card_type transaction;
     resp_currency := currency transaction;
     resp_recipient_account_number := recipient_account_number transaction;
     resp_is_fraud := is_fraud;
     resp_fraud_reasons := fraud_reasons;
     resp_risk_score := risk_score |}.

(** The error [check_fraud_endpoint] answers with. *)
Definition HTTP_500 : exn :=
  HTTPException 500 "Error processing transaction".

(** Every (kind, value) pair has at most one blacklist document. *)
Definition unique_keys (l : list BlacklistEntry) : Prop :=
  forall kind value,
    (List.length (filter (matches kind value) l) <= 1)%nat.

(** [a] is at least as recent as [b], by the "timestamp" strings. *)
Definition newer_or_equal (a b : TransactionDoc) : Prop :=
  String.leb (doc_timestamp b) (doc_timestamp a) = true.

(** The score that a list of reasons stands for when the blacklisted-IP
    finding cannot occur. *)
Definition score_without_ip (reasons : list string) : Z :=
  (if mentions REASON_ACCOUNT reasons then 40 else 0)
  + (if mentions REASON_ODD_HOUR reasons then 15 else 0)
  + (if existsb is_amount_reason reasons then 20 else 0)
  + (if mentions REASON_GEO reasons then 25 else 0).

(** No finding is triggered. *)
Definition no_trigger (t : Triggers) : Prop :=
  t_ip t = false /\ t_account t = false /\ t_odd t = false
  /\ t_amount t = None /\ t_geo t = false.

(** ** The listing endpoints of [main.py] *)

(** The same monad for the handlers outside the engine, whose environment
    and state differ: a reader of [E], a state [S], errors. *)
Module Gen.

Definition G (E S A : Type) : Type := E -> S -> result A * S.

Definition ret {E S A : Type} (a : A) : G E S A := fun _ s => (Ok a, s).

Definition raise {E S A : Type} (e : exn) : G E S A :=
  fun _ s => (Raise e, s).

Definition bind {E S A B : Type} (m : G E S A) (k : A -> G E S B)
  : G E S B :=
  fun env s =>
    match m env s with
    | (Ok a, s') => k a env s'
    | (Raise e, s') => (Raise e, s')
    end.

(** [try: body except ...: handler], where [handler e] re-raises the
    exceptions that no [except] clause matches. *)
Definition try_except {E S A : Type} (body : G E S A)
    (handler : exn -> G E S A) : G E S A :=
  fun env s =>
    match body env s with
    | (Ok a, s') => (Ok a, s')
    | (Raise e, s') => handler e env s'
    end.

End Gen.

Declare Scope gen_scope.
Delimit Scope gen_scope with gen.
Notation "x <- m ;; k" := (Gen.bind m (fun x => k))
  (at level 61, m at next level, right associativity) : gen_scope.

(** The three listing queries. *)
Inductive ListingOp : Type :=
| OpTransactionsFindAll
| OpTransactionsFindFlagged
| OpBlacklistFindAll.

(** [listing_fails op] says that the driver raises on the query [op]. *)
Record ListingEnv : Type := mkListingEnv {
  listing_fails : ListingOp -> bool
}.

Module Listing.

Definition L (A : Type) : Type := Gen.G ListingEnv World A.

Definition logger_error (line : string) : L unit :=
  fun _ w => (Ok tt, logged [line] w).

(** Insertion into a list that is sorted by [key], largest first; among
    documents with the same key the earlier of the collection comes
    first. *)
Fixpoint insert_by_desc {A : Type} (key : A -> Z) (x : A) (l : list A)
  : list A :=
  match l with
  | [] => [x]
  | y :: l' =>
      if key y <=? key x then x :: y :: l'
      else y :: insert_by_desc key x l'
  end.

(** [.sort(field, -1)] on a date field. *)
Definition sort_by_desc {A : Type} (key : A -> Z) (l : list A) : list A :=
  fold_right (insert_by_desc key) [] l.

(** [list(transactions_collection.find({}, {"_id": 0})
          .sort("checked_at", -1))] *)
Definition transactions_find_all : L (list TransactionDoc) :=
  fun env w =>
    if listing_fails env OpTransactionsFindAll
    then (Raise PyMongoError, w)
    else (Ok (sort_by_desc doc_checked_at (transactions w)), w).

(** [list(transactions_collection.find({"is_fraud": True}, {"_id": 0})
          .sort("checked_at", -1))] *)
Definition transactions_find_flagged : L (list TransactionDoc) :=
  fun env w =>
    if listing_fails env OpTransactionsFindFlagged
    then (Raise PyMongoError, w)
    else (Ok (sort_by_desc doc_checked_at
                (filter doc_is_fraud (transactions w))), w).

(** [list(blacklist_collection.find({}, {"_id": 0}).sort("added_at", -1))] *)
Definition blacklist_find_all : L (list BlacklistEntry) :=
  fun env w =>
    if listing_fails env OpBlacklistFindAll
    then (Raise PyMongoError, w)
    else (Ok (sort_by_desc b_added_at (blacklist w)), w).

Local Open Scope gen_scope.

(** [get_transactions(username)]; the result is the value under the key
    "transactions". *)
Definition get_transactions (username : string) : L (list TransactionDoc) :=
  Gen.try_except
    (transactions <- transactions_find_all ;;
     Gen.ret transactions)
    (fun e =>
       _ <- logger_error "Error getting transactions" ;;
       Gen.raise (HTTPException 500 "Error fetching transactions")).

(** [get_flagged_transactions(username)]; the result is the value under the
    key "flagged_transactions". *)
Definition get_flagged_transactions (username : string)
  : L (list TransactionDoc) :=
  Gen.try_except
    (flagged_transactions <- transactions_find_flagged ;;
     Gen.ret flagged_transactions)
    (fun e =>
       _ <- logger_error "Error getting flagged transactions" ;;
       Gen.raise (HTTPException 500 "Error fetching flagged transactions")).

(** [get_blacklist(username)]; the result is the value under the key
    "blacklist". *)
Definition get_blacklist (username : string) : L (list BlacklistEntry) :=
  Gen.try_except
    (blacklist_items <- blacklist_find_all ;;
     Gen.ret blacklist_items)
    (fun e =>
       _ <- logger_error "Error getting blacklist" ;;
       Gen.raise (HTTPException 500 "Error fetching blacklist")).

End Listing.

(** ** Accounts and tokens: [signup], [login], [verify_token] *)

(** [class UserCreate(BaseModel)] *)
Record UserCreate : Type := mkUserCreate {
  uc_username : string;
  uc_email : string;
  uc_password : string
}.

(** [class UserLogin(BaseModel)] *)
Record UserLogin : Type := mkUserLogin {
  ul_username : string;
  ul_password : string
}.

(** A document of [db.users]: the fields [signup] writes and the "_id" the
    driver adds. *)
Record UserDoc : Type := mkUserDoc {
  u_id : string;
  u_username : string;
  u_email : string;
  u_password : string;
  u_created_at : Z
}.

(** The two calls to the driver on [users_collection]. *)
Inductive UsersOp : Type :=
| OpUsersFindOne (username : string)
| OpUsersInsertOne (username : string).

(** What [jwt.decode(token, SECRET_KEY, algorithms=["HS256"])] does: it
    returns a payload, of which only [payload.get("sub")] is used, or raises
    a [jwt.PyJWTError], or raises something else. *)
Inductive JwtOutcome : Type :=
| JwtPayload (sub : option string)
| JwtError
| JwtOtherError (e : exn).

(** What the outside answers to the account handlers.  [users_fails op]:
    the driver raises on [op]; [gensalt n], [object_id n] and [auth_clock
    n]: the [n]-th salt of [bcrypt.gensalt()], the [n]-th "_id" and the
    [n]-th reading of the clock; [hashpw] and [checkpw]: bcrypt on
    UTF-8 encoded passwords; [jwt_encode sub] is
    [jwt.encode({"sub": sub}, SECRET_KEY, algorithm="HS256")]. *)
Record AuthEnv : Type := mkAuthEnv {
  users_fails : UsersOp -> bool;
  gensalt : nat -> string;
  hashpw : string -> string -> result string;
  checkpw : string -> string -> result bool;
  object_id : nat -> string;
  auth_clock : nat -> Z;
  jwt_encode : string -> result string;
  jwt_decode : string -> JwtOutcome
}.

(** The users collection in insertion order, the number of salts, ids and
    clock readings drawn, and the logger. *)
Record AuthWorld : Type := mkAuthWorld {
  users : list UserDoc;
  salts_drawn : nat;
  ids_drawn : nat;
  auth_ticks : nat;
  auth_log : list string
}.

Module Auth.

Definition A (T : Type) : Type := Gen.G AuthEnv AuthWorld T.

Definition logger_error (line : string) : A unit :=
  fun _ w =>
    (Ok tt,
     {| users := users w; salts_drawn := salts_drawn w;
        ids_drawn := ids_drawn w; auth_ticks := auth_ticks w;
        auth_log := (auth_log w ++ [line])%list |}).

(** [datetime.now()] *)
Definition datetime_now : A Z :=
  fun env w =>
    (Ok (auth_clock env (auth_ticks w)),
     {| users := users w; salts_drawn := salts_drawn w;
        ids_drawn := ids_drawn w; auth_ticks := S (auth_ticks w);
        auth_log := auth_log w |}).

(** [bcrypt.gensalt()] *)
Definition bcrypt_gensalt : A string :=
  fun env w =>
    (Ok (gensalt env (salts_drawn w)),
     {| users := users w; salts_drawn := S (salts_drawn w);
        ids_drawn := ids_drawn w; auth_ticks := auth_ticks w;
        auth_log := auth_log w |}).

(** [bcrypt.hashpw(password, salt)] *)
Definition bcrypt_hashpw (password salt : string) : A string :=
  fun env w => (hashpw env password salt, w).

(** [bcrypt.checkpw(password, hashed)] *)
Definition bcrypt_checkpw (password hashed : string) : A bool :=
  fun env w => (checkpw env password hashed, w).

(** [users_collection.find_one({"username": username})] *)
Definition users_find_one (username : string) : A (option UserDoc) :=
  fun env w =>
    if users_fails env (OpUsersFindOne username)
    then (Raise PyMongoError, w)
    else (Ok (find (fun u => (u_username u =? username)%string) (users w)),
          w).

(** [users_collection.insert_one(user_doc)]: returns the "_id" given to the
    document. *)
Definition users_insert_one (username email password : string)
    (created_at : Z) : A string :=
  fun env w =>
    if users_fails env (OpUsersInsertOne username)
    then (Raise PyMongoError, w)
    else
      let id := object_id env (ids_drawn w) in
      (Ok id,
       {| users := (users w ++ [{| u_id := id; u_username := username;
                                   u_email := email; u_password := password;
                                   u_created_at := created_at |}])%list;
          salts_drawn := salts_drawn w; ids_drawn := S (ids_drawn w);
          auth_ticks := auth_ticks w; auth_log := auth_log w |}).

Local Open Scope gen_scope.

(** [create_access_token(data)] with [data = {"sub": sub}] *)
Definition create_access_token (sub : string) : A string :=
  fun env w => (jwt_encode env sub, w).

Definition HTTP_401 : exn :=
  HTTPException 401 "Invalid authentication credentials".

(** [verify_token(credentials)]: [except jwt.PyJWTError] catches the
    failures of [jwt.decode] only; the 401 raised for a payload without
    "sub" is no [PyJWTError] and passes through, as any other exception. *)
Definition verify_token (token : string) : A string :=
  fun env w =>
    match jwt_decode env token with
    | JwtPayload (Some username) => (Ok username, w)
    | JwtPayload None => (Raise HTTP_401, w)
    | JwtError => (Raise HTTP_401, w)
    | JwtOtherError e => (Raise e, w)
    end.

(** [signup(user)]; the result is the value under the key "user_id". *)
Definition signup (user : UserCreate) : A string :=
  Gen.try_except
    (existing_user <- users_find_one (uc_username user) ;;
     match existing_user with
     | Some _ =>
         Gen.raise (HTTPException 400 "Username already registered")
     | None =>
         salt <- bcrypt_gensalt ;;
         hashed_password <- bcrypt_hashpw (uc_password user) salt ;;
         created_at <- datetime_now ;;
         inserted_id <- users_insert_one (uc_username user) (uc_email user)
                          hashed_password created_at ;;
         Gen.ret inserted_id
     end)
    (fun e =>
       _ <- logger_error "Error creating user" ;;
       Gen.raise (HTTPException 500 "Error creating user")).

(** [login(user)]; the result is the value under the key "access_token".
    [except HTTPException: raise] comes before [except Exception]. *)
Definition login (user : UserLogin) : A string :=
  Gen.try_except
    (user_doc <- users_find_one (ul_username user) ;;
     match user_doc with
     | None =>
         Gen.raise (HTTPException 401 "Invalid username or password")
     | Some doc =>
         password_ok <- bcrypt_checkpw (ul_password user) (u_password doc) ;;
         if negb password_ok then
           Gen.raise (HTTPException 401 "Invalid username or password")
         else
           access_token <- create_access_token (ul_username user) ;;
           Gen.ret access_token
     end)
    (fun e =>
       match e with
       | HTTPException _ _ => Gen.raise e
       | _ =>
           _ <- logger_error "Error logging in" ;;
           Gen.raise (HTTPException 500 "Error logging in")
       end).

End Auth.

(** ** Sequences of requests *)

(** One call of [POST /check_fraud], with what the outside answers during
    it. *)
Record Request : Type := mkRequest {
  req_env : Env;
  req_transaction : Transaction;
  req_username : string
}.

(** The state after serving the requests one after the other. *)
Fixpoint serve (requests : list Request) (w : World) : World :=
  match requests with
  | [] => w
  | r :: rest =>
      serve rest
        (snd (check_fraud_endpoint (req_transaction r) (req_username r)
                (req_env r) w))
  end.

(** Every username has at most one document in [db.users]. *)
Definition unique_usernames (l : list UserDoc) : Prop :=
  forall username,
    (List.length (filter (fun u => (u_username u =? username)%string) l)
     <= 1)%nat.

(** [l] lists its elements with the largest [key] first. *)
Definition sorted_desc {T : Type} (key : T -> Z) (l : list T) : Prop :=
  StronglySorted (fun a b => key b <= key a) l.

(** The log of [w] continued. *)
Definition log_extends (w w' : World) : Prop :=
  exists lines, log w' = (log w ++ lines)%list.

(** The driver answers every write of [initialize_blacklist]. *)
Definition startup_answered (env : Env) : Prop :=
  (forall ip, In ip BLACKLISTED_IPS ->
              mongo_fails env (OpBlacklistUpdateOne "ip" ip) = false)
  /\ (forall account, In account BLACKLISTED_ACCOUNTS ->
                      mongo_fails env (OpBlacklistUpdateOne "account" account)
                      = false).

(** The (kind, value) pair is one of the predefined ones. *)
Definition predefined_key (kind value : string) : Prop :=
  (kind = "ip" /\ In value BLACKLISTED_IPS)
  \/ (kind = "account" /\ In value BLACKLISTED_ACCOUNTS).

(** One round of the loops of [initialize_blacklist]. *)
Definition startup_round (kind value : string) : M unit :=
  (added_at <- datetime_now ;;
   blacklist_update_one kind value
     {| set_type := kind; set_value := value;
        set_added_at := added_at; set_reason := None |})%py.

(** More example data. *)
Module Sample.

(** The history queries fail; everything else is as in [Example.env]. *)
Definition env_history_down : Env :=
  {| mongo_fails := fun op => match op with
                              | OpTransactionsFind _ => true
                              | OpTransactionsFindOne _ => true
                              | _ => false
                              end;
     geocode := Example.geocoder;
     geodesic_km := Example.flat_km;
     strptime := Example.strptime_canonical;
     clock := fun n => 1700000000 + Z.of_nat n |}.

(** The feedback write fails; everything else is as in [Example.env]. *)
Definition env_feedback_down : Env :=
  {| mongo_fails := fun op => match op with
                              | OpBlacklistUpdateOne _ _ => true
                              | _ => false
                              end;
     geocode := Example.geocoder;
     geodesic_km := Example.flat_km;
     strptime := Example.strptime_canonical;
     clock := fun n => 1700000000 + Z.of_nat n |}.

Definition empty_world : World :=
  {| blacklist := []; transactions := []; ticks := 0; log := [] |}.

Definition listing_up : ListingEnv :=
  {| listing_fails := fun _ => false |}.

Definition listing_down : ListingEnv :=
  {| listing_fails := fun _ => true |}.

End Sample.

(** bcrypt accepts, when asked through [env'], a password against the hash
    it made of it through [env]. *)
Definition bcrypt_verifies (env env' : AuthEnv) : Prop :=
  forall password salt hashed,
    hashpw env password salt = Ok hashed ->
    checkpw env' password hashed = Ok true.

(** [jwt.decode] gives back the "sub" of a token made by [jwt.encode]. *)
Definition jwt_round_trip (env : AuthEnv) : Prop :=
  forall sub token,
    jwt_encode env sub = Ok token ->
    jwt_decode env token = JwtPayload (Some sub).

(** bcrypt and jwt raise errors of their own, no [HTTPException]. *)
Definition libraries_raise_no_http (env : AuthEnv) : Prop :=
  (forall password hashed code detail,
      checkpw env password hashed <> Raise (HTTPException code detail))
  /\ (forall sub code detail,
         jwt_encode env sub <> Raise (HTTPException code detail)).

(** The document with the given username, if any. *)
Definition user_named (username : string) (l : list UserDoc)
  : option UserDoc :=
  find (fun u => (u_username u =? username)%string) l.

(** Example data for the account handlers. *)
Module SampleAuth.

(** Stand-ins for the libraries: the "hash" is the password behind a fixed
    prefix, checked by recomputing it; the "token" is the subject
    itself. *)
Definition env : AuthEnv :=
  {| users_fails := fun _ => false;
     gensalt := fun _ => "s0$";
     hashpw := fun password _ => Ok ("s0$" ++ password);
     checkpw := fun password hashed =>
                  Ok (("s0$" ++ password) =? hashed)%string;
     object_id := fun n => "id" ++ NilZero.string_of_uint (Nat.to_uint n);
     auth_clock := fun n => 1700000000 + Z.of_nat n;
     jwt_encode := fun sub => Ok sub;
     jwt_decode := fun token => JwtPayload (Some token) |}.

Definition empty : AuthWorld :=
  {| users := []; salts_drawn := 0; ids_drawn := 0;
     auth_ticks := 0; auth_log := [] |}.

Definition alice : UserCreate :=
  {| uc_username := "alice"; uc_email := "alice@example.org";
     uc_password := "correct horse" |}.

(** The state after [alice] has signed up. *)
Definition with_alice : AuthWorld :=
  Eval vm_compute in snd (Auth.signup alice env empty).

End SampleAuth.

(** * Properties *)

(** ** The logger is the only thing an evaluator touches *)

Lemma logged_nil (w : World) : logged [] w = w.
Proof. destruct w; unfold logged; simpl; now rewrite app_nil_r. Qed.

Lemma logged_logged (l1 l2 : list string) (w : World) :
  logged l2 (logged l1 w) = logged (l1 ++ l2) w.
Proof. unfold logged; simpl; now rewrite app_assoc. Qed.

Lemma logged_transactions (l : list string) (w : World) :
  transactions (logged l w) = transactions w.
Proof. reflexivity. Qed.

(** Closes a goal [exists lines, (Ok v, w') = (Ok v, logged lines w)] where
    [w'] is [w] after zero, one or two logged runs. *)
Ltac log_done :=
  first
    [ exists (@nil string); rewrite logged_nil; reflexivity
    | eexists; reflexivity
    | eexists; rewrite logged_logged; reflexivity ].

(** ** What each function of the source returns *)

Lemma get_coordinates_run (loc : string) (env : Env) (w : World) :
  exists lines,
    get_coordinates loc env w = (Ok (resolved env loc), logged lines w).
Proof.
  unfold get_coordinates, try_except, bind, geolocator_geocode, resolved.
  destruct (geocode env loc) as [[[lat lon]|]|e]; simpl; log_done.
Qed.

Lemma calculate_distance_run (loc1 loc2 : string) (env : Env) (w : World) :
  exists lines,
    calculate_distance loc1 loc2 env w
    = (Ok (distance_of env loc1 loc2), logged lines w).
Proof.
  unfold calculate_distance, try_except, bind, distance_of.
  destruct (get_coordinates_run loc1 env w) as [l1 ->].
  destruct (get_coordinates_run loc2 env (logged l1 w)) as [l2 ->].
  rewrite logged_logged.
  destruct (resolved env loc1) as [c1|], (resolved env loc2) as [c2|];
    try (eexists; reflexivity).
  unfold geodesic_kilometers.
  destruct (geodesic_km env c1 c2) as [d|e]; simpl.
  - eexists; reflexivity.
  - unfold logger_error. eexists. rewrite logged_logged. reflexivity.
Qed.

Lemma is_odd_hour_run (timestamp_str : string) (env : Env) (w : World) :
  exists lines,
    is_odd_hour timestamp_str env w
    = (Ok (odd_hour_of env timestamp_str), logged lines w).
Proof.
  unfold is_odd_hour, try_except, bind, datetime_strptime, odd_hour_of.
  destruct (strptime env timestamp_str) as [dt|e]; simpl; log_done.
Qed.

Lemma calculate_z_score_run (current_amount : float) (card : string)
    (env : Env) (w : World) :
  exists lines,
    calculate_z_score current_amount card env w
    = (Ok (z_score_of env (transactions w) current_amount card),
       logged lines w).
Proof.
  unfold calculate_z_score, try_except, bind, transactions_find_sorted_limit,
    z_score_of, z_of_window, recent.
  destruct (mongo_fails env (OpTransactionsFind card)); simpl.
  - log_done.
  - destruct (List.length _ <? 2)%nat; simpl; [log_done|].
    destruct (PrimFloat.eqb _ 0); simpl; log_done.
Qed.

Lemma check_geographic_drift_run (loc card : string) (env : Env)
    (w : World) :
  exists lines,
    check_geographic_drift loc card env w
    = (Ok (drift_of env (transactions w) loc card), logged lines w).
Proof.
  unfold check_geographic_drift, try_except, bind,
    transactions_find_one_sorted, drift_of, last_of.
  destruct (mongo_fails env (OpTransactionsFindOne card)); simpl.
  - log_done.
  - destruct (hd_error _) as [t|]; simpl; [|log_done].
    destruct (calculate_distance_run loc (doc_location t) env w) as [l ->].
    simpl. eexists; reflexivity.
Qed.

(** ** The blocks of [detect_fraud] *)

Lemma step_blacklisted_ip_run (client_ip : option string) (acc : Acc)
    (env : Env) (w : World) :
  step_blacklisted_ip client_ip acc env w
  = match ip_consulted client_ip with
    | Some ip =>
        if mongo_fails env (OpBlacklistFindOne "ip" ip)
        then (Raise PyMongoError, w)
        else (Ok (if listed w "ip" ip then flag REASON_IP 30 acc else acc), w)
    | None => (Ok acc, w)
    end.
Proof.
  unfold step_blacklisted_ip, ip_consulted.
  destruct client_ip as [ip|]; [|reflexivity].
  destruct (truthy ip); [|reflexivity].
  unfold bind, blacklist_find_one, listed.
  destruct (mongo_fails env _); [reflexivity|].
  destruct (find _ _); reflexivity.
Qed.

Lemma step_blacklisted_account_run (transaction : Transaction) (acc : Acc)
    (env : Env) (w : World) :
  step_blacklisted_account transaction acc env w
  = if mongo_fails env
         (OpBlacklistFindOne "account" (recipient_account_number transaction))
    then (Raise PyMongoError, w)
    else (Ok (if listed w "account" (recipient_account_number transaction)
              then flag REASON_ACCOUNT 40 acc else acc), w).
Proof.
  unfold step_blacklisted_account, bind, blacklist_find_one, listed.
  destruct (mongo_fails env _); [reflexivity|].
  destruct (find _ _); reflexivity.
Qed.

Lemma step_odd_hours_run (transaction : Transaction) (acc : Acc)
    (env : Env) (w : World) :
  exists lines,
    step_odd_hours transaction acc env w
    = (Ok (if odd_hour_of env (timestamp transaction)
           then flag REASON_ODD_HOUR 15 acc else acc), logged lines w).
Proof.
  unfold step_odd_hours, bind.
  destruct (is_odd_hour_run (timestamp transaction) env w) as [l ->].
  destruct (odd_hour_of env _); eexists; reflexivity.
Qed.

Lemma step_amount_anomaly_run (transaction : Transaction) (acc : Acc)
    (env : Env) (w : World) :
  exists lines,
    step_amount_anomaly transaction acc env w
    = (Ok (let z := z_score_of env (transactions w) (amount transaction)
                               (card_type transaction) in
           if PrimFloat.ltb 2 z then flag (reason_amount z) 20 acc else acc),
       logged lines w).
Proof.
  unfold step_amount_anomaly, bind.
  destruct (calculate_z_score_run (amount transaction)
              (card_type transaction) env w) as [l ->].
  cbv zeta. destruct (PrimFloat.ltb 2 _); eexists; reflexivity.
Qed.

Lemma step_geographic_drift_run (transaction : Transaction) (acc : Acc)
    (env : Env) (w : World) :
  exists lines,
    step_geographic_drift transaction acc env w
    = (Ok (if drift_of env (transactions w) (location transaction)
                       (card_type transaction)
           then flag REASON_GEO 25 acc else acc), logged lines w).
Proof.
  unfold step_geographic_drift, bind.
  destruct (check_geographic_drift_run (location transaction)
              (card_type transaction) env w) as [l ->].
  destruct (drift_of env _ _ _); eexists; reflexivity.
Qed.

(** ** [detect_fraud], case by case *)

Lemma bind_run {A B : Type} (m : M A) (k : A -> M B) (env : Env) (w : World) :
  bind m k env w
  = match m env w with
    | (Ok a, w') => k a env w'
    | (Raise e, w') => (Raise e, w')
    end.
Proof. reflexivity. Qed.

(** Runs the next evaluator block of a chain of [bind]s. *)
Ltac run_step lem :=
  rewrite bind_run;
  match goal with
  | |- context [?step ?t ?a ?e ?w'] =>
      destruct (lem t a e w') as [? ->]
  end;
  rewrite ?logged_transactions, ?logged_logged.

(** A call is its five blocks followed by the verdict rule. *)
Lemma detect_with_blocks (rule : list string -> Z -> bool)
    (transaction : Transaction) (client_ip : option string)
    (env : Env) (w : World) :
  detect_with rule transaction client_ip env w
  = match blocks transaction client_ip env w with
    | (Ok acc, w') => (Ok (rule (fst acc) (snd acc), fst acc, snd acc), w')
    | (Raise e, w') => (Raise e, w')
    end.
Proof.
  unfold detect_with, blocks.
  rewrite !(bind_run (step_blacklisted_ip _ _)).
  destruct (step_blacklisted_ip _ _ env w) as [[acc1|e] w1]; [|reflexivity].
  rewrite !(bind_run (step_blacklisted_account _ _)).
  destruct (step_blacklisted_account _ _ env w1) as [[acc2|e] w2];
    [|reflexivity].
  rewrite !(bind_run (step_odd_hours _ _)).
  destruct (step_odd_hours _ _ env w2) as [[acc3|e] w3]; [|reflexivity].
  rewrite !(bind_run (step_amount_anomaly _ _)).
  destruct (step_amount_anomaly _ _ env w3) as [[acc4|e] w4]; [|reflexivity].
  rewrite bind_run.
  destruct (step_geographic_drift _ _ env w4) as [[[rs sc]|e] w5];
    reflexivity.
Qed.

(** When the store answers the two lookups, the five blocks run to the end:
    they yield the assessment of the triggered findings and leave the world
    as it was, up to logged lines. *)
Lemma blocks_answered (transaction : Transaction)
    (client_ip : option string) (env : Env) (w : World) :
  lookups_answered env transaction client_ip ->
  exists lines,
    blocks transaction client_ip env w
    = (Ok (assessment (triggers_of env w transaction client_ip)),
       logged lines w).
Proof.
  intros [Hip Hacc].
  assert (E1 : step_blacklisted_ip client_ip ([], 0) env w
               = (Ok (if t_ip (triggers_of env w transaction client_ip)
                      then flag REASON_IP 30 ([], 0) else ([], 0)), w)).
  { rewrite step_blacklisted_ip_run. unfold triggers_of; simpl.
    destruct (ip_consulted client_ip); [rewrite Hip|]; reflexivity. }
  unfold blocks.
  rewrite bind_run, E1.
  rewrite bind_run, step_blacklisted_account_run, Hacc.
  run_step step_odd_hours_run.
  run_step step_amount_anomaly_run.
  match goal with
  | |- context [step_geographic_drift ?t ?a ?e ?w'] =>
      destruct (step_geographic_drift_run t a e w') as [? ->]
  end.
  rewrite ?logged_transactions, ?logged_logged.
  eexists.
  unfold assessment, triggers_of; simpl.
  destruct (match ip_consulted client_ip with
            | Some ip => listed w "ip" ip | None => false end),
    (listed w "account" (recipient_account_number transaction)),
    (odd_hour_of env (timestamp transaction)),
    (PrimFloat.ltb 2 _),
    (drift_of env (transactions w) (location transaction)
       (card_type transaction)); reflexivity.
Qed.

(** When the store fails on one of the two lookups, the blocks raise the
    driver's exception, and nothing has happened to the world. *)
Lemma blocks_unanswered (transaction : Transaction)
    (client_ip : option string) (env : Env) (w : World) :
  ~ lookups_answered env transaction client_ip ->
  blocks transaction client_ip env w = (Raise PyMongoError, w).
Proof.
  intros H. unfold blocks.
  rewrite bind_run, step_blacklisted_ip_run.
  unfold lookups_answered in H.
  destruct (ip_consulted client_ip) as [ip|].
  - destruct (mongo_fails env (OpBlacklistFindOne "ip" ip)); [reflexivity|].
    rewrite bind_run, step_blacklisted_account_run.
    destruct (mongo_fails env (OpBlacklistFindOne "account" _));
      [reflexivity|].
    exfalso; apply H; split; reflexivity.
  - rewrite bind_run, step_blacklisted_account_run.
    destruct (mongo_fails env (OpBlacklistFindOne "account" _));
      [reflexivity|].
    exfalso; apply H; split; [exact I|reflexivity].
Qed.

Lemma detect_fraud_answered (transaction : Transaction)
    (client_ip : option string) (env : Env) (w : World) :
  lookups_answered env transaction client_ip ->
  exists lines,
    detect_fraud transaction client_ip env w
    = (let a := assessment (triggers_of env w transaction client_ip) in
       (Ok (verdict (fst a) (snd a), fst a, snd a), logged lines w)).
Proof.
  intros A.
  destruct (blocks_answered transaction client_ip env w A) as [lines E].
  exists lines.
  change (detect_fraud transaction client_ip env w)
    with (detect_with verdict transaction client_ip env w).
  now rewrite detect_with_blocks, E.
Qed.

Lemma detect_fraud_unanswered (transaction : Transaction)
    (client_ip : option string) (env : Env) (w : World) :
  ~ lookups_answered env transaction client_ip ->
  detect_fraud transaction client_ip env w = (Raise PyMongoError, w).
Proof.
  intros A.
  change (detect_fraud transaction client_ip env w)
    with (detect_with verdict transaction client_ip env w).
  now rewrite detect_with_blocks, (blocks_unanswered _ _ _ _ A).
Qed.

Lemma lookups_answered_dec (env : Env) (transaction : Transaction)
    (client_ip : option string) :
  lookups_answered env transaction client_ip
  \/ ~ lookups_answered env transaction client_ip.
Proof.
  unfold lookups_answered.
  destruct (ip_consulted client_ip) as [ip|];
    [destruct (mongo_fails env (OpBlacklistFindOne "ip" ip))|];
    destruct (mongo_fails env (OpBlacklistFindOne "account" _));
    intuition discriminate.
Qed.

(** What a returned assessment is. *)
Lemma detect_fraud_inv (transaction : Transaction)
    (client_ip : option string) (env : Env) (w w' : World)
    (is_fraud : bool) (fraud_reasons : list string) (risk_score : Z) :
  detect_fraud transaction client_ip env w
  = (Ok (is_fraud, fraud_reasons, risk_score), w') ->
  lookups_answered env transaction client_ip
  /\ (fraud_reasons, risk_score)
     = assessment (triggers_of env w transaction client_ip)
  /\ is_fraud = verdict fraud_reasons risk_score
  /\ exists lines, w' = logged lines w.
Proof.
  intros H.
  destruct (lookups_answered_dec env transaction client_ip) as [A|A].
  - destruct (detect_fraud_answered transaction client_ip env w A)
      as [lines E].
    rewrite E in H. cbv zeta in H. inversion H; subst.
    split; [exact A|]. split; [now destruct (assessment _)|].
    split; [reflexivity|]. now exists lines.
  - rewrite (detect_fraud_unanswered _ _ _ _ A) in H. discriminate.
Qed.

(** ** What an assessment looks like *)

(** Normalises a goal about [assessment t] for a [t] given field by field:
    the z-score text is kept as an unknown string after its fixed prefix. *)
Ltac by_cases_on_triggers t :=
  destruct t as [i a o [z|] g]; destruct i, a, o, g;
  unfold assessment, flag, reason_amount;
  cbn [t_ip t_account t_odd t_amount t_geo fst snd];
  try generalize (Fmt.format_2f z); intros.

Lemma assessment_sum (t : Triggers) :
  snd (assessment t) = sum_weights (fst (assessment t)).
Proof. by_cases_on_triggers t; vm_compute; reflexivity. Qed.

Lemma assessment_score_by_reasons (t : Triggers) :
  snd (assessment t) = score_by_reasons (fst (assessment t)).
Proof. by_cases_on_triggers t; vm_compute; reflexivity. Qed.

Lemma assessment_NoDup (t : Triggers) : NoDup (fst (assessment t)).
Proof.
  by_cases_on_triggers t; cbv [app];
    repeat (constructor; [simpl; intuition discriminate|]); constructor.
Qed.

Lemma assessment_nil (t : Triggers) :
  fst (assessment t) = [] <-> no_trigger t.
Proof.
  unfold no_trigger.
  by_cases_on_triggers t; split; intros H; try discriminate;
    try (repeat split; reflexivity);
    decompose [and] H; discriminate.
Qed.

Lemma assessment_verdict (t : Triggers) :
  verdict (fst (assessment t)) (snd (assessment t))
  = verdict_simplified (fst (assessment t)).
Proof. by_cases_on_triggers t; vm_compute; reflexivity. Qed.

(** ** The score and the verdict *)

(** C1. Whenever [detect_fraud] returns, the risk score is the sum of the
    weights of the findings whose reason texts are in the returned list
    (IP 30, account 40, odd hour 15, amount anomaly 20, geographic drift
    25): it is the sum of the weights read off the texts one by one, no text
    occurs twice, each of the five findings counts at most once, and the
    score is 0 when the list is empty. *)
Theorem risk_score_is_sum_of_weights
    (transaction : Transaction) (client_ip : option string)
    (env : Env) (w w' : World)
    (is_fraud : bool) (fraud_reasons : list string) (risk_score : Z) :
  detect_fraud transaction client_ip env w
  = (Ok (is_fraud, fraud_reasons, risk_score), w') ->
  risk_score = sum_weights fraud_reasons
  /\ risk_score = score_by_reasons fraud_reasons
  /\ NoDup fraud_reasons
  /\ (fraud_reasons = [] -> risk_score = 0).
Proof.
  intros H.
  apply detect_fraud_inv in H as (_ & E & _ & _).
  pose proof (assessment_sum (triggers_of env w transaction client_ip)) as S.
  pose proof (assessment_score_by_reasons
                (triggers_of env w transaction client_ip)) as S'.
  pose proof (assessment_NoDup (triggers_of env w transaction client_ip)) as N.
  rewrite <- E in S, S', N. simpl in S, S', N.
  repeat split; try assumption.
  intros ->. exact S.
Qed.

Lemma risk_score_is_sum_of_weights_witness :
  130 = sum_weights
          [REASON_IP; REASON_ACCOUNT; REASON_ODD_HOUR;
           "Abnormal transaction amount (z-score: 33.27)"; REASON_GEO]
  /\ 130 = score_by_reasons
             [REASON_IP; REASON_ACCOUNT; REASON_ODD_HOUR;
              "Abnormal transaction amount (z-score: 33.27)"; REASON_GEO]
  /\ NoDup [REASON_IP; REASON_ACCOUNT; REASON_ODD_HOUR;
            "Abnormal transaction amount (z-score: 33.27)"; REASON_GEO]
  /\ ([REASON_IP; REASON_ACCOUNT; REASON_ODD_HOUR;
       "Abnormal transaction amount (z-score: 33.27)"; REASON_GEO] = []
      -> 130 = 0).
Proof.
  apply (risk_score_is_sum_of_weights
           Example.tx_bad (Some "10.0.0.50") Example.env Example.world
           Example.world true).
  vm_compute. reflexivity.
Defined.

(** C2. [detect_fraud] declares fraud exactly when the list of reasons is
    not empty or the score is at least 30, and no fraud otherwise; a
    transaction that triggers no evaluator yields no fraud, score 0 and the
    empty list. *)
Theorem verdict_rule
    (transaction : Transaction) (client_ip : option string)
    (env : Env) (w : World) :
  (forall (w' : World) (is_fraud : bool) (fraud_reasons : list string)
          (risk_score : Z),
      detect_fraud transaction client_ip env w
      = (Ok (is_fraud, fraud_reasons, risk_score), w') ->
      (is_fraud = true <-> fraud_reasons <> [] \/ 30 <= risk_score)
      /\ (is_fraud = false <-> fraud_reasons = [] /\ risk_score < 30))
  /\ (lookups_answered env transaction client_ip ->
      no_trigger (triggers_of env w transaction client_ip) ->
      exists lines,
        detect_fraud transaction client_ip env w
        = (Ok (false, [], 0), logged lines w)).
Proof.
  split.
  - intros w' is_fraud fraud_reasons risk_score H.
    apply detect_fraud_inv in H as (_ & _ & -> & _).
    unfold verdict.
    destruct fraud_reasons as [|r rs]; simpl.
    + destruct (Z.leb_spec 30 risk_score); split; split;
        try tauto; try discriminate; try lia;
        intros; try (intuition (congruence || lia)).
    + split; split; try discriminate; intros;
        try (left; discriminate); try reflexivity.
      destruct H; discriminate.
  - intros A N.
    destruct (detect_fraud_answered transaction client_ip env w A)
      as [lines E].
    exists lines. rewrite E. cbv zeta.
    apply assessment_nil in N.
    pose proof (assessment_sum (triggers_of env w transaction client_ip)) as S.
    rewrite N in S |- *. simpl in S. rewrite S. reflexivity.
Qed.

Lemma verdict_rule_witness :
  ((true = true <->
    [REASON_ACCOUNT; REASON_ODD_HOUR;
     "Abnormal transaction amount (z-score: 33.27)"; REASON_GEO] <> []
    \/ 30 <= 100)
   /\ (true = false <->
       [REASON_ACCOUNT; REASON_ODD_HOUR;
        "Abnormal transaction amount (z-score: 33.27)"; REASON_GEO] = []
       /\ 100 < 30))
  /\ exists lines,
       detect_fraud Example.tx_clean None Example.env Example.world
       = (Ok (false, [], 0), logged lines Example.world).
Proof.
  split.
  - apply (proj1 (verdict_rule Example.tx_bad None Example.env Example.world)
             Example.world).
    vm_compute. reflexivity.
  - apply (proj2 (verdict_rule Example.tx_clean None Example.env
                    Example.world)).
    + vm_compute. split; [exact I | reflexivity].
    + vm_compute. repeat split; reflexivity.
Defined.

(** C8. The numeric clause of the verdict is dead code: on every input
    [detect_fraud] with the full rule (reasons not empty, or score at least
    30) and [detect_fraud_simplified] with the rule "reasons not empty" do
    the same and return the same, because the blocks never leave a score of
    30 or more with an empty list. *)
Theorem numeric_clause_is_dead
    (transaction : Transaction) (client_ip : option string)
    (env : Env) (w : World) :
  detect_fraud transaction client_ip env w
  = detect_fraud_simplified transaction client_ip env w.
Proof.
  change (detect_with verdict transaction client_ip env w
          = detect_with (fun reasons _ => verdict_simplified reasons)
              transaction client_ip env w).
  rewrite !detect_with_blocks.
  destruct (lookups_answered_dec env transaction client_ip) as [A|A].
  - destruct (blocks_answered transaction client_ip env w A) as [lines ->].
    now rewrite assessment_verdict.
  - now rewrite (blocks_unanswered _ _ _ _ A).
Qed.

(** The reasons and the score of an assessment, finding by finding. *)
Lemma assessment_shape (t : Triggers) :
  fst (assessment t)
  = ((if t_ip t then [REASON_IP] else [])
     ++ (if t_account t then [REASON_ACCOUNT] else [])
     ++ (if t_odd t then [REASON_ODD_HOUR] else [])
     ++ (match t_amount t with Some z => [reason_amount z] | None => [] end)
     ++ (if t_geo t then [REASON_GEO] else []))%list
  /\ snd (assessment t)
     = (if t_ip t then 30 else 0)
       + (if t_account t then 40 else 0)
       + (if t_odd t then 15 else 0)
       + (match t_amount t with Some _ => 20 | None => 0 end)
       + (if t_geo t then 25 else 0).
Proof.
  destruct t as [i a o [z|] g]; destruct i, a, o, g; split; reflexivity.
Qed.

Lemma In_if (b : bool) (x r : string) :
  In r (if b then [x] else []) <-> b = true /\ r = x.
Proof. destruct b; simpl; intuition (discriminate || congruence). Qed.

Lemma In_amount (o : option float) (r : string) :
  In r (match o with Some z => [reason_amount z] | None => [] end)
  <-> exists z, o = Some z /\ r = reason_amount z.
Proof.
  destruct o as [z|]; simpl; split.
  - intros [<-|[]]. now exists z.
  - intros (z' & [= <-] & ->). now left.
  - intros [].
  - intros (z' & [=] & _).
Qed.

(** Membership in the reasons of an assessment. *)
Lemma assessment_In (t : Triggers) (r : string) :
  In r (fst (assessment t))
  <-> (t_ip t = true /\ r = REASON_IP)
      \/ (t_account t = true /\ r = REASON_ACCOUNT)
      \/ (t_odd t = true /\ r = REASON_ODD_HOUR)
      \/ (exists z, t_amount t = Some z /\ r = reason_amount z)
      \/ (t_geo t = true /\ r = REASON_GEO).
Proof.
  rewrite (proj1 (assessment_shape t)), !in_app_iff, !In_if, In_amount.
  reflexivity.
Qed.

(** The reason texts are pairwise different, whatever the z-score. *)
Lemma reason_amount_fresh (z : float) :
  reason_amount z <> REASON_IP /\ reason_amount z <> REASON_ACCOUNT
  /\ reason_amount z <> REASON_ODD_HOUR /\ reason_amount z <> REASON_GEO
  /\ reason_amount z <> REASON_ODD_HOUR_EN_DASH.
Proof. unfold reason_amount; repeat split; discriminate. Qed.

(** ** The blacklist check *)

(** C3, where the code departs from it.  The two blacklist lookups of
    [detect_fraud] are the only calls to a collaborator that are not guarded
    by a [try]: when the store fails on the lookup of the recipient account,
    [detect_fraud] does not treat the account as not blacklisted but raises
    the driver's exception to its caller, having changed nothing; and
    [check_fraud_endpoint] turns it into an HTTP 500. *)
Theorem blacklist_lookup_failure_surfaces
    (transaction : Transaction) (client_ip : option string)
    (username : string) (env : Env) (w : World) :
  mongo_fails env
    (OpBlacklistFindOne "account" (recipient_account_number transaction))
  = true ->
  detect_fraud transaction client_ip env w = (Raise PyMongoError, w)
  /\ check_fraud_endpoint transaction username env w
     = (Raise (HTTPException 500 "Error processing transaction"),
        logged ["Error checking fraud"] w).
Proof.
  intros F.
  assert (A : forall ip, ~ lookups_answered env transaction ip).
  { intros ip [_ A]. congruence. }
  split.
  - apply detect_fraud_unanswered, A.
  - unfold check_fraud_endpoint, try_except.
    rewrite bind_run, (detect_fraud_unanswered _ _ _ _ (A None)).
    reflexivity.
Qed.

Lemma blacklist_lookup_failure_surfaces_witness :
  detect_fraud Example.tx_clean None Example.env_blacklist_down Example.world
  = (Raise PyMongoError, Example.world)
  /\ check_fraud_endpoint Example.tx_clean "alice"
       Example.env_blacklist_down Example.world
     = (Raise (HTTPException 500 "Error processing transaction"),
        logged ["Error checking fraud"] Example.world).
Proof.
  apply (blacklist_lookup_failure_surfaces
           Example.tx_clean None "alice" Example.env_blacklist_down
           Example.world).
  reflexivity.
Defined.

Lemma find_matches_In (kind value : string) (l : list BlacklistEntry) :
  (exists e, In e l /\ b_type e = kind /\ b_value e = value)
  <-> exists e, find (matches kind value) l = Some e.
Proof.
  split.
  - intros (e & I & <- & <-).
    destruct (find _ l) as [e'|] eqn:F; [now exists e'|].
    apply (find_none _ _ F) in I.
    unfold matches in I. now rewrite !String.eqb_refl in I.
  - intros (e & F). apply find_some in F as (I & Mt).
    unfold matches in Mt. apply andb_prop in Mt as (T & V).
    apply String.eqb_eq in T, V. now exists e.
Qed.

(** C4. When the recipient account of the transaction is in the blacklist
    under kind "account" and the store answers the lookups of the call,
    [detect_fraud] returns with the verdict fraud, "Blacklisted recipient
    account" is in the reasons, exactly once, and it contributes exactly 40
    to the score: the score is 40 plus the weights of the other reasons. *)
Theorem blacklisted_account_is_flagged
    (transaction : Transaction) (client_ip : option string)
    (env : Env) (w : World) :
  (exists e, In e (blacklist w) /\ b_type e = "account"
             /\ b_value e = recipient_account_number transaction) ->
  lookups_answered env transaction client_ip ->
  exists before after risk_score lines,
    detect_fraud transaction client_ip env w
    = (Ok (true, (before ++ REASON_ACCOUNT :: after)%list, risk_score),
       logged lines w)
    /\ ~ In REASON_ACCOUNT before /\ ~ In REASON_ACCOUNT after
    /\ risk_score = sum_weights before + 40 + sum_weights after.
Proof.
  intros L A.
  apply find_matches_In in L as (e & F).
  destruct (detect_fraud_answered transaction client_ip env w A)
    as [lines E].
  assert (T : t_account (triggers_of env w transaction client_ip) = true).
  { unfold triggers_of, listed; simpl. now rewrite F. }
  revert E T. generalize (triggers_of env w transaction client_ip).
  intros t E T. cbv zeta in E.
  destruct t as [i a o z g]. simpl in T. subst a.
  exists (if i then [REASON_IP] else []).
  exists ((if o then [REASON_ODD_HOUR] else [])
          ++ (match z with Some z => [reason_amount z] | None => [] end)
          ++ (if g then [REASON_GEO] else []))%list.
  eexists. exists lines.
  split; [|split; [|split]].
  - rewrite E. destruct i, o, z, g; reflexivity.
  - destruct i; simpl; intuition discriminate.
  - destruct z as [z|]; [pose proof (reason_amount_fresh z)|];
      destruct o, g; simpl; intuition (try discriminate; congruence).
  - destruct z as [z|]; destruct i, o, g;
      unfold reason_amount; try generalize (Fmt.format_2f z); intros;
      vm_compute; reflexivity.
Qed.

Lemma blacklisted_account_is_flagged_witness :
  exists before after risk_score lines,
    detect_fraud Example.tx_bad (Some "10.0.0.50") Example.env Example.world
    = (Ok (true, (before ++ REASON_ACCOUNT :: after)%list, risk_score),
       logged lines Example.world)
    /\ ~ In REASON_ACCOUNT before /\ ~ In REASON_ACCOUNT after
    /\ risk_score = sum_weights before + 40 + sum_weights after.
Proof.
  apply (blacklisted_account_is_flagged
           Example.tx_bad (Some "10.0.0.50") Example.env Example.world).
  - exists {| b_type := "account"; b_value := "ACC123456789";
              b_added_at := 1700000005; b_reason := None |}.
    vm_compute. intuition.
  - vm_compute. split; reflexivity.
Defined.

(** ** The history queries return the newest documents *)

Section StringOrder.

Lemma ascii_compare_refl (c : ascii) : Ascii.compare c c = Eq.
Proof. unfold Ascii.compare. apply N.compare_refl. Qed.

Lemma ascii_compare_lt_trans (a b c : ascii) :
  Ascii.compare a b = Lt -> Ascii.compare b c = Lt -> Ascii.compare a c = Lt.
Proof.
  unfold Ascii.compare. rewrite !N.compare_lt_iff. apply N.lt_trans.
Qed.

Lemma string_compare_le_trans (s1 : string) :
  forall s2 s3,
    String.compare s1 s2 <> Gt -> String.compare s2 s3 <> Gt ->
    String.compare s1 s3 <> Gt.
Proof.
  induction s1 as [|c1 s1 IH]; intros [|c2 s2] [|c3 s3]; simpl;
    try congruence.
  destruct (Ascii.compare c1 c2) eqn:E12; try congruence;
    destruct (Ascii.compare c2 c3) eqn:E23; try congruence; intros H12 H23.
  - apply Ascii.compare_eq_iff in E12, E23. subst.
    rewrite ascii_compare_refl. now apply IH with s2.
  - apply Ascii.compare_eq_iff in E12. subst. now rewrite E23.
  - apply Ascii.compare_eq_iff in E23. subst. now rewrite E12.
  - now rewrite (ascii_compare_lt_trans _ _ _ E12 E23).
Qed.

Lemma string_leb_trans (s1 s2 s3 : string) :
  String.leb s1 s2 = true -> String.leb s2 s3 = true ->
  String.leb s1 s3 = true.
Proof.
  unfold String.leb. intros H12 H23.
  pose proof (string_compare_le_trans s1 s2 s3) as T.
  destruct (String.compare s1 s2), (String.compare s2 s3),
    (String.compare s1 s3); try reflexivity; try discriminate;
    exfalso; apply T; congruence.
Qed.

Lemma string_leb_false (s1 s2 : string) :
  String.leb s1 s2 = false -> String.leb s2 s1 = true.
Proof.
  intros F. destruct (String.leb_total s1 s2) as [H|H]; congruence.
Qed.

End StringOrder.

Lemma newer_or_equal_trans (a b c : TransactionDoc) :
  newer_or_equal a b -> newer_or_equal b c -> newer_or_equal a c.
Proof.
  unfold newer_or_equal. intros Hab Hbc.
  now apply string_leb_trans with (doc_timestamp b).
Qed.

Lemma insert_desc_perm (d : TransactionDoc) (l : list TransactionDoc) :
  Permutation (insert_desc d l) (d :: l).
Proof.
  induction l as [|d' l IH]; simpl; [reflexivity|].
  destruct (String.leb _ _); [reflexivity|].
  rewrite IH. apply perm_swap.
Qed.

Lemma sort_timestamp_desc_perm (l : list TransactionDoc) :
  Permutation (sort_timestamp_desc l) l.
Proof.
  induction l as [|d l IH]; simpl; [reflexivity|].
  unfold sort_timestamp_desc in *; simpl.
  rewrite insert_desc_perm. now constructor.
Qed.

Lemma insert_desc_sorted (d : TransactionDoc) (l : list TransactionDoc) :
  StronglySorted newer_or_equal l ->
  StronglySorted newer_or_equal (insert_desc d l).
Proof.
  induction 1 as [|d' l S IH F]; simpl.
  - repeat constructor.
  - destruct (String.leb (doc_timestamp d') (doc_timestamp d)) eqn:E.
    + constructor; [now constructor|].
      constructor; [exact E|].
      eapply Forall_impl; [|exact F].
      intros x Hx. now apply newer_or_equal_trans with d'.
    + constructor; [exact IH|].
      rewrite (insert_desc_perm d l).
      constructor; [|exact F].
      now apply string_leb_false.
Qed.

Lemma sort_timestamp_desc_sorted (l : list TransactionDoc) :
  StronglySorted newer_or_equal (sort_timestamp_desc l).
Proof.
  induction l as [|d l IH]; [constructor|].
  now apply insert_desc_sorted.
Qed.

(** In a list sorted newest first, the first [n] documents are at least as
    recent as all the others. *)
Lemma sorted_firstn_skipn (n : nat) (l : list TransactionDoc) :
  StronglySorted newer_or_equal l ->
  forall d d', In d (firstn n l) -> In d' (skipn n l) -> newer_or_equal d d'.
Proof.
  intros S. revert n.
  induction S as [|x l S IH F]; intros [|n] d d'; simpl; try tauto.
  intros [<-|I] I'.
  - rewrite Forall_forall in F. apply F.
    rewrite <- (firstn_skipn n l). apply in_or_app. now right.
  - now apply IH with n.
Qed.

(** The window of the amount check: at most five documents of the card
    type, newest first, and every document of the card type left out is no
    more recent than any document in the window. *)
Lemma recent_newest (txs : list TransactionDoc) (card : string) :
  exists older,
    Permutation (recent txs card ++ older) (filter (has_card_type card) txs)
    /\ List.length (recent txs card)
       = Nat.min 5 (List.length (filter (has_card_type card) txs))
    /\ StronglySorted newer_or_equal (recent txs card)
    /\ forall d d', In d (recent txs card) -> In d' older ->
                    newer_or_equal d d'.
Proof.
  unfold recent.
  set (sorted := sort_timestamp_desc (filter (has_card_type card) txs)).
  pose proof (sort_timestamp_desc_sorted (filter (has_card_type card) txs))
    as S. fold sorted in S.
  exists (skipn 5 sorted). split; [|split; [|split]].
  - rewrite firstn_skipn. apply sort_timestamp_desc_perm.
  - rewrite length_firstn. unfold sorted.
    now rewrite (Permutation_length (sort_timestamp_desc_perm _)).
  - rewrite <- (firstn_skipn 5 sorted) in S.
    clear -S. induction (firstn 5 sorted) as [|x l IH]; [constructor|].
    simpl in S. inversion S as [|? ? S' F]; subst.
    constructor; [now apply IH|].
    apply Forall_app in F. tauto.
  - now apply sorted_firstn_skipn.
Qed.

(** The document of the drift check: of the card type, and at least as
    recent as every document of the card type; none only when the history
    has no document of the card type. *)
Lemma last_of_newest (txs : list TransactionDoc) (card : string) :
  match last_of txs card with
  | Some t =>
      In t txs /\ doc_card_type t = card
      /\ forall t', In t' txs -> doc_card_type t' = card ->
                    newer_or_equal t t'
  | None => forall t', In t' txs -> doc_card_type t' <> card
  end.
Proof.
  unfold last_of.
  pose proof (sort_timestamp_desc_sorted (filter (has_card_type card) txs))
    as S.
  pose proof (sort_timestamp_desc_perm (filter (has_card_type card) txs))
    as P.
  destruct (sort_timestamp_desc _) as [|t l]; simpl.
  - intros t' I E.
    assert (I' : In t' (filter (has_card_type card) txs)).
    { apply filter_In. split; [exact I|].
      unfold has_card_type. now apply String.eqb_eq. }
    apply (Permutation_in _ (Permutation_sym P)) in I'. exact I'.
  - assert (I : In t (filter (has_card_type card) txs)).
    { apply (Permutation_in _ P). now left. }
    apply filter_In in I as (I & C).
    unfold has_card_type in C. apply String.eqb_eq in C.
    split; [exact I|split; [exact C|]].
    intros t' I' C'.
    assert (J : In t' (t :: l)).
    { apply (Permutation_in _ (Permutation_sym P)).
      apply filter_In. split; [exact I'|].
      unfold has_card_type. now apply String.eqb_eq. }
    inversion S as [|? ? _ F]; subst.
    destruct J as [<-|J].
    + unfold newer_or_equal.
      destruct (String.leb_total (doc_timestamp t) (doc_timestamp t));
        assumption.
    + rewrite Forall_forall in F. now apply F.
Qed.

(** ** The odd-hour check *)

(** C6, as the code has it.  For a transaction whose timestamp [strptime]
    parses, the odd-hour block appends "Transaction at odd hours (12 AM - 4
    AM)", spelled with a hyphen-minus, and adds 15 exactly when the hour of
    the parsed time lies in [0, 4]; in a returned assessment this reason is
    present if and only if the hour lies in [0, 4], and it is absent for
    the hours 5 to 23. *)
Theorem odd_hour_finding
    (transaction : Transaction) (client_ip : option string)
    (env : Env) (w : World) (dt : datetime) :
  strptime env (timestamp transaction) = Ok dt ->
  (forall acc, exists lines,
      step_odd_hours transaction acc env w
      = (Ok (if (0 <=? hour dt) && (hour dt <=? 4)
             then flag REASON_ODD_HOUR 15 acc else acc),
         logged lines w))
  /\ (forall w' is_fraud fraud_reasons risk_score,
         detect_fraud transaction client_ip env w
         = (Ok (is_fraud, fraud_reasons, risk_score), w') ->
         (In REASON_ODD_HOUR fraud_reasons <-> 0 <= hour dt <= 4)
         /\ (5 <= hour dt <= 23 -> ~ In REASON_ODD_HOUR fraud_reasons)).
Proof.
  intros P.
  assert (O : odd_hour_of env (timestamp transaction)
              = (0 <=? hour dt) && (hour dt <=? 4)).
  { unfold odd_hour_of. now rewrite P. }
  split.
  - intros acc.
    destruct (step_odd_hours_run transaction acc env w) as [lines E].
    exists lines. now rewrite E, O.
  - intros w' is_fraud fraud_reasons risk_score H.
    apply detect_fraud_inv in H as (_ & E & _ & _).
    assert (I : In REASON_ODD_HOUR fraud_reasons <-> 0 <= hour dt <= 4).
    { change fraud_reasons with (fst (fraud_reasons, risk_score)).
      rewrite E, assessment_In.
      unfold triggers_of; simpl. rewrite O.
      rewrite andb_true_iff, Z.leb_le, Z.leb_le.
      split.
      - intros [[_ D]|[[_ D]|[[T _]|[(z & _ & D)|[_ D]]]]];
          try discriminate; exact T.
      - intros T. right; right; left. now split. }
    split; [exact I|].
    intros R. rewrite I. lia.
Qed.

Lemma odd_hour_finding_witness :
  (forall acc, exists lines,
      step_odd_hours Example.tx_bad acc Example.env Example.world
      = (Ok (if (0 <=? 3) && (3 <=? 4)
             then flag REASON_ODD_HOUR 15 acc else acc),
         logged lines Example.world))
  /\ (forall w' is_fraud fraud_reasons risk_score,
         detect_fraud Example.tx_bad None Example.env Example.world
         = (Ok (is_fraud, fraud_reasons, risk_score), w') ->
         (In REASON_ODD_HOUR fraud_reasons <-> 0 <= 3 <= 4)
         /\ (5 <= 3 <= 23 -> ~ In REASON_ODD_HOUR fraud_reasons)).
Proof.
  apply (odd_hour_finding Example.tx_bad None Example.env Example.world
           {| year := 2024; month := 3; day := 6;
              hour := 3; minute := 15; second := 0 |}).
  vm_compute. reflexivity.
Defined.

(** C6 as the specification spells it does not hold: at 03:15:00 the hour
    lies in [0, 4], and the reason written with an en dash is not among the
    returned reasons; the code writes a hyphen-minus. *)
Lemma odd_hour_reason_has_no_en_dash :
  exists dt fraud_reasons,
    strptime Example.env (timestamp Example.tx_bad) = Ok dt
    /\ fst (detect_fraud Example.tx_bad None Example.env Example.world)
       = Ok (true, fraud_reasons, 100)
    /\ ~ (In REASON_ODD_HOUR_EN_DASH fraud_reasons <-> 0 <= hour dt <= 4).
Proof.
  eexists. eexists. split; [vm_compute; reflexivity|].
  split; [vm_compute; reflexivity|].
  simpl. intros [_ H].
  assert (R : 0 <= 3 <= 4) by lia.
  apply H in R.
  repeat (destruct R as [R|R]; [discriminate R|]). exact R.
Qed.

(** ** The amount-anomaly check *)

(** C5, as the code has it.  The window of the block holds the five newest
    documents of the card type, or all of them when there are fewer, newest
    first by their timestamp strings.  Over this window: with fewer than two
    documents
    the block changes nothing; when numpy's standard deviation of the
    amounts, the population one (divisor [n]), is exactly 0 it changes
    nothing; otherwise, with [z = |(amount - mean) / std|], it appends
    "Abnormal transaction amount (z-score: z)" with [z] to two decimals and
    adds 20 if [z > 2], and changes nothing if not.  The block never
    raises. *)
Theorem amount_anomaly_finding
    (transaction : Transaction) (acc : Acc) (env : Env) (w : World) :
  let window := recent (transactions w) (card_type transaction) in
  let amounts := map doc_amount window in
  let z := abs ((amount transaction - Np.mean amounts) / Np.std amounts) in
  (exists older,
      Permutation (window ++ older)
        (filter (has_card_type (card_type transaction)) (transactions w))
      /\ List.length window
         = Nat.min 5 (List.length
                        (filter (has_card_type (card_type transaction))
                           (transactions w)))
      /\ StronglySorted newer_or_equal window
      /\ forall d d', In d window -> In d' older -> newer_or_equal d d')
  /\ exists lines acc',
    step_amount_anomaly transaction acc env w = (Ok acc', logged lines w)
    /\ (mongo_fails env (OpTransactionsFind (card_type transaction)) = false ->
        ((List.length window < 2)%nat -> acc' = acc)
        /\ (PrimFloat.eqb (Np.std amounts) 0 = true -> acc' = acc)
        /\ ((2 <= List.length window)%nat ->
            PrimFloat.eqb (Np.std amounts) 0 = false ->
            (PrimFloat.ltb 2 z = true ->
             acc' = flag (REASON_AMOUNT_PREFIX ++ Fmt.format_2f z ++ ")")
                         20 acc)
            /\ (PrimFloat.ltb 2 z = false -> acc' = acc))).
Proof.
  intros window amounts z.
  split; [apply recent_newest|].
  destruct (step_amount_anomaly_run transaction acc env w) as [lines E].
  exists lines. eexists. split; [exact E|].
  intros Q. cbv zeta. unfold z_score_of. rewrite Q.
  unfold z_of_window. fold window. fold amounts.
  assert (Z0 : PrimFloat.ltb 2 0 = false) by reflexivity.
  split; [|split].
  - intros L. apply Nat.ltb_lt in L. rewrite L. now rewrite Z0.
  - intros S. rewrite S.
    destruct (List.length window <? 2)%nat; now rewrite Z0.
  - intros L S.
    assert (L' : (List.length window <? 2)%nat = false)
      by (apply Nat.ltb_ge; exact L).
    rewrite L', S. fold z. unfold reason_amount.
    split; intros T; now rewrite T.
Qed.

Lemma amount_anomaly_finding_witness :
  exists lines acc',
    step_amount_anomaly Example.tx_bad ([], 0) Example.env Example.world
    = (Ok acc', logged lines Example.world)
    /\ acc' = (["Abnormal transaction amount (z-score: 33.27)"], 20).
Proof.
  destruct (amount_anomaly_finding Example.tx_bad ([], 0) Example.env
              Example.world) as (_ & lines & acc' & E & H).
  exists lines, acc'. split; [exact E|].
  destruct (H eq_refl) as (_ & _ & H3).
  assert (L : (2 <= List.length
                 (recent (transactions Example.world)
                    (card_type Example.tx_bad)))%nat)
    by (vm_compute; lia).
  destruct (H3 L eq_refl) as (H4 & _).
  rewrite (H4 eq_refl). vm_compute. reflexivity.
Defined.

(** C5 as the specification words it does not hold.  Against the history
    amounts 3 and 1 the sample standard deviation (divisor [n - 1]) puts the
    amount 4.5 at 1.77 deviations from the mean, which is not above 2; the
    code divides by the population standard deviation, finds 2.5 and emits
    the finding. *)
Lemma amount_anomaly_is_not_by_sample_deviation :
  let window := recent (transactions Example.world)
                  (card_type Example.tx_amex) in
  exists acc',
    (2 <= List.length window)%nat
    /\ PrimFloat.eqb (Np.std_sample (map doc_amount window)) 0 = false
    /\ fst (step_amount_anomaly Example.tx_amex ([], 0) Example.env
              Example.world) = Ok acc'
    /\ ~ (existsb is_amount_reason (fst acc') = true
          <-> PrimFloat.ltb 2 (z_of_window_sample (amount Example.tx_amex)
                                 window) = true).
Proof.
  exists (["Abnormal transaction amount (z-score: 2.50)"], 20).
  split; [vm_compute; lia|].
  split; [vm_compute; reflexivity|].
  split; [vm_compute; reflexivity|].
  intros [H _].
  assert (F : PrimFloat.ltb 2
                (z_of_window_sample (amount Example.tx_amex)
                   (recent (transactions Example.world)
                      (card_type Example.tx_amex))) = false)
    by (vm_compute; reflexivity).
  rewrite F in H. discriminate H. vm_compute. reflexivity.
Qed.

(** ** The geographic-drift check *)

(** C7. The drift block never raises.  When the history has no document of
    the card type it changes nothing.  Otherwise, against a document of the
    card type that is at least as recent as all the others,
    [calculate_distance]
    returns a distance: it is 0 when [get_coordinates] finds no coordinates
    for one of the two locations, and the geodesic distance when both
    resolve; the block appends "Geographic drift detected (>500km from last
    location)" and adds 25 if the distance is above 500, and changes nothing
    if not. *)
Theorem geographic_drift_finding
    (transaction : Transaction) (acc : Acc) (env : Env) (w : World) :
  exists lines acc',
    step_geographic_drift transaction acc env w = (Ok acc', logged lines w)
    /\ (mongo_fails env (OpTransactionsFindOne (card_type transaction))
        = false ->
        match last_of (transactions w) (card_type transaction) with
        | None =>
            (forall t', In t' (transactions w) ->
                        doc_card_type t' <> card_type transaction)
            /\ acc' = acc
        | Some t =>
            (In t (transactions w)
             /\ doc_card_type t = card_type transaction
             /\ forall t', In t' (transactions w) ->
                           doc_card_type t' = card_type transaction ->
                           newer_or_equal t t')
            /\ exists distance,
              fst (calculate_distance (location transaction)
                     (doc_location t) env w) = Ok distance
              /\ (fst (get_coordinates (location transaction) env w) = Ok None
                  \/ fst (get_coordinates (doc_location t) env w) = Ok None ->
                  distance = 0%float /\ acc' = acc)
              /\ (forall c1 c2 km,
                     fst (get_coordinates (location transaction) env w)
                     = Ok (Some c1) ->
                     fst (get_coordinates (doc_location t) env w)
                     = Ok (Some c2) ->
                     geodesic_km env c1 c2 = Ok km ->
                     distance = km)
              /\ (PrimFloat.ltb 500 distance = true ->
                  acc' = flag REASON_GEO 25 acc)
              /\ (PrimFloat.ltb 500 distance = false -> acc' = acc)
        end).
Proof.
  destruct (step_geographic_drift_run transaction acc env w) as [lines E].
  exists lines. eexists. split; [exact E|].
  intros Q. unfold drift_of. rewrite Q.
  pose proof (last_of_newest (transactions w) (card_type transaction)) as N.
  destruct (last_of (transactions w) (card_type transaction)) as [t|];
    [|split; [exact N|reflexivity]].
  split; [exact N|].
  exists (distance_of env (location transaction) (doc_location t)).
  destruct (calculate_distance_run (location transaction) (doc_location t)
              env w) as [l1 ->].
  destruct (get_coordinates_run (location transaction) env w) as [l2 ->].
  destruct (get_coordinates_run (doc_location t) env w) as [l3 ->].
  simpl.
  split; [reflexivity|].
  split; [|split; [|split]].
  - unfold distance_of.
    intros [[= R]|[= R]]; rewrite R.
    + now split.
    + destruct (resolved env (location transaction)); now split.
  - unfold distance_of. intros c1 c2 km [= ->] [= ->] ->. reflexivity.
  - now intros ->.
  - now intros ->.
Qed.

Lemma geographic_drift_finding_witness :
  exists lines acc',
    step_geographic_drift Example.tx_bad ([], 0) Example.env Example.world
    = (Ok acc', logged lines Example.world)
    /\ acc' = ([REASON_GEO], 25).
Proof.
  destruct (geographic_drift_finding Example.tx_bad ([], 0) Example.env
              Example.world) as (lines & acc' & E & H).
  exists lines, acc'. split; [exact E|].
  specialize (H eq_refl).
  change (last_of (transactions Example.world) (card_type Example.tx_bad))
    with (Some (Example.past "T5" "2024-03-05 14:00:00" 10 "Chennai" "visa"))
    in H.
  destruct H as (_ & distance & D & _ & K & Far & _).
  apply Far.
  rewrite (K (19, 72.75)%float (13, 80.25)%float 1498.5%float
             eq_refl eq_refl eq_refl).
  reflexivity.
Defined.

(** ** The endpoint *)

(** [check_fraud_endpoint], path by path. *)
Lemma check_fraud_endpoint_run (transaction : Transaction)
    (username : string) (env : Env) (w : World) :
  check_fraud_endpoint transaction username env w
  = match detect_fraud transaction None env w with
    | (Raise e, w1) => (Raise HTTP_500, logged ["Error checking fraud"] w1)
    | (Ok (is_fraud, fraud_reasons, risk_score), w1) =>
        let doc := stored_doc transaction username is_fraud fraud_reasons
                     risk_score (clock env (ticks w1)) in
        let resp := response transaction is_fraud fraud_reasons risk_score in
        if mongo_fails env
             (OpTransactionsInsertOne (transaction_id transaction))
        then (Raise HTTP_500, logged ["Error checking fraud"] (tick w1))
        else
          let w2 := set_transactions (transactions w1 ++ [doc]) (tick w1) in
          if is_fraud then
            if mongo_fails env
                 (OpBlacklistUpdateOne "account"
                    (recipient_account_number transaction))
            then (Raise HTTP_500, logged ["Error checking fraud"] (tick w2))
            else
              (Ok resp,
               logged ["Fraudulent transaction detected: "
                       ++ transaction_id transaction]
                 (set_blacklist
                    (upsert "account" (recipient_account_number transaction)
                       (feedback_set transaction (clock env (S (ticks w1))))
                       (blacklist w1))
                    (tick w2)))
          else (Ok resp, w2)
    end.
Proof.
  unfold check_fraud_endpoint, try_except.
  rewrite bind_run.
  destruct (detect_fraud transaction None env w)
    as [[[[is_fraud fraud_reasons] risk_score]|e] w1]; [|reflexivity].
  unfold bind, datetime_now, transactions_insert_one; simpl.
  destruct (mongo_fails env (OpTransactionsInsertOne _)); [reflexivity|].
  destruct is_fraud; [|reflexivity].
  unfold blacklist_update_one, upsert; simpl.
  destruct (mongo_fails env (OpBlacklistUpdateOne _ _)); [reflexivity|].
  destruct (update_first _ _ _); reflexivity.
Qed.

(** ** The upsert of the feedback write *)

Section Upsert.

Variables (kind value : string) (s : SetDoc).
Hypothesis set_keeps_type : set_type s = kind.
Hypothesis set_keeps_value : set_value s = value.

Lemma upsert_nil : upsert kind value s [] = [upserted kind value s].
Proof. reflexivity. Qed.

Lemma upsert_hit (e : BlacklistEntry) (l : list BlacklistEntry) :
  matches kind value e = true ->
  upsert kind value s (e :: l) = apply_set s e :: l.
Proof. intros H. unfold upsert; simpl. now rewrite H. Qed.

Lemma upsert_miss (e : BlacklistEntry) (l : list BlacklistEntry) :
  matches kind value e = false ->
  upsert kind value s (e :: l) = e :: upsert kind value s l.
Proof.
  intros H. unfold upsert; simpl. rewrite H.
  now destruct (update_first _ _ l).
Qed.

Lemma matches_apply_set (e : BlacklistEntry) :
  matches kind value (apply_set s e) = true.
Proof.
  unfold matches, apply_set; simpl.
  now rewrite set_keeps_type, set_keeps_value, !String.eqb_refl.
Qed.

Lemma matches_other (k v : string) (e : BlacklistEntry) :
  (k, v) <> (kind, value) ->
  matches kind value e = true -> matches k v e = false.
Proof.
  unfold matches. intros N H.
  apply andb_prop in H as (T & V).
  apply String.eqb_eq in T, V.
  destruct (String.eqb_spec (b_type e) k), (String.eqb_spec (b_value e) v);
    try reflexivity.
  exfalso; apply N; congruence.
Qed.

(** After the upsert the key has one document if it had none, and as many
    as before otherwise. *)
Lemma upsert_count (l : list BlacklistEntry) :
  List.length (filter (matches kind value) (upsert kind value s l))
  = Nat.max 1 (List.length (filter (matches kind value) l)).
Proof.
  induction l as [|e l IH].
  - rewrite upsert_nil. unfold upserted; simpl.
    now rewrite matches_apply_set.
  - destruct (matches kind value e) eqn:H.
    + rewrite (upsert_hit _ _ H); simpl.
      now rewrite matches_apply_set, H.
    + rewrite (upsert_miss _ _ H); simpl. now rewrite H.
Qed.

(** The documents of every other key are untouched. *)
Lemma upsert_others (k v : string) (l : list BlacklistEntry) :
  (k, v) <> (kind, value) ->
  filter (matches k v) (upsert kind value s l) = filter (matches k v) l.
Proof.
  intros N.
  induction l as [|e l IH].
  - rewrite upsert_nil. unfold upserted; simpl.
    now rewrite (matches_other k v _ N (matches_apply_set _)).
  - destruct (matches kind value e) eqn:H.
    + rewrite (upsert_hit _ _ H); simpl.
      now rewrite (matches_other k v _ N (matches_apply_set e)),
        (matches_other k v _ N H).
    + rewrite (upsert_miss _ _ H); simpl. now rewrite IH.
Qed.

(** So are the documents that do not match the filter, in their order. *)
Lemma upsert_rest (l : list BlacklistEntry) :
  filter (fun e => negb (matches kind value e)) (upsert kind value s l)
  = filter (fun e => negb (matches kind value e)) l.
Proof.
  induction l as [|e l IH].
  - rewrite upsert_nil. unfold upserted; simpl.
    now rewrite matches_apply_set.
  - destruct (matches kind value e) eqn:H.
    + rewrite (upsert_hit _ _ H); simpl.
      now rewrite matches_apply_set, H.
    + rewrite (upsert_miss _ _ H); simpl. now rewrite H, IH.
Qed.

(** The collection grows by one document only when the key was absent. *)
Lemma upsert_length (l : list BlacklistEntry) :
  List.length (upsert kind value s l)
  = (List.length l
     + if existsb (matches kind value) l then 0 else 1)%nat.
Proof.
  induction l as [|e l IH].
  - reflexivity.
  - destruct (matches kind value e) eqn:H.
    + rewrite (upsert_hit _ _ H); simpl. rewrite H; simpl. lia.
    + rewrite (upsert_miss _ _ H); simpl. rewrite H, IH; simpl. lia.
Qed.

(** The first document of the key carries the new fields. *)
Lemma upsert_find (l : list BlacklistEntry) :
  find (matches kind value) (upsert kind value s l)
  = Some (apply_set s
            match find (matches kind value) l with
            | Some e => e
            | None => {| b_type := kind; b_value := value;
                         b_added_at := 0; b_reason := None |}
            end).
Proof.
  induction l as [|e l IH].
  - rewrite upsert_nil. unfold upserted; simpl.
    now rewrite matches_apply_set.
  - destruct (matches kind value e) eqn:H.
    + rewrite (upsert_hit _ _ H); simpl.
      now rewrite matches_apply_set, H.
    + rewrite (upsert_miss _ _ H); simpl. now rewrite H, IH.
Qed.

(** Uniqueness of the keys is an invariant of the upsert. *)
Lemma upsert_unique_keys (l : list BlacklistEntry) :
  unique_keys l -> unique_keys (upsert kind value s l).
Proof.
  intros U k v.
  destruct (String.eqb_spec k kind) as [->|Nk];
    [destruct (String.eqb_spec v value) as [->|Nv]|].
  - rewrite upsert_count. specialize (U kind value). lia.
  - rewrite upsert_others; [apply U|congruence].
  - rewrite upsert_others; [apply U|congruence].
Qed.

End Upsert.

(** A returned verdict is fraud when the recipient account is listed. *)
Lemma listed_account_is_fraud (transaction : Transaction)
    (client_ip : option string) (env : Env) (w w' : World)
    (is_fraud : bool) (fraud_reasons : list string) (risk_score : Z) :
  listed w "account" (recipient_account_number transaction) = true ->
  detect_fraud transaction client_ip env w
  = (Ok (is_fraud, fraud_reasons, risk_score), w') ->
  is_fraud = true.
Proof.
  intros L H.
  apply detect_fraud_inv in H as (_ & E & -> & _).
  assert (T : t_account (triggers_of env w transaction client_ip) = true)
    by exact L.
  revert E T. generalize (triggers_of env w transaction client_ip).
  intros [i a o z g] E T. simpl in T. subst a.
  destruct i, o, z, g; unfold assessment, flag in E; simpl in E;
    injection E as -> ->; reflexivity.
Qed.

(** What a call of the endpoint does to the blacklist. *)
Lemma check_fraud_endpoint_blacklist (transaction : Transaction)
    (username : string) (env : Env) (w w' : World)
    (res : result TransactionResponse) :
  check_fraud_endpoint transaction username env w = (res, w') ->
  (blacklist w' = blacklist w
   /\ forall r, res = Ok r -> resp_is_fraud r = false)
  \/ (blacklist w'
      = upsert "account" (recipient_account_number transaction)
          (feedback_set transaction (clock env (S (ticks w))))
          (blacklist w)
      /\ exists r, res = Ok r /\ resp_is_fraud r = true).
Proof.
  rewrite check_fraud_endpoint_run.
  destruct (detect_fraud transaction None env w)
    as [[[[is_fraud fraud_reasons] risk_score]|e] w1] eqn:D.
  - apply detect_fraud_inv in D as (_ & _ & _ & lines & ->).
    cbv zeta.
    destruct (mongo_fails env (OpTransactionsInsertOne _)).
    + intros [= <- <-]. left. split; [reflexivity|discriminate].
    + destruct is_fraud.
      * destruct (mongo_fails env (OpBlacklistUpdateOne _ _)).
        -- intros [= <- <-]. left. split; [reflexivity|discriminate].
        -- intros [= <- <-]. right. split; [reflexivity|].
           eexists; split; reflexivity.
      * intros [= <- <-]. left. split; [reflexivity|].
        now intros r [= <-].
  - intros [= <- <-]. left. split; [|discriminate].
    destruct (lookups_answered_dec env transaction None) as [A|A].
    + destruct (detect_fraud_answered _ _ _ w A) as [l E].
      rewrite E in D. discriminate.
    + rewrite (detect_fraud_unanswered _ _ _ w A) in D.
      now inversion D.
Qed.

(** The response of the endpoint is the assessment of [detect_fraud], called
    without a client IP. *)
Lemma check_fraud_endpoint_response (transaction : Transaction)
    (username : string) (env : Env) (w w' : World)
    (r : TransactionResponse) :
  check_fraud_endpoint transaction username env w = (Ok r, w') ->
  exists w1,
    detect_fraud transaction None env w
    = (Ok (resp_is_fraud r, resp_fraud_reasons r, resp_risk_score r), w1)
    /\ r = response transaction (resp_is_fraud r) (resp_fraud_reasons r)
             (resp_risk_score r).
Proof.
  rewrite check_fraud_endpoint_run.
  destruct (detect_fraud transaction None env w)
    as [[[[is_fraud fraud_reasons] risk_score]|e] w1]; [|discriminate].
  cbv zeta.
  destruct (mongo_fails env (OpTransactionsInsertOne _)); [discriminate|].
  destruct is_fraud;
    [destruct (mongo_fails env (OpBlacklistUpdateOne _ _)); [discriminate|]|];
    intros [= <- <-]; exists w1; split; reflexivity.
Qed.

Lemma filter_length_existsb {A : Type} (p : A -> bool) (l : list A) :
  (1 <= List.length (filter p l))%nat -> existsb p l = true.
Proof.
  induction l as [|x l IH]; simpl; [lia|].
  destruct (p x); simpl; [reflexivity|exact IH].
Qed.

(** A loop keeps what each of its rounds keeps, also when a round raises. *)
Lemma for_each_invariant {A : Type} (P : World -> Prop)
    (body : A -> M unit) (l : list A) (env : Env) :
  (forall x w, P w -> P (snd (body x env w))) ->
  forall w, P w -> P (snd (for_each l body env w)).
Proof.
  intros B. induction l as [|x l IH]; intros w Pw; [exact Pw|].
  simpl. rewrite bind_run.
  pose proof (B x w Pw) as Px.
  destruct (body x env w) as [[[]|e] w1]; simpl in Px |- *;
    [now apply IH|exact Px].
Qed.

Lemma upsert_round_unique_keys (kind value : string) (env : Env)
    (w : World) :
  unique_keys (blacklist w) ->
  unique_keys
    (blacklist
       (snd ((added_at <- datetime_now ;;
              blacklist_update_one kind value
                {| set_type := kind; set_value := value;
                   set_added_at := added_at; set_reason := None |})
               env w))).
Proof.
  intros U. rewrite bind_run. unfold datetime_now, blacklist_update_one.
  destruct (mongo_fails env _); [exact U|].
  change (blacklist (tick w)) with (blacklist w).
  pose proof (upsert_unique_keys kind value
                {| set_type := kind; set_value := value;
                   set_added_at := clock env (ticks w);
                   set_reason := None |} eq_refl eq_refl _ U) as U'.
  unfold upsert in U'.
  destruct (update_first _ _ (blacklist w)); exact U'.
Qed.

(** Start-up keeps the keys of the blacklist unique; on an empty collection
    it establishes the invariant. *)
Lemma initialize_blacklist_unique_keys (env : Env) (w : World) :
  unique_keys (blacklist w) ->
  unique_keys (blacklist (snd (initialize_blacklist env w))).
Proof.
  intros U. unfold initialize_blacklist, try_except.
  rewrite bind_run.
  pose proof (for_each_invariant (fun w => unique_keys (blacklist w))
                (fun ip =>
                   added_at <- datetime_now ;;
                   blacklist_update_one "ip" ip
                     {| set_type := "ip"; set_value := ip;
                        set_added_at := added_at; set_reason := None |})
                BLACKLISTED_IPS env
                (fun x w => upsert_round_unique_keys "ip" x env w) w U) as U1.
  destruct (for_each BLACKLISTED_IPS _ env w) as [[[]|e] w1];
    [|exact U1].
  rewrite bind_run.
  pose proof (for_each_invariant (fun w => unique_keys (blacklist w))
                (fun account =>
                   added_at <- datetime_now ;;
                   blacklist_update_one "account" account
                     {| set_type := "account"; set_value := account;
                        set_added_at := added_at; set_reason := None |})
                BLACKLISTED_ACCOUNTS env
                (fun x w => upsert_round_unique_keys "account" x env w)
                w1 U1) as U2.
  destruct (for_each BLACKLISTED_ACCOUNTS _ env w1) as [[[]|e] w2];
    exact U2.
Qed.

(** The endpoint keeps the keys of the blacklist unique. *)
Lemma check_fraud_endpoint_unique_keys (transaction : Transaction)
    (username : string) (env : Env) (w w' : World)
    (res : result TransactionResponse) :
  check_fraud_endpoint transaction username env w = (res, w') ->
  unique_keys (blacklist w) -> unique_keys (blacklist w').
Proof.
  intros E U.
  destruct (check_fraud_endpoint_blacklist _ _ _ _ _ _ E)
    as [[-> _]|[-> _]]; [exact U|].
  now apply upsert_unique_keys.
Qed.

(** C9. The feedback write is an upsert on (kind, value).  Take a blacklist
    with at most one document for the recipient account, as every blacklist
    with unique keys has.  After a call of the endpoint that returned the
    verdict fraud, the account has exactly one document.  A second call with
    the same transaction, however it ends, leaves exactly one document for
    the account, the same number of documents in the collection and every
    other document as it was; when it returns, its verdict is fraud again
    and the document of the account carries the time of the second write
    and the reason "Fraudulent transaction detected". *)
Theorem feedback_write_is_idempotent
    (transaction : Transaction) (username1 username2 : string)
    (env1 env2 : Env) (w0 w1 : World) (r1 : TransactionResponse) :
  let account := recipient_account_number transaction in
  (entries_for w0 "account" account <= 1)%nat ->
  check_fraud_endpoint transaction username1 env1 w0 = (Ok r1, w1) ->
  resp_is_fraud r1 = true ->
  entries_for w1 "account" account = 1%nat
  /\ forall res2 w2,
       check_fraud_endpoint transaction username2 env2 w1 = (res2, w2) ->
       entries_for w2 "account" account = 1%nat
       /\ List.length (blacklist w2) = List.length (blacklist w1)
       /\ filter (fun e => negb (matches "account" account e)) (blacklist w2)
          = filter (fun e => negb (matches "account" account e))
              (blacklist w1)
       /\ forall r2,
            res2 = Ok r2 ->
            resp_is_fraud r2 = true
            /\ find (matches "account" account) (blacklist w2)
               = Some (feedback_entry transaction
                         (clock env2 (S (ticks w1)))).
Proof.
  intros account U E1 F1. unfold account in *. clear account.
  destruct (check_fraud_endpoint_blacklist _ _ _ _ _ _ E1)
    as [[_ NF]|[B1 _]].
  { specialize (NF r1 eq_refl). congruence. }
  assert (C1 : entries_for w1 "account"
                 (recipient_account_number transaction) = 1%nat).
  { unfold entries_for in *. rewrite B1, upsert_count by reflexivity. lia. }
  split; [exact C1|].
  intros res2 w2 E2.
  assert (L1 : listed w1 "account"
                 (recipient_account_number transaction) = true).
  { unfold listed. rewrite B1, upsert_find by reflexivity. reflexivity. }
  assert (F2 : forall r2, res2 = Ok r2 -> resp_is_fraud r2 = true).
  { intros r2 ->.
    destruct (check_fraud_endpoint_response _ _ _ _ _ _ E2) as (w' & D & _).
    exact (listed_account_is_fraud _ _ _ _ _ _ _ _ L1 D). }
  destruct (check_fraud_endpoint_blacklist _ _ _ _ _ _ E2)
    as [[B2 NF2]|[B2 _]].
  - unfold entries_for in *. rewrite B2.
    split; [exact C1|]. split; [reflexivity|]. split; [reflexivity|].
    intros r2 R. pose proof (F2 r2 R). pose proof (NF2 r2 R). congruence.
  - unfold entries_for in *. rewrite B2.
    split; [rewrite upsert_count by reflexivity; lia|].
    split.
    { rewrite upsert_length by reflexivity.
      rewrite filter_length_existsb by lia. lia. }
    split; [apply upsert_rest; reflexivity|].
    intros r2 R. split; [exact (F2 r2 R)|].
    rewrite upsert_find by reflexivity. reflexivity.
Qed.

Lemma feedback_write_is_idempotent_witness :
  entries_for
    (snd (check_fraud_endpoint Example.tx_amex "alice" Example.env
            Example.world))
    "account" "ACC000000003" = 1%nat
  /\ forall res2 w2,
       check_fraud_endpoint Example.tx_amex "bob" Example.env
         (snd (check_fraud_endpoint Example.tx_amex "alice" Example.env
                 Example.world)) = (res2, w2) ->
       entries_for w2 "account" "ACC000000003" = 1%nat
       /\ List.length (blacklist w2) = 10%nat
       /\ filter (fun e => negb (matches "account" "ACC000000003" e))
            (blacklist w2)
          = Example.predefined
       /\ forall r2,
            res2 = Ok r2 ->
            resp_is_fraud r2 = true
            /\ find (matches "account" "ACC000000003") (blacklist w2)
               = Some (feedback_entry Example.tx_amex 1700000012).
Proof.
  apply (feedback_write_is_idempotent
           Example.tx_amex "alice" "bob" Example.env Example.env
           Example.world
           (snd (check_fraud_endpoint Example.tx_amex "alice" Example.env
                   Example.world))
           (response Example.tx_amex true
              ["Abnormal transaction amount (z-score: 2.50)"] 20)).
  - vm_compute. lia.
  - vm_compute. reflexivity.
  - reflexivity.
Defined.

(** ** The endpoint passes no client IP *)

Lemma assessment_without_ip (t : Triggers) :
  t_ip t = false ->
  ~ In REASON_IP (fst (assessment t))
  /\ snd (assessment t) = score_without_ip (fst (assessment t)).
Proof.
  intros T. split.
  - rewrite assessment_In, T.
    intros [[D _]|[[_ D]|[[_ D]|[(z & _ & D)|[_ D]]]]]; discriminate.
  - destruct t as [i a o z g]. simpl in T. subst i.
    destruct z as [z|]; destruct a, o, g;
      unfold assessment, flag, reason_amount;
      cbn [t_ip t_account t_odd t_amount t_geo fst snd];
      try generalize (Fmt.format_2f z); intros; vm_compute; reflexivity.
Qed.

(** C10. [check_fraud_endpoint] calls [detect_fraud] without a client IP, so
    the blacklisted-IP block is skipped: in every response of the endpoint
    the reasons do not contain "Blacklisted IP address", and the score is
    made of the four other weights only, whatever the blacklist holds. *)
Theorem endpoint_never_flags_ip
    (transaction : Transaction) (username : string)
    (env : Env) (w w' : World) (r : TransactionResponse) :
  check_fraud_endpoint transaction username env w = (Ok r, w') ->
  (exists w1,
      detect_fraud transaction None env w
      = (Ok (resp_is_fraud r, resp_fraud_reasons r, resp_risk_score r), w1))
  /\ (forall acc, step_blacklisted_ip None acc env w = (Ok acc, w))
  /\ ~ In REASON_IP (resp_fraud_reasons r)
  /\ resp_risk_score r = score_without_ip (resp_fraud_reasons r).
Proof.
  intros E.
  destruct (check_fraud_endpoint_response _ _ _ _ _ _ E) as (w1 & D & _).
  split; [now exists w1|].
  split; [reflexivity|].
  apply detect_fraud_inv in D as (_ & A & _ & _).
  destruct (assessment_without_ip (triggers_of env w transaction None)
              eq_refl) as (N & S).
  rewrite <- A in N, S. exact (conj N S).
Qed.

Lemma endpoint_never_flags_ip_witness :
  (exists w1,
      detect_fraud Example.tx_bad None Example.env Example.world
      = (Ok (true,
             [REASON_ACCOUNT; REASON_ODD_HOUR;
              "Abnormal transaction amount (z-score: 33.27)"; REASON_GEO],
             100), w1))
  /\ (forall acc,
         step_blacklisted_ip None acc Example.env Example.world
         = (Ok acc, Example.world))
  /\ ~ In REASON_IP
         [REASON_ACCOUNT; REASON_ODD_HOUR;
          "Abnormal transaction amount (z-score: 33.27)"; REASON_GEO]
  /\ 100 = score_without_ip
             [REASON_ACCOUNT; REASON_ODD_HOUR;
              "Abnormal transaction amount (z-score: 33.27)"; REASON_GEO].
Proof.
  apply (endpoint_never_flags_ip Example.tx_bad "alice" Example.env
           Example.world
           (snd (check_fraud_endpoint Example.tx_bad "alice" Example.env
                   Example.world))
           (response Example.tx_bad true
              [REASON_ACCOUNT; REASON_ODD_HOUR;
               "Abnormal transaction amount (z-score: 33.27)"; REASON_GEO]
              100)).
  vm_compute. reflexivity.
Defined.

(** * Further properties of [main.py] *)

(** ** [detect_fraud]: when it returns, and what it leaves alone *)

(** X1. [detect_fraud] returns an assessment exactly when the store answers
    the blacklist lookups the call makes (the account lookup and, for a
    non-empty client IP, the IP lookup), whatever [strptime], the history
    queries, the geocoder and the geodesic do; when it raises, it raises the
    driver's exception and has changed nothing, not even the log. *)
Theorem detect_fraud_returns_iff_lookups_answered
    (transaction : Transaction) (client_ip : option string)
    (env : Env) (w : World) :
  ((exists a, fst (detect_fraud transaction client_ip env w) = Ok a)
   <-> lookups_answered env transaction client_ip)
  /\ (forall e,
         fst (detect_fraud transaction client_ip env w) = Raise e ->
         e = PyMongoError
         /\ snd (detect_fraud transaction client_ip env w) = w).
Proof.
  destruct (lookups_answered_dec env transaction client_ip) as [A|A].
  - destruct (detect_fraud_answered transaction client_ip env w A)
      as [lines E].
    rewrite E. cbv zeta. simpl. split.
    + split; [intros _; exact A|intros _; eexists; reflexivity].
    + intros e D. discriminate D.
  - rewrite (detect_fraud_unanswered _ _ _ w A). simpl. split.
    + split; [intros [a D]; discriminate D|intros A'; contradiction].
    + intros e [= <-]. split; reflexivity.
Qed.

Lemma detect_fraud_returns_iff_lookups_answered_witness :
  PyMongoError = PyMongoError
  /\ snd (detect_fraud Example.tx_bad (Some "10.0.0.50")
            Example.env_blacklist_down Example.world) = Example.world.
Proof.
  apply (proj2 (detect_fraud_returns_iff_lookups_answered
                  Example.tx_bad (Some "10.0.0.50")
                  Example.env_blacklist_down Example.world)).
  vm_compute. reflexivity.
Defined.

(** X2. [detect_fraud] only reads the store: whether it returns or raises,
    both collections and the clock are as before, and the log is the old
    log followed by the lines of this call. *)
Theorem detect_fraud_is_read_only
    (transaction : Transaction) (client_ip : option string)
    (env : Env) (w : World) :
  let w' := snd (detect_fraud transaction client_ip env w) in
  blacklist w' = blacklist w
  /\ transactions w' = transactions w
  /\ ticks w' = ticks w
  /\ log_extends w w'.
Proof.
  cbv zeta.
  destruct (lookups_answered_dec env transaction client_ip) as [A|A].
  - destruct (detect_fraud_answered transaction client_ip env w A)
      as [lines E].
    rewrite E. cbv zeta. simpl.
    repeat split. now exists lines.
  - rewrite (detect_fraud_unanswered _ _ _ w A). simpl.
    repeat split. exists []. now rewrite app_nil_r.
Qed.

(** The reasons of an assessment are the five texts in the order of the
    blocks, each present or not. *)
Lemma assessment_bounds (t : Triggers) :
  0 <= snd (assessment t) <= 130
  /\ (fst (assessment t) = [] <-> snd (assessment t) = 0)
  /\ (fst (assessment t) <> [] -> 15 <= snd (assessment t))
  /\ (List.length (fst (assessment t)) <= 5)%nat.
Proof.
  destruct t as [i a o [z|] g]; destruct i, a, o, g;
    unfold assessment, flag; simpl;
    (split; [lia|]);
    (split; [split; intros H; first [reflexivity|discriminate H|lia]|]);
    (split; [intros H; first [lia|exfalso; apply H; reflexivity]|lia]).
Qed.

(** X3. The score of a returned assessment lies between 0 and 130; the
    verdict is "no fraud" exactly when the score is 0, and a verdict of
    fraud comes with a score of at least 15; there are at most five
    reasons. *)
Theorem risk_score_bounds
    (transaction : Transaction) (client_ip : option string)
    (env : Env) (w w' : World)
    (is_fraud : bool) (fraud_reasons : list string) (risk_score : Z) :
  detect_fraud transaction client_ip env w
  = (Ok (is_fraud, fraud_reasons, risk_score), w') ->
  0 <= risk_score <= 130
  /\ (is_fraud = false <-> risk_score = 0)
  /\ (is_fraud = true -> 15 <= risk_score)
  /\ (List.length fraud_reasons <= 5)%nat.
Proof.
  intros H.
  apply detect_fraud_inv in H as (_ & E & -> & _).
  pose proof (assessment_bounds (triggers_of env w transaction client_ip))
    as (B & Z0 & P & L).
  rewrite <- E in B, Z0, P, L. simpl in B, Z0, P, L.
  split; [exact B|]. split; [|split; [|exact L]].
  - unfold verdict. destruct fraud_reasons as [|r rs]; simpl.
    + rewrite (proj1 Z0 eq_refl). simpl. tauto.
    + split; [discriminate|].
      intros S. apply Z0 in S. discriminate S.
  - unfold verdict. destruct fraud_reasons as [|r rs]; simpl.
    + rewrite (proj1 Z0 eq_refl). discriminate.
    + intros _. apply P. discriminate.
Qed.

Lemma risk_score_bounds_witness :
  0 <= 130 <= 130
  /\ (true = false <-> 130 = 0)
  /\ (true = true -> 15 <= 130)
  /\ (List.length
        [REASON_IP; REASON_ACCOUNT; REASON_ODD_HOUR;
         "Abnormal transaction amount (z-score: 33.27)"; REASON_GEO]
      <= 5)%nat.
Proof.
  apply (risk_score_bounds
           Example.tx_bad (Some "10.0.0.50") Example.env Example.world
           Example.world true).
  vm_compute. reflexivity.
Defined.

(** X4. The reasons of a returned assessment come in the order of the
    blocks: first "Blacklisted IP address", then "Blacklisted recipient
    account", the odd-hour reason, the amount reason and the drift reason,
    each present or absent; the z-score printed in the amount reason is
    above 2; and the score adds 30, 40, 15, 20 and 25 for the ones that are
    present. *)
Theorem fraud_reasons_order
    (transaction : Transaction) (client_ip : option string)
    (env : Env) (w w' : World)
    (is_fraud : bool) (fraud_reasons : list string) (risk_score : Z) :
  detect_fraud transaction client_ip env w
  = (Ok (is_fraud, fraud_reasons, risk_score), w') ->
  exists (ip account odd geo : bool) (z : option float),
    fraud_reasons
    = ((if ip then [REASON_IP] else [])
       ++ (if account then [REASON_ACCOUNT] else [])
       ++ (if odd then [REASON_ODD_HOUR] else [])
       ++ (match z with
           | Some z => [reason_amount z]
           | None => []
           end)
       ++ (if geo then [REASON_GEO] else []))%list
    /\ risk_score
       = (if ip then 30 else 0) + (if account then 40 else 0)
         + (if odd then 15 else 0)
         + (match z with Some _ => 20 | None => 0 end)
         + (if geo then 25 else 0)
    /\ (forall z', z = Some z' -> PrimFloat.ltb 2 z' = true).
Proof.
  intros H.
  apply detect_fraud_inv in H as (_ & E & _ & _).
  pose proof (assessment_shape (triggers_of env w transaction client_ip))
    as (S1 & S2).
  rewrite <- E in S1, S2. simpl fst in S1. simpl snd in S2.
  exists (t_ip (triggers_of env w transaction client_ip)),
    (t_account (triggers_of env w transaction client_ip)),
    (t_odd (triggers_of env w transaction client_ip)),
    (t_geo (triggers_of env w transaction client_ip)),
    (t_amount (triggers_of env w transaction client_ip)).
  split; [exact S1|]. split; [exact S2|].
  unfold triggers_of; simpl. intros z'.
  destruct (PrimFloat.ltb 2 _) eqn:T; [|discriminate].
  now intros [= <-].
Qed.

Lemma fraud_reasons_order_witness :
  exists (ip account odd geo : bool) (z : option float),
    [REASON_ACCOUNT; REASON_ODD_HOUR;
     "Abnormal transaction amount (z-score: 33.27)"; REASON_GEO]
    = ((if ip then [REASON_IP] else [])
       ++ (if account then [REASON_ACCOUNT] else [])
       ++ (if odd then [REASON_ODD_HOUR] else [])
       ++ (match z with
           | Some z => [reason_amount z]
           | None => []
           end)
       ++ (if geo then [REASON_GEO] else []))%list
    /\ 100
       = (if ip then 30 else 0) + (if account then 40 else 0)
         + (if odd then 15 else 0)
         + (match z with Some _ => 20 | None => 0 end)
         + (if geo then 25 else 0)
    /\ (forall z', z = Some z' -> PrimFloat.ltb 2 z' = true).
Proof.
  apply (fraud_reasons_order
           Example.tx_bad None Example.env Example.world
           Example.world true).
  vm_compute. reflexivity.
Defined.

(** ** Degraded evaluators *)

(** X5. A timestamp that [strptime] rejects is not an error of the
    evaluation: [is_odd_hour] returns [False] and logs one line, and no
    returned assessment of [detect_fraud] carries the odd-hour reason. *)
Theorem malformed_timestamp_is_not_odd
    (transaction : Transaction) (client_ip : option string)
    (env : Env) (w : World) (e : exn) :
  strptime env (timestamp transaction) = Raise e ->
  is_odd_hour (timestamp transaction) env w
  = (Ok false, logged ["Error parsing timestamp"] w)
  /\ forall w' is_fraud fraud_reasons risk_score,
       detect_fraud transaction client_ip env w
       = (Ok (is_fraud, fraud_reasons, risk_score), w') ->
       ~ In REASON_ODD_HOUR fraud_reasons.
Proof.
  intros P. split.
  - unfold is_odd_hour, try_except, bind, datetime_strptime.
    rewrite P. reflexivity.
  - intros w' is_fraud fraud_reasons risk_score H.
    apply detect_fraud_inv in H as (_ & E & _ & _).
    change fraud_reasons with (fst (fraud_reasons, risk_score)).
    rewrite E, assessment_In.
    unfold triggers_of, odd_hour_of; simpl. rewrite P.
    intros [[_ D]|[[_ D]|[[T _]|[(z & _ & D)|[_ D]]]]]; discriminate.
Qed.

Lemma malformed_timestamp_is_not_odd_witness :
  is_odd_hour "03:15 6/3/2024" Example.env Example.world
  = (Ok false, logged ["Error parsing timestamp"] Example.world)
  /\ forall w' is_fraud fraud_reasons risk_score,
       detect_fraud
         {| transaction_id := "T8"; timestamp := "03:15 6/3/2024";
            amount := 11%float; location := "Chennai"; card_type := "visa";
            currency := "USD"; recipient_account_number := "ACC000000002" |}
         None Example.env Example.world
       = (Ok (is_fraud, fraud_reasons, risk_score), w') ->
       ~ In REASON_ODD_HOUR fraud_reasons.
Proof.
  apply (malformed_timestamp_is_not_odd
           {| transaction_id := "T8"; timestamp := "03:15 6/3/2024";
              amount := 11%float; location := "Chennai";
              card_type := "visa"; currency := "USD";
              recipient_account_number := "ACC000000002" |}
           None Example.env Example.world ValueError).
  vm_compute. reflexivity.
Defined.

Lemma existsb_amount_reason (t : Triggers) :
  existsb is_amount_reason (fst (assessment t)) = true
  <-> exists z, t_amount t = Some z.
Proof.
  destruct t as [i a o [z|] g].
  - split; [intros _; now exists z|intros _].
    destruct i, a, o, g; unfold assessment, flag, reason_amount;
      cbn [t_ip t_account t_odd t_amount t_geo fst snd];
      generalize (Fmt.format_2f z); intros; vm_compute; reflexivity.
  - split; [intros H|intros [z' H]; discriminate H].
    destruct i, a, o, g; vm_compute in H; discriminate H.
Qed.

(** X6. When the history of the card type cannot be read, the checks that
    need it find nothing: with the query of the amount check failing,
    [calculate_z_score] returns 0 and no returned assessment has an amount
    reason; with the query of the drift check failing,
    [check_geographic_drift] returns [False] and no returned assessment has
    the drift reason.  Either failure is logged and goes no further. *)
Theorem history_outage_finds_nothing
    (transaction : Transaction) (client_ip : option string)
    (env : Env) (w : World) :
  (mongo_fails env (OpTransactionsFind (card_type transaction)) = true ->
   calculate_z_score (amount transaction) (card_type transaction) env w
   = (Ok 0%float, logged ["Error calculating z-score"] w)
   /\ forall w' is_fraud fraud_reasons risk_score,
        detect_fraud transaction client_ip env w
        = (Ok (is_fraud, fraud_reasons, risk_score), w') ->
        existsb is_amount_reason fraud_reasons = false)
  /\ (mongo_fails env (OpTransactionsFindOne (card_type transaction)) = true ->
      check_geographic_drift (location transaction) (card_type transaction)
        env w
      = (Ok false, logged ["Error checking geographic drift"] w)
      /\ forall w' is_fraud fraud_reasons risk_score,
           detect_fraud transaction client_ip env w
           = (Ok (is_fraud, fraud_reasons, risk_score), w') ->
           ~ In REASON_GEO fraud_reasons).
Proof.
  split; intros F; split.
  - unfold calculate_z_score, try_except, bind,
      transactions_find_sorted_limit.
    rewrite F. reflexivity.
  - intros w' is_fraud fraud_reasons risk_score H.
    apply detect_fraud_inv in H as (_ & E & _ & _).
    change fraud_reasons with (fst (fraud_reasons, risk_score)).
    rewrite E.
    destruct (existsb is_amount_reason _) eqn:X; [|reflexivity].
    apply existsb_amount_reason in X as [z X].
    unfold triggers_of, z_score_of in X; simpl in X.
    rewrite F in X. discriminate X.
  - unfold check_geographic_drift, try_except, bind,
      transactions_find_one_sorted.
    rewrite F. reflexivity.
  - intros w' is_fraud fraud_reasons risk_score H.
    apply detect_fraud_inv in H as (_ & E & _ & _).
    change fraud_reasons with (fst (fraud_reasons, risk_score)).
    rewrite E, assessment_In.
    unfold triggers_of, drift_of; simpl. rewrite F.
    intros [[_ D]|[[_ D]|[[_ D]|[(z & _ & D)|[T _]]]]]; discriminate.
Qed.

Lemma history_outage_finds_nothing_witness :
  calculate_z_score (amount Example.tx_bad) (card_type Example.tx_bad)
    Sample.env_history_down Example.world
  = (Ok 0%float, logged ["Error calculating z-score"] Example.world)
  /\ forall w' is_fraud fraud_reasons risk_score,
       detect_fraud Example.tx_bad None Sample.env_history_down
         Example.world
       = (Ok (is_fraud, fraud_reasons, risk_score), w') ->
       existsb is_amount_reason fraud_reasons = false.
Proof.
  apply (proj1 (history_outage_finds_nothing Example.tx_bad None
                  Sample.env_history_down Example.world)).
  reflexivity.
Defined.

(** ** Start-up: [initialize_blacklist] *)

Lemma find_hd_filter {A : Type} (p : A -> bool) (l : list A) :
  find p l = hd_error (filter p l).
Proof.
  induction l as [|x l IH]; simpl; [reflexivity|].
  destruct (p x); [reflexivity|exact IH].
Qed.

Lemma listed_entries (w : World) (kind value : string) :
  listed w kind value = true <-> (1 <= entries_for w kind value)%nat.
Proof.
  unfold listed, entries_for. rewrite find_hd_filter.
  destruct (filter _ _); simpl; split; intros H;
    try reflexivity; try discriminate; lia.
Qed.

(** One round: a clock reading, then the upsert or the driver's failure. *)
Lemma startup_round_run (kind value : string) (env : Env) (w : World) :
  startup_round kind value env w
  = if mongo_fails env (OpBlacklistUpdateOne kind value)
    then (Raise PyMongoError, tick w)
    else (Ok tt,
          set_blacklist
            (upsert kind value
               {| set_type := kind; set_value := value;
                  set_added_at := clock env (ticks w); set_reason := None |}
               (blacklist w))
            (tick w)).
Proof.
  unfold startup_round. rewrite bind_run.
  unfold datetime_now, blacklist_update_one, upsert.
  destruct (mongo_fails env _); [reflexivity|].
  change (blacklist (tick w)) with (blacklist w).
  destruct (update_first _ _ _); reflexivity.
Qed.

(** A loop keeps what the rounds on the elements of its list keep. *)
Lemma for_each_invariant_In {A : Type} (P : World -> Prop)
    (body : A -> M unit) (l : list A) (env : Env) :
  (forall x, In x l -> forall w, P w -> P (snd (body x env w))) ->
  forall w, P w -> P (snd (for_each l body env w)).
Proof.
  induction l as [|x l IH]; intros B w Pw; [exact Pw|].
  simpl. rewrite bind_run.
  pose proof (B x (or_introl eq_refl) w Pw) as Px.
  destruct (body x env w) as [[[]|e] w1]; simpl in Px |- *;
    [|exact Px].
  apply IH; [|exact Px].
  intros y I. apply B. now right.
Qed.


(** [initialize_blacklist] is its two loops, then one line of log. *)
Lemma initialize_blacklist_run (env : Env) (w : World) :
  initialize_blacklist env w
  = match for_each BLACKLISTED_IPS (startup_round "ip") env w with
    | (Raise _, w1) => (Ok tt, logged ["Error initializing blacklist"] w1)
    | (Ok _, w1) =>
        match for_each BLACKLISTED_ACCOUNTS (startup_round "account")
                env w1 with
        | (Raise _, w2) =>
            (Ok tt, logged ["Error initializing blacklist"] w2)
        | (Ok _, w2) =>
            (Ok tt, logged ["Blacklist initialized successfully"] w2)
        end
    end.
Proof.
  unfold initialize_blacklist, try_except. rewrite bind_run.
  change (fun ip : string =>
            (added_at <- datetime_now ;;
             blacklist_update_one "ip" ip
               {| set_type := "ip"; set_value := ip;
                  set_added_at := added_at; set_reason := None |})%py)
    with (startup_round "ip").
  destruct (for_each BLACKLISTED_IPS _ env w) as [[[]|e] w1];
    [|reflexivity].
  rewrite bind_run.
  change (fun account : string =>
            (added_at <- datetime_now ;;
             blacklist_update_one "account" account
               {| set_type := "account"; set_value := account;
                  set_added_at := added_at; set_reason := None |})%py)
    with (startup_round "account").
  destruct (for_each BLACKLISTED_ACCOUNTS _ env w1) as [[[]|e] w2];
    reflexivity.
Qed.

(** What start-up keeps, whatever the driver does: a property of the
    blacklist that every round keeps holds at the end. *)
Lemma initialize_blacklist_keeps (P : list BlacklistEntry -> Prop)
    (env : Env) (w : World) :
  (forall kind value, predefined_key kind value ->
     forall w1, P (blacklist w1) ->
                P (blacklist (snd (startup_round kind value env w1)))) ->
  P (blacklist w) ->
  P (blacklist (snd (initialize_blacklist env w))).
Proof.
  intros K Pw. rewrite initialize_blacklist_run.
  pose proof (for_each_invariant_In (fun w => P (blacklist w))
                (startup_round "ip") BLACKLISTED_IPS env
                (fun x I => K "ip" x (or_introl (conj eq_refl I))) w Pw)
    as P1.
  destruct (for_each BLACKLISTED_IPS _ env w) as [[[]|e] w1];
    [|exact P1].
  pose proof (for_each_invariant_In (fun w => P (blacklist w))
                (startup_round "account") BLACKLISTED_ACCOUNTS env
                (fun x I => K "account" x (or_intror (conj eq_refl I)))
                w1 P1) as P2.
  destruct (for_each BLACKLISTED_ACCOUNTS _ env w1) as [[[]|e] w2];
    exact P2.
Qed.



(** The upsert never makes a listed key unlisted. *)
Lemma upsert_keeps_listed (kind value : string) (s : SetDoc)
    (l : list BlacklistEntry) (k v : string) :
  set_type s = kind -> set_value s = value ->
  (1 <= List.length (filter (matches k v) l))%nat ->
  (1 <= List.length (filter (matches k v) (upsert kind value s l)))%nat.
Proof.
  intros T V H.
  destruct (String.eqb_spec k kind) as [->|Nk];
    [destruct (String.eqb_spec v value) as [->|Nv]|].
  - rewrite (upsert_count kind value s T V). lia.
  - rewrite (upsert_others kind value s T V); [exact H|congruence].
  - rewrite (upsert_others kind value s T V); [exact H|congruence].
Qed.

Lemma startup_round_keeps_listed (kind value : string) (env : Env)
    (w : World) (k v : string) :
  listed w k v = true ->
  listed (snd (startup_round kind value env w)) k v = true.
Proof.
  rewrite !listed_entries, startup_round_run. unfold entries_for.
  destruct (mongo_fails env _); simpl; [tauto|].
  now apply upsert_keeps_listed.
Qed.

Lemma startup_round_lists (kind value : string) (env : Env) (w : World) :
  mongo_fails env (OpBlacklistUpdateOne kind value) = false ->
  fst (startup_round kind value env w) = Ok tt
  /\ listed (snd (startup_round kind value env w)) kind value = true.
Proof.
  intros F. rewrite startup_round_run, F. split; [reflexivity|].
  apply listed_entries. unfold entries_for; simpl.
  rewrite upsert_count by reflexivity. lia.
Qed.

(** A loop of rounds that the driver answers lists every key of its list
    and keeps the keys that were listed. *)
Lemma for_each_rounds_list (kind : string) (l : list string) (env : Env) :
  (forall x, In x l ->
             mongo_fails env (OpBlacklistUpdateOne kind x) = false) ->
  forall w,
    fst (for_each l (startup_round kind) env w) = Ok tt
    /\ (forall x, In x l ->
          listed (snd (for_each l (startup_round kind) env w)) kind x
          = true)
    /\ (forall k v, listed w k v = true ->
          listed (snd (for_each l (startup_round kind) env w)) k v = true).
Proof.
  induction l as [|x l IH]; intros A w.
  - split; [reflexivity|]. split; [intros x []|tauto].
  - simpl. rewrite bind_run.
    destruct (startup_round_lists kind x env w (A x (or_introl eq_refl)))
      as (R & Lx).
    pose proof (startup_round_keeps_listed kind x env w) as K.
    destruct (startup_round kind x env w) as [[[]|e] w1];
      [|discriminate R].
    simpl in Lx, K.
    destruct (IH (fun y I => A y (or_intror I)) w1) as (R' & L' & K').
    split; [exact R'|]. split.
    + intros y [<-|I]; [now apply K'|now apply L'].
    + intros k v H. apply K', K, H.
Qed.

(** A listed recipient account shows in every returned assessment. *)
Lemma listed_account_reason (transaction : Transaction)
    (client_ip : option string) (env : Env) (w w' : World)
    (is_fraud : bool) (fraud_reasons : list string) (risk_score : Z) :
  listed w "account" (recipient_account_number transaction) = true ->
  detect_fraud transaction client_ip env w
  = (Ok (is_fraud, fraud_reasons, risk_score), w') ->
  is_fraud = true /\ In REASON_ACCOUNT fraud_reasons.
Proof.
  intros L H. split.
  - exact (listed_account_is_fraud _ _ _ _ _ _ _ _ L H).
  - apply detect_fraud_inv in H as (_ & E & _ & _).
    change fraud_reasons with (fst (fraud_reasons, risk_score)).
    rewrite E, assessment_In. right; left. split; [exact L|reflexivity].
Qed.

(** X8. After a start-up that the driver answered, every predefined IP
    address and account is in the blacklist; from then on, every returned
    assessment of a payment to a predefined account is a verdict of fraud
    with the reason "Blacklisted recipient account". *)
Theorem startup_lists_predefined (env : Env) (w : World) :
  startup_answered env ->
  let w' := snd (initialize_blacklist env w) in
  (forall kind value, predefined_key kind value ->
                      listed w' kind value = true)
  /\ forall transaction client_ip env' w'' is_fraud fraud_reasons risk_score,
       In (recipient_account_number transaction) BLACKLISTED_ACCOUNTS ->
       detect_fraud transaction client_ip env' w'
       = (Ok (is_fraud, fraud_reasons, risk_score), w'') ->
       is_fraud = true /\ In REASON_ACCOUNT fraud_reasons.
Proof.
  intros [Aip Aacc]. cbv zeta.
  assert (L : forall kind value, predefined_key kind value ->
                listed (snd (initialize_blacklist env w)) kind value = true).
  { rewrite initialize_blacklist_run.
    destruct (for_each_rounds_list "ip" BLACKLISTED_IPS env Aip w)
      as (R1 & L1 & _).
    destruct (for_each BLACKLISTED_IPS _ env w) as [[[]|e] w1];
      [|discriminate R1].
    destruct (for_each_rounds_list "account" BLACKLISTED_ACCOUNTS env
                Aacc w1) as (R2 & L2 & K2).
    destruct (for_each BLACKLISTED_ACCOUNTS _ env w1) as [[[]|e] w2];
      [|discriminate R2].
    simpl in L1, L2, K2 |- *.
    intros kind value [[-> I]|[-> I]].
    - apply (K2 "ip" value), L1, I.
    - apply L2, I. }
  split; [exact L|].
  intros transaction client_ip env' w'' is_fraud fraud_reasons risk_score
    I D.
  apply (listed_account_reason _ _ _ _ _ _ _ _
           (L "account" _ (or_intror (conj eq_refl I))) D).
Qed.

Lemma startup_lists_predefined_witness :
  (forall kind value, predefined_key kind value ->
     listed (snd (initialize_blacklist Example.env Sample.empty_world))
       kind value = true)
  /\ forall transaction client_ip env' w'' is_fraud fraud_reasons risk_score,
       In (recipient_account_number transaction) BLACKLISTED_ACCOUNTS ->
       detect_fraud transaction client_ip env'
         (snd (initialize_blacklist Example.env Sample.empty_world))
       = (Ok (is_fraud, fraud_reasons, risk_score), w'') ->
       is_fraud = true /\ In REASON_ACCOUNT fraud_reasons.
Proof.
  apply (startup_lists_predefined Example.env Sample.empty_world).
  split; intros; reflexivity.
Defined.

Lemma startup_round_counts (kind value : string) (env : Env) (w : World)
    (k v : string) :
  let n := entries_for w k v in
  let n' := entries_for (snd (startup_round kind value env w)) k v in
  (n <= n')%nat /\ ((1 <= n)%nat -> n' = n).
Proof.
  cbv zeta. rewrite startup_round_run. unfold entries_for.
  destruct (mongo_fails env _); simpl; [lia|].
  destruct (String.eqb_spec k kind) as [->|Nk];
    [destruct (String.eqb_spec v value) as [->|Nv]|].
  - rewrite upsert_count by reflexivity. lia.
  - rewrite upsert_others by (reflexivity || congruence). lia.
  - rewrite upsert_others by (reflexivity || congruence). lia.
Qed.

Lemma startup_round_reason (kind value : string) (env : Env) (w : World)
    (k v : string) (e : BlacklistEntry) :
  find (matches k v) (blacklist w) = Some e ->
  exists e',
    find (matches k v) (blacklist (snd (startup_round kind value env w)))
    = Some e'
    /\ b_reason e' = b_reason e.
Proof.
  intros F. rewrite startup_round_run.
  destruct (mongo_fails env _); simpl; [now exists e|].
  destruct (String.eqb_spec k kind) as [->|Nk];
    [destruct (String.eqb_spec v value) as [->|Nv]|].
  - rewrite upsert_find by reflexivity. rewrite F.
    eexists; split; reflexivity.
  - rewrite find_hd_filter, upsert_others, <- find_hd_filter
      by (reflexivity || congruence). now exists e.
  - rewrite find_hd_filter, upsert_others, <- find_hd_filter
      by (reflexivity || congruence). now exists e.
Qed.

Lemma startup_round_others (kind value : string) (env : Env) (w : World)
    (k v : string) :
  (k, v) <> (kind, value) ->
  filter (matches k v) (blacklist (snd (startup_round kind value env w)))
  = filter (matches k v) (blacklist w).
Proof.
  intros N. rewrite startup_round_run.
  destruct (mongo_fails env _); simpl; [reflexivity|].
  now apply upsert_others.
Qed.

(** X9. Start-up only adds what is missing.  Whatever the driver does, no
    (kind, value) pair loses a document, a pair that had documents has as
    many as before, the first document of a pair keeps its "reason" (the
    [$set] of start-up has none, so the reason of a feedback write survives
    a restart), and the documents of the pairs that are not predefined are
    untouched. *)
Theorem startup_keeps_documents (env : Env) (w : World)
    (kind value : string) :
  let w' := snd (initialize_blacklist env w) in
  (entries_for w kind value <= entries_for w' kind value)%nat
  /\ ((1 <= entries_for w kind value)%nat ->
      entries_for w' kind value = entries_for w kind value)
  /\ (forall e,
         find (matches kind value) (blacklist w) = Some e ->
         exists e',
           find (matches kind value) (blacklist w') = Some e'
           /\ b_reason e' = b_reason e)
  /\ (~ predefined_key kind value ->
      filter (matches kind value) (blacklist w')
      = filter (matches kind value) (blacklist w)).
Proof.
  cbv zeta. split; [|split; [|split]].
  - apply (initialize_blacklist_keeps
             (fun l => (entries_for w kind value
                        <= List.length (filter (matches kind value) l))%nat));
      [|reflexivity].
    intros k v _ w1 H.
    pose proof (startup_round_counts k v env w1 kind value) as (C & _).
    unfold entries_for in *. lia.
  - intros P.
    apply (initialize_blacklist_keeps
             (fun l => List.length (filter (matches kind value) l)
                       = entries_for w kind value));
      [|reflexivity].
    intros k v _ w1 H.
    pose proof (startup_round_counts k v env w1 kind value) as (_ & C).
    unfold entries_for in *. rewrite C; [exact H|lia].
  - intros e F.
    apply (initialize_blacklist_keeps
             (fun l => exists e', find (matches kind value) l = Some e'
                                  /\ b_reason e' = b_reason e));
      [|now exists e].
    intros k v _ w1 (e1 & F1 & R1).
    destruct (startup_round_reason k v env w1 kind value e1 F1)
      as (e2 & F2 & R2).
    exists e2. split; [exact F2|congruence].
  - intros N.
    apply (initialize_blacklist_keeps
             (fun l => filter (matches kind value) l
                       = filter (matches kind value) (blacklist w)));
      [|reflexivity].
    intros k v K w1 H.
    rewrite startup_round_others; [exact H|].
    intros [= -> ->]. exact (N K).
Qed.

Lemma startup_keeps_documents_witness :
  exists e',
    find (matches "account" "ACC123456789")
      (blacklist
         (snd (initialize_blacklist Example.env
                 (snd (check_fraud_endpoint Example.tx_bad "alice"
                         Example.env Example.world)))))
    = Some e'
    /\ b_reason e' = Some "Fraudulent transaction detected".
Proof.
  apply (proj1 (proj2 (proj2 (startup_keeps_documents Example.env
                                (snd (check_fraud_endpoint Example.tx_bad
                                        "alice" Example.env Example.world))
                                "account" "ACC123456789")))
           (feedback_entry Example.tx_bad 1700000010)).
  vm_compute. reflexivity.
Defined.

(** X10. Once the predefined pairs are in the blacklist, start-up adds no
    document, whatever the driver does: repeating it leaves the blacklist
    as long as it was. *)
Theorem startup_adds_nothing_when_listed (env : Env) (w : World) :
  (forall kind value, predefined_key kind value ->
                      listed w kind value = true) ->
  List.length (blacklist (snd (initialize_blacklist env w)))
  = List.length (blacklist w).
Proof.
  intros L.
  refine (proj1 (initialize_blacklist_keeps
                   (fun l => List.length l = List.length (blacklist w)
                             /\ forall kind value,
                                  predefined_key kind value ->
                                  (1 <= List.length
                                          (filter (matches kind value) l))%nat)
                   env w _ _)).
  - intros k v K w1 (Len & Lst).
    rewrite startup_round_run.
    destruct (mongo_fails env _); simpl; [now split|].
    split.
    + rewrite upsert_length by reflexivity.
      rewrite (filter_length_existsb _ _ (Lst k v K)). lia.
    + intros kind value K'.
      apply upsert_keeps_listed; try reflexivity. now apply Lst.
  - split; [reflexivity|].
    intros kind value K. apply (listed_entries w), L, K.
Qed.

Lemma startup_adds_nothing_when_listed_witness :
  List.length (blacklist (snd (initialize_blacklist
                                 Sample.env_feedback_down Example.world)))
  = List.length (blacklist Example.world).
Proof.
  apply (startup_adds_nothing_when_listed Sample.env_feedback_down
           Example.world).
  intros kind value [[-> I]|[-> I]];
    repeat (destruct I as [<-|I]; [reflexivity|]); destruct I.
Defined.

(** The state after a sequence of requests has what every request keeps. *)
Lemma serve_keeps (P : World -> Prop) (requests : list Request) :
  (forall r w, P w ->
     P (snd (check_fraud_endpoint (req_transaction r) (req_username r)
               (req_env r) w))) ->
  forall w, P w -> P (serve requests w).
Proof.
  intros K. induction requests as [|r rest IH]; intros w Pw; [exact Pw|].
  simpl. apply IH, K, Pw.
Qed.

(** X11. The two writers of the blacklist, start-up and the feedback of the
    endpoint, keep its (kind, value) pairs unique: from a blacklist with
    unique pairs, and so from an empty one, the pairs are unique after
    start-up and any sequence of requests, whatever fails on the way. *)
Theorem unique_keys_is_kept (env : Env) (requests : list Request)
    (w : World) :
  unique_keys (blacklist w) ->
  unique_keys (blacklist (serve requests (snd (initialize_blacklist env w)))).
Proof.
  intros U.
  apply (serve_keeps (fun w => unique_keys (blacklist w))).
  - intros r w1 U1.
    destruct (check_fraud_endpoint (req_transaction r) (req_username r)
                (req_env r) w1) as [res w2] eqn:E.
    exact (check_fraud_endpoint_unique_keys _ _ _ _ _ _ E U1).
  - now apply initialize_blacklist_unique_keys.
Qed.

Lemma unique_keys_is_kept_witness :
  unique_keys
    (blacklist
       (serve [ {| req_env := Example.env;
                   req_transaction := Example.tx_bad;
                   req_username := "alice" |};
                {| req_env := Sample.env_feedback_down;
                   req_transaction := Example.tx_amex;
                   req_username := "bob" |} ]
          (snd (initialize_blacklist Example.env Sample.empty_world)))).
Proof.
  apply (unique_keys_is_kept Example.env).
  intros kind value. simpl. lia.
Defined.

(** ** [check_fraud_endpoint]: outcomes and effects *)

(** X12. [check_fraud_endpoint] lets no exception out but HTTP 500 "Error
    processing transaction", and it answers with a response exactly when
    the store answers the account lookup of [detect_fraud], the insertion
    of the transaction and, if the verdict is fraud, the feedback write. *)
Theorem check_fraud_endpoint_outcomes
    (transaction : Transaction) (username : string)
    (env : Env) (w : World) :
  (forall e,
      fst (check_fraud_endpoint transaction username env w) = Raise e ->
      e = HTTPException 500 "Error processing transaction")
  /\ ((exists r,
          fst (check_fraud_endpoint transaction username env w) = Ok r)
      <-> mongo_fails env
            (OpBlacklistFindOne "account"
               (recipient_account_number transaction)) = false
          /\ mongo_fails env
               (OpTransactionsInsertOne (transaction_id transaction)) = false
          /\ ((exists fraud_reasons risk_score w1,
                  detect_fraud transaction None env w
                  = (Ok (true, fraud_reasons, risk_score), w1)) ->
              mongo_fails env
                (OpBlacklistUpdateOne "account"
                   (recipient_account_number transaction)) = false)).
Proof.
  rewrite check_fraud_endpoint_run.
  destruct (lookups_answered_dec env transaction None) as [A|A].
  - destruct (detect_fraud_answered transaction None env w A) as [lines E].
    rewrite E. cbv zeta.
    destruct A as (_ & A).
    set (a := assessment (triggers_of env w transaction None)).
    destruct (mongo_fails env (OpTransactionsInsertOne _)) eqn:I.
    { split; [now intros e [= <-]|].
      split; [intros [r D]; discriminate D|intros (_ & D & _)].
      discriminate D. }
    destruct (verdict (fst a) (snd a)) eqn:V.
    + destruct (mongo_fails env (OpBlacklistUpdateOne _ _)) eqn:U.
      * split; [now intros e [= <-]|].
        split; [intros [r D]; discriminate D|intros (_ & _ & D)].
        assert (D' : true = false)
          by (apply D; eexists; eexists; eexists; reflexivity).
        discriminate D'.
      * split; [intros e D; discriminate D|].
        split; [intros _|intros _; eexists; reflexivity].
        split; [exact A|]. split; [reflexivity|]. intros _. reflexivity.
    + split; [intros e D; discriminate D|].
      split; [intros _|intros _; eexists; reflexivity].
      split; [exact A|]. split; [reflexivity|].
      intros (rs & sc & w1 & [= D _ _ _]).
  - rewrite (detect_fraud_unanswered _ _ _ w A).
    split; [now intros e [= <-]|].
    split; [intros [r D]; discriminate D|intros (F & _)].
    exfalso. apply A. split; [exact I|exact F].
Qed.

Lemma check_fraud_endpoint_outcomes_witness :
  HTTPException 500 "Error processing transaction"
  = HTTPException 500 "Error processing transaction".
Proof.
  apply (proj1 (check_fraud_endpoint_outcomes Example.tx_bad "alice"
                  Sample.env_feedback_down Example.world)).
  vm_compute. reflexivity.
Defined.

(** X13. A call that answers with a response has stored exactly one more
    transaction, at the end of the collection: the fields of the request
    with the verdict, the reasons and the score of the response, the name
    of the caller and the time of the check.  The response repeats the
    request, a verdict of no fraud leaves the blacklist as it was, and a
    verdict of fraud leaves the upsert of the recipient account in it. *)
Theorem check_fraud_endpoint_stores_one
    (transaction : Transaction) (username : string)
    (env : Env) (w w' : World) (r : TransactionResponse) :
  check_fraud_endpoint transaction username env w = (Ok r, w') ->
  transactions w'
  = (transactions w
     ++ [stored_doc transaction username (resp_is_fraud r)
           (resp_fraud_reasons r) (resp_risk_score r)
           (clock env (ticks w))])%list
  /\ r = response transaction (resp_is_fraud r) (resp_fraud_reasons r)
           (resp_risk_score r)
  /\ (resp_is_fraud r = false -> blacklist w' = blacklist w)
  /\ (resp_is_fraud r = true ->
      blacklist w'
      = upsert "account" (recipient_account_number transaction)
          (feedback_set transaction (clock env (S (ticks w))))
          (blacklist w)).
Proof.
  rewrite check_fraud_endpoint_run.
  destruct (detect_fraud transaction None env w)
    as [[[[is_fraud fraud_reasons] risk_score]|e] w1] eqn:D;
    [|discriminate].
  apply detect_fraud_inv in D as (_ & _ & _ & lines & ->).
  cbv zeta.
  destruct (mongo_fails env (OpTransactionsInsertOne _)); [discriminate|].
  destruct is_fraud.
  - destruct (mongo_fails env (OpBlacklistUpdateOne _ _)); [discriminate|].
    intros [= <- <-]. simpl.
    split; [reflexivity|]. split; [reflexivity|].
    split; [discriminate|reflexivity].
  - intros [= <- <-]. simpl.
    split; [reflexivity|]. split; [reflexivity|].
    split; [reflexivity|discriminate].
Qed.

Lemma check_fraud_endpoint_stores_one_witness :
  transactions (snd (check_fraud_endpoint Example.tx_clean "alice"
                       Example.env Example.world))
  = (transactions Example.world
     ++ [stored_doc Example.tx_clean "alice" false [] 0 1700000009])%list
  /\ response Example.tx_clean false [] 0
     = response Example.tx_clean false [] 0
  /\ (false = false ->
      blacklist (snd (check_fraud_endpoint Example.tx_clean "alice"
                        Example.env Example.world))
      = blacklist Example.world)
  /\ (false = true ->
      blacklist (snd (check_fraud_endpoint Example.tx_clean "alice"
                        Example.env Example.world))
      = upsert "account" (recipient_account_number Example.tx_clean)
          (feedback_set Example.tx_clean 1700000010)
          (blacklist Example.world)).
Proof.
  apply (check_fraud_endpoint_stores_one Example.tx_clean "alice"
           Example.env Example.world
           (snd (check_fraud_endpoint Example.tx_clean "alice"
                   Example.env Example.world))
           (response Example.tx_clean false [] 0)).
  vm_compute. reflexivity.
Defined.

(** X14. There is no rollback.  When the verdict is fraud and the feedback
    write fails after the transaction was inserted, the caller gets HTTP
    500, yet the transaction stays stored, flagged as fraud, and the
    blacklist is as it was. *)
Theorem failed_feedback_keeps_transaction
    (transaction : Transaction) (username : string)
    (env : Env) (w w1 : World)
    (fraud_reasons : list string) (risk_score : Z) :
  detect_fraud transaction None env w
  = (Ok (true, fraud_reasons, risk_score), w1) ->
  mongo_fails env (OpTransactionsInsertOne (transaction_id transaction))
  = false ->
  mongo_fails env
    (OpBlacklistUpdateOne "account" (recipient_account_number transaction))
  = true ->
  let result := check_fraud_endpoint transaction username env w in
  fst result = Raise (HTTPException 500 "Error processing transaction")
  /\ transactions (snd result)
     = (transactions w
        ++ [stored_doc transaction username true fraud_reasons risk_score
              (clock env (ticks w))])%list
  /\ blacklist (snd result) = blacklist w.
Proof.
  intros D I U. cbv zeta.
  rewrite check_fraud_endpoint_run, D.
  apply detect_fraud_inv in D as (_ & _ & _ & lines & ->).
  cbv zeta. rewrite I, U. simpl. repeat split.
Qed.

Lemma failed_feedback_keeps_transaction_witness :
  let result := check_fraud_endpoint Example.tx_bad "alice"
                  Sample.env_feedback_down Example.world in
  fst result = Raise (HTTPException 500 "Error processing transaction")
  /\ transactions (snd result)
     = (transactions Example.world
        ++ [stored_doc Example.tx_bad "alice" true
              [REASON_ACCOUNT; REASON_ODD_HOUR;
               "Abnormal transaction amount (z-score: 33.27)"; REASON_GEO]
              100 (clock Sample.env_feedback_down (ticks Example.world))])%list
  /\ blacklist (snd result) = blacklist Example.world.
Proof.
  apply (failed_feedback_keeps_transaction Example.tx_bad "alice"
           Sample.env_feedback_down Example.world Example.world).
  - vm_compute. reflexivity.
  - reflexivity.
  - reflexivity.
Defined.

Lemma check_fraud_endpoint_keeps_listed (transaction : Transaction)
    (username : string) (env : Env) (w : World) (k v : string) :
  listed w k v = true ->
  listed (snd (check_fraud_endpoint transaction username env w)) k v = true.
Proof.
  destruct (check_fraud_endpoint transaction username env w)
    as [res w'] eqn:E.
  rewrite !listed_entries. unfold entries_for. simpl.
  destruct (check_fraud_endpoint_blacklist _ _ _ _ _ _ E)
    as [[-> _]|[-> _]]; [tauto|].
  now apply upsert_keeps_listed.
Qed.

(** X15. The endpoint never takes anything out of the blacklist.  Whatever
    the outcome of a call, a listed (kind, value) pair stays listed, the
    documents of every pair other than the recipient account are
    untouched, and the blacklist grows by at most one document. *)
Theorem check_fraud_endpoint_blacklist_grows
    (transaction : Transaction) (username : string)
    (env : Env) (w : World) :
  let w' := snd (check_fraud_endpoint transaction username env w) in
  (forall kind value, listed w kind value = true ->
                      listed w' kind value = true)
  /\ (forall kind value,
         (kind, value)
         <> ("account", recipient_account_number transaction) ->
         filter (matches kind value) (blacklist w')
         = filter (matches kind value) (blacklist w))
  /\ (List.length (blacklist w) <= List.length (blacklist w')
      <= S (List.length (blacklist w)))%nat.
Proof.
  cbv zeta. split; [|split].
  - intros kind value. apply check_fraud_endpoint_keeps_listed.
  - intros kind value N.
    destruct (check_fraud_endpoint transaction username env w)
      as [res w'] eqn:E. simpl.
    destruct (check_fraud_endpoint_blacklist _ _ _ _ _ _ E)
      as [[-> _]|[-> _]]; [reflexivity|].
    now apply upsert_others.
  - destruct (check_fraud_endpoint transaction username env w)
      as [res w'] eqn:E. simpl.
    destruct (check_fraud_endpoint_blacklist _ _ _ _ _ _ E)
      as [[-> _]|[-> _]]; [lia|].
    rewrite upsert_length by reflexivity.
    destruct (existsb _ _); lia.
Qed.

(** X16. Once flagged, always flagged.  After a call that answered with a
    verdict of fraud, the recipient account is in the blacklist for good:
    after any sequence of further requests, whatever fails in them, every
    response to a payment to the same recipient is a verdict of fraud with
    the reason "Blacklisted recipient account". *)
Theorem flagged_recipient_stays_flagged
    (transaction : Transaction) (username : string) (env : Env)
    (w w1 : World) (r : TransactionResponse)
    (requests : list Request)
    (transaction' : Transaction) (username' : string) (env' : Env)
    (w' : World) (r' : TransactionResponse) :
  check_fraud_endpoint transaction username env w = (Ok r, w1) ->
  resp_is_fraud r = true ->
  recipient_account_number transaction'
  = recipient_account_number transaction ->
  check_fraud_endpoint transaction' username' env' (serve requests w1)
  = (Ok r', w') ->
  resp_is_fraud r' = true /\ In REASON_ACCOUNT (resp_fraud_reasons r').
Proof.
  intros E F Same E'.
  assert (L1 : listed w1 "account" (recipient_account_number transaction)
               = true).
  { destruct (check_fraud_endpoint_blacklist _ _ _ _ _ _ E)
      as [[_ NF]|[B _]].
    - specialize (NF r eq_refl). congruence.
    - unfold listed. rewrite B, upsert_find by reflexivity. reflexivity. }
  assert (L : listed (serve requests w1) "account"
                (recipient_account_number transaction') = true).
  { rewrite Same.
    apply (serve_keeps
             (fun w => listed w "account"
                         (recipient_account_number transaction) = true));
      [|exact L1].
    intros q w2. apply check_fraud_endpoint_keeps_listed. }
  destruct (check_fraud_endpoint_response _ _ _ _ _ _ E') as (w2 & D & _).
  exact (listed_account_reason _ _ _ _ _ _ _ _ L D).
Qed.

Lemma flagged_recipient_stays_flagged_witness :
  resp_is_fraud
    (response Example.tx_amex true [REASON_ACCOUNT] 40)
  = true
  /\ In REASON_ACCOUNT
       (resp_fraud_reasons
          (response Example.tx_amex true [REASON_ACCOUNT] 40)).
Proof.
  apply (flagged_recipient_stays_flagged
           Example.tx_amex "alice" Example.env Example.world
           (snd (check_fraud_endpoint Example.tx_amex "alice" Example.env
                   Example.world))
           (response Example.tx_amex true
              ["Abnormal transaction amount (z-score: 2.50)"] 20)
           [ {| req_env := Sample.env_feedback_down;
                req_transaction := Example.tx_bad;
                req_username := "bob" |} ]
           Example.tx_amex "carol" Example.env
           (snd (check_fraud_endpoint Example.tx_amex "carol" Example.env
                   (serve [ {| req_env := Sample.env_feedback_down;
                               req_transaction := Example.tx_bad;
                               req_username := "bob" |} ]
                      (snd (check_fraud_endpoint Example.tx_amex "alice"
                              Example.env Example.world)))))).
  - vm_compute. reflexivity.
  - reflexivity.
  - reflexivity.
  - vm_compute. reflexivity.
Defined.

(** ** The listing endpoints *)

Section SortByDesc.

Context {T : Type} (key : T -> Z).

Lemma insert_by_desc_perm (x : T) (l : list T) :
  Permutation (Listing.insert_by_desc key x l) (x :: l).
Proof.
  induction l as [|y l IH]; simpl; [reflexivity|].
  destruct (key y <=? key x); [reflexivity|].
  rewrite IH. apply perm_swap.
Qed.

Lemma sort_by_desc_perm (l : list T) :
  Permutation (Listing.sort_by_desc key l) l.
Proof.
  induction l as [|x l IH]; [reflexivity|].
  unfold Listing.sort_by_desc in *; simpl.
  rewrite insert_by_desc_perm. now constructor.
Qed.

Lemma insert_by_desc_sorted (x : T) (l : list T) :
  sorted_desc key l -> sorted_desc key (Listing.insert_by_desc key x l).
Proof.
  unfold sorted_desc.
  induction 1 as [|y l S IH F]; simpl.
  - repeat constructor.
  - destruct (Z.leb_spec (key y) (key x)) as [L|L].
    + constructor; [now constructor|].
      constructor; [exact L|].
      eapply Forall_impl; [|exact F]. simpl. intros z Hz. lia.
    + constructor; [exact IH|].
      rewrite insert_by_desc_perm.
      constructor; [lia|exact F].
Qed.

Lemma sort_by_desc_sorted (l : list T) :
  sorted_desc key (Listing.sort_by_desc key l).
Proof.
  induction l as [|x l IH]; [constructor|].
  now apply insert_by_desc_sorted.
Qed.

End SortByDesc.

(** X17. [get_transactions] returns every stored transaction, once each,
    the most recently checked first, and changes nothing; when the query
    fails it logs one line and raises HTTP 500 "Error fetching
    transactions". *)
Theorem get_transactions_lists_all
    (username : string) (env : ListingEnv) (w : World) :
  (listing_fails env OpTransactionsFindAll = false ->
   exists docs,
     Listing.get_transactions username env w = (Ok docs, w)
     /\ Permutation docs (transactions w)
     /\ sorted_desc doc_checked_at docs)
  /\ (listing_fails env OpTransactionsFindAll = true ->
      Listing.get_transactions username env w
      = (Raise (HTTPException 500 "Error fetching transactions"),
         logged ["Error getting transactions"] w)).
Proof.
  unfold Listing.get_transactions, Gen.try_except, Gen.bind,
    Listing.transactions_find_all.
  split; intros F; rewrite F; [|reflexivity].
  eexists. split; [reflexivity|].
  split; [apply sort_by_desc_perm|apply sort_by_desc_sorted].
Qed.

Lemma get_transactions_lists_all_witness :
  Listing.get_transactions "alice" Sample.listing_down Example.world
  = (Raise (HTTPException 500 "Error fetching transactions"),
     logged ["Error getting transactions"] Example.world).
Proof.
  apply (proj2 (get_transactions_lists_all "alice" Sample.listing_down
                  Example.world)).
  reflexivity.
Defined.

(** X18. [get_flagged_transactions] returns exactly the stored transactions
    whose verdict was fraud, once each, the most recently checked first,
    and changes nothing; when the query fails it logs one line and raises
    HTTP 500 "Error fetching flagged transactions". *)
Theorem get_flagged_transactions_lists_fraud
    (username : string) (env : ListingEnv) (w : World) :
  (listing_fails env OpTransactionsFindFlagged = false ->
   exists docs,
     Listing.get_flagged_transactions username env w = (Ok docs, w)
     /\ Permutation docs (filter doc_is_fraud (transactions w))
     /\ (forall d, In d docs
                   <-> In d (transactions w) /\ doc_is_fraud d = true)
     /\ sorted_desc doc_checked_at docs)
  /\ (listing_fails env OpTransactionsFindFlagged = true ->
      Listing.get_flagged_transactions username env w
      = (Raise (HTTPException 500 "Error fetching flagged transactions"),
         logged ["Error getting flagged transactions"] w)).
Proof.
  unfold Listing.get_flagged_transactions, Gen.try_except, Gen.bind,
    Listing.transactions_find_flagged.
  split; intros F; rewrite F; [|reflexivity].
  eexists. split; [reflexivity|].
  split; [apply sort_by_desc_perm|].
  split; [|apply sort_by_desc_sorted].
  intros d. rewrite <- filter_In. split; intros I.
  - exact (Permutation_in _ (sort_by_desc_perm _ _) I).
  - exact (Permutation_in _ (Permutation_sym (sort_by_desc_perm _ _)) I).
Qed.

Lemma get_flagged_transactions_lists_fraud_witness :
  exists docs,
    Listing.get_flagged_transactions "alice" Sample.listing_up
      (snd (check_fraud_endpoint Example.tx_bad "alice" Example.env
              Example.world))
    = (Ok docs,
       snd (check_fraud_endpoint Example.tx_bad "alice" Example.env
              Example.world))
    /\ Permutation docs
         (filter doc_is_fraud
            (transactions
               (snd (check_fraud_endpoint Example.tx_bad "alice" Example.env
                       Example.world))))
    /\ (forall d,
           In d docs
           <-> In d (transactions
                       (snd (check_fraud_endpoint Example.tx_bad "alice"
                               Example.env Example.world)))
               /\ doc_is_fraud d = true)
    /\ sorted_desc doc_checked_at docs.
Proof.
  apply (proj1 (get_flagged_transactions_lists_fraud "alice"
                  Sample.listing_up
                  (snd (check_fraud_endpoint Example.tx_bad "alice"
                          Example.env Example.world)))).
  reflexivity.
Defined.

(** X19. [get_blacklist] returns every document of the blacklist, once
    each, the most recently added first, and changes nothing; when the
    query fails it logs one line and raises HTTP 500 "Error fetching
    blacklist". *)
Theorem get_blacklist_lists_all
    (username : string) (env : ListingEnv) (w : World) :
  (listing_fails env OpBlacklistFindAll = false ->
   exists items,
     Listing.get_blacklist username env w = (Ok items, w)
     /\ Permutation items (blacklist w)
     /\ sorted_desc b_added_at items)
  /\ (listing_fails env OpBlacklistFindAll = true ->
      Listing.get_blacklist username env w
      = (Raise (HTTPException 500 "Error fetching blacklist"),
         logged ["Error getting blacklist"] w)).
Proof.
  unfold Listing.get_blacklist, Gen.try_except, Gen.bind,
    Listing.blacklist_find_all.
  split; intros F; rewrite F; [|reflexivity].
  eexists. split; [reflexivity|].
  split; [apply sort_by_desc_perm|apply sort_by_desc_sorted].
Qed.

Lemma get_blacklist_lists_all_witness :
  exists items,
    Listing.get_blacklist "alice" Sample.listing_up Example.world
    = (Ok items, Example.world)
    /\ Permutation items (blacklist Example.world)
    /\ sorted_desc b_added_at items.
Proof.
  apply (proj1 (get_blacklist_lists_all "alice" Sample.listing_up
                  Example.world)).
  reflexivity.
Defined.

(** The three listings, when the driver answers. *)
Lemma get_transactions_all_run (username : string) (env : ListingEnv)
    (w : World) :
  listing_fails env OpTransactionsFindAll = false ->
  exists docs,
     Listing.get_transactions username env w = (Ok docs, w)
     /\ Permutation docs (transactions w).
Proof.
  unfold Listing.get_transactions, Gen.try_except, Gen.bind,
    Listing.transactions_find_all.
  intros F; rewrite F.
  eexists. split; [reflexivity|apply sort_by_desc_perm].
Qed.

Lemma get_flagged_run (username : string) (env : ListingEnv) (w : World) :
  listing_fails env OpTransactionsFindFlagged = false ->
  exists docs,
     Listing.get_flagged_transactions username env w = (Ok docs, w)
     /\ Permutation docs (filter doc_is_fraud (transactions w)).
Proof.
  unfold Listing.get_flagged_transactions, Gen.try_except, Gen.bind,
    Listing.transactions_find_flagged.
  intros F; rewrite F.
  eexists. split; [reflexivity|apply sort_by_desc_perm].
Qed.

Lemma get_blacklist_run (username : string) (env : ListingEnv) (w : World) :
  listing_fails env OpBlacklistFindAll = false ->
  exists items,
     Listing.get_blacklist username env w = (Ok items, w)
     /\ Permutation items (blacklist w).
Proof.
  unfold Listing.get_blacklist, Gen.try_except, Gen.bind,
    Listing.blacklist_find_all.
  intros F; rewrite F.
  eexists. split; [reflexivity|apply sort_by_desc_perm].
Qed.

(** X20. What the endpoint stores, the listings show.  After a call of
    [check_fraud_endpoint] that answered, [get_transactions] lists the
    stored transaction, [get_flagged_transactions] lists it exactly when
    the verdict was fraud, and in that case [get_blacklist] lists the
    recipient account with the reason "Fraudulent transaction detected" and
    the time of the feedback write. *)
Theorem checked_transaction_is_listed
    (transaction : Transaction) (username reader : string)
    (env : Env) (w w' : World) (r : TransactionResponse)
    (lenv : ListingEnv) :
  check_fraud_endpoint transaction username env w = (Ok r, w') ->
  (forall op, listing_fails lenv op = false) ->
  let doc := stored_doc transaction username (resp_is_fraud r)
               (resp_fraud_reasons r) (resp_risk_score r)
               (clock env (ticks w)) in
  exists all flagged items,
    Listing.get_transactions reader lenv w' = (Ok all, w')
    /\ Listing.get_flagged_transactions reader lenv w' = (Ok flagged, w')
    /\ Listing.get_blacklist reader lenv w' = (Ok items, w')
    /\ In doc all
    /\ (In doc flagged <-> resp_is_fraud r = true)
    /\ (resp_is_fraud r = true ->
        In (feedback_entry transaction (clock env (S (ticks w)))) items).
Proof.
  intros E U doc.
  destruct (get_transactions_all_run reader lenv w' (U _))
    as (all & Ea & Pa).
  destruct (get_flagged_run reader lenv w' (U _))
    as (flagged & Ef & Pf).
  destruct (get_blacklist_run reader lenv w' (U _))
    as (items & Eb & Pb).
  exists all, flagged, items.
  split; [exact Ea|]. split; [exact Ef|]. split; [exact Eb|].
  assert (S : transactions w' = (transactions w ++ [doc])%list
              /\ (resp_is_fraud r = true ->
                  blacklist w'
                  = upsert "account" (recipient_account_number transaction)
                      (feedback_set transaction (clock env (S (ticks w))))
                      (blacklist w))).
  { revert E. rewrite check_fraud_endpoint_run.
    destruct (detect_fraud transaction None env w)
      as [[[[is_fraud fraud_reasons] risk_score]|e] w1] eqn:D;
      [|discriminate].
    apply detect_fraud_inv in D as (_ & _ & _ & lines & ->).
    cbv zeta.
    destruct (mongo_fails env (OpTransactionsInsertOne _)); [discriminate|].
    destruct is_fraud;
      [destruct (mongo_fails env (OpBlacklistUpdateOne _ _));
       [discriminate|]|];
      intros [= <- <-]; split; try reflexivity; discriminate. }
  destruct S as (St & Sb).
  assert (Id : In doc (transactions w')).
  { rewrite St. apply in_or_app. right. now left. }
  split; [exact (Permutation_in _ (Permutation_sym Pa) Id)|].
  split; [split|].
  - intros I. apply (Permutation_in _ Pf), filter_In in I as (_ & F).
    exact F.
  - intros F. apply (Permutation_in _ (Permutation_sym Pf)), filter_In.
    split; [exact Id|exact F].
  - intros F. apply (Permutation_in _ (Permutation_sym Pb)).
    rewrite (Sb F).
    pose proof (upsert_find "account" (recipient_account_number transaction)
                  (feedback_set transaction (clock env (S (ticks w))))
                  eq_refl eq_refl (blacklist w)) as Fd.
    apply find_some in Fd as (I & _). exact I.
Qed.

Lemma checked_transaction_is_listed_witness :
  let w' := snd (check_fraud_endpoint Example.tx_bad "alice" Example.env
                   Example.world) in
  let doc := stored_doc Example.tx_bad "alice" true
               [REASON_ACCOUNT; REASON_ODD_HOUR;
                "Abnormal transaction amount (z-score: 33.27)"; REASON_GEO]
               100 1700000009 in
  exists all flagged items,
    Listing.get_transactions "bob" Sample.listing_up w' = (Ok all, w')
    /\ Listing.get_flagged_transactions "bob" Sample.listing_up w'
       = (Ok flagged, w')
    /\ Listing.get_blacklist "bob" Sample.listing_up w' = (Ok items, w')
    /\ In doc all
    /\ (In doc flagged <-> true = true)
    /\ (true = true ->
        In (feedback_entry Example.tx_bad 1700000010) items).
Proof.
  apply (checked_transaction_is_listed Example.tx_bad "alice" "bob"
           Example.env Example.world
           (snd (check_fraud_endpoint Example.tx_bad "alice" Example.env
                   Example.world))
           (response Example.tx_bad true
              [REASON_ACCOUNT; REASON_ODD_HOUR;
               "Abnormal transaction amount (z-score: 33.27)"; REASON_GEO]
              100)
           Sample.listing_up).
  - vm_compute. reflexivity.
  - reflexivity.
Defined.

(** ** Accounts: [signup] and [login] *)

(** X21. [signup] lets no exception out but HTTP 500 "Error creating user",
    and a failed sign-up stores nothing.  In particular the HTTP 400
    "Username already registered" that the handler raises for a taken
    username is caught by its own [except Exception]: signing up with a
    taken username answers 500. *)
Theorem signup_raises_only_500
    (user : UserCreate) (env : AuthEnv) (w : AuthWorld) :
  (forall e,
      fst (Auth.signup user env w) = Raise e ->
      e = HTTPException 500 "Error creating user"
      /\ users (snd (Auth.signup user env w)) = users w)
  /\ (users_fails env (OpUsersFindOne (uc_username user)) = false ->
      (exists u, In u (users w) /\ u_username u = uc_username user) ->
      fst (Auth.signup user env w)
      = Raise (HTTPException 500 "Error creating user")).
Proof.
  unfold Auth.signup, Gen.try_except, Gen.bind, Auth.users_find_one,
    Auth.bcrypt_gensalt, Auth.bcrypt_hashpw, Auth.datetime_now,
    Auth.users_insert_one, Auth.logger_error, Gen.raise, Gen.ret.
  split.
  - intros e.
    destruct (users_fails env (OpUsersFindOne _)); simpl;
      [intros [= <-]; now split|].
    destruct (find _ (users w)); simpl; [intros [= <-]; now split|].
    destruct (hashpw env _ _); simpl; [|intros [= <-]; now split].
    destruct (users_fails env (OpUsersInsertOne _)); simpl;
      [intros [= <-]; now split|discriminate].
  - intros F (u & I & N). rewrite F.
    destruct (find _ (users w)) eqn:Fd; [reflexivity|].
    apply (find_none _ _ Fd) in I.
    rewrite N, String.eqb_refl in I. discriminate I.
Qed.

Lemma signup_raises_only_500_witness :
  fst (Auth.signup SampleAuth.alice SampleAuth.env SampleAuth.with_alice)
  = Raise (HTTPException 500 "Error creating user").
Proof.
  apply (proj2 (signup_raises_only_500 SampleAuth.alice SampleAuth.env
                  SampleAuth.with_alice)).
  - reflexivity.
  - eexists. split; [left; reflexivity|reflexivity].
Defined.

(** What a sign-up that answers has done. *)
Lemma signup_answered
    (user : UserCreate) (env : AuthEnv) (w w' : AuthWorld) (id : string) :
  Auth.signup user env w = (Ok id, w') ->
  user_named (uc_username user) (users w) = None
  /\ exists hashed,
       hashpw env (uc_password user) (gensalt env (salts_drawn w))
       = Ok hashed
       /\ users w'
          = (users w
             ++ [{| u_id := id;
                    u_username := uc_username user;
                    u_email := uc_email user;
                    u_password := hashed;
                    u_created_at := auth_clock env (auth_ticks w) |}])%list
       /\ id = object_id env (ids_drawn w).
Proof.
  unfold Auth.signup, Gen.try_except, Gen.bind, Auth.users_find_one,
    Auth.bcrypt_gensalt, Auth.bcrypt_hashpw, Auth.datetime_now,
    Auth.users_insert_one, Auth.logger_error, Gen.raise, Gen.ret,
    user_named.
  destruct (users_fails env (OpUsersFindOne _)); simpl; [discriminate|].
  destruct (find _ (users w)); simpl; [discriminate|].
  destruct (hashpw env _ _) as [hashed|e]; simpl; [|discriminate].
  destruct (users_fails env (OpUsersInsertOne _)); simpl; [discriminate|].
  intros [= <- <-]. split; [reflexivity|].
  exists hashed. repeat split.
Qed.

(** X22. A sign-up that answers has found no user of that name and has
    added exactly one document at the end of the collection: the name and
    the e-mail of the request, the bcrypt hash of the password under a
    fresh salt, the time of the call and the "_id" it returns. *)
Theorem signup_adds_one_user
    (user : UserCreate) (env : AuthEnv) (w w' : AuthWorld) (id : string) :
  Auth.signup user env w = (Ok id, w') ->
  user_named (uc_username user) (users w) = None
  /\ exists hashed,
       hashpw env (uc_password user) (gensalt env (salts_drawn w))
       = Ok hashed
       /\ users w'
          = (users w
             ++ [{| u_id := id;
                    u_username := uc_username user;
                    u_email := uc_email user;
                    u_password := hashed;
                    u_created_at := auth_clock env (auth_ticks w) |}])%list
       /\ id = object_id env (ids_drawn w).
Proof.
  unfold Auth.signup, Gen.try_except, Gen.bind, Auth.users_find_one,
    Auth.bcrypt_gensalt, Auth.bcrypt_hashpw, Auth.datetime_now,
    Auth.users_insert_one, Auth.logger_error, Gen.raise, Gen.ret,
    user_named.
  destruct (users_fails env (OpUsersFindOne _)); simpl; [discriminate|].
  destruct (find _ (users w)); simpl; [discriminate|].
  destruct (hashpw env _ _) as [hashed|e]; simpl; [|discriminate].
  destruct (users_fails env (OpUsersInsertOne _)); simpl; [discriminate|].
  intros [= <- <-]. split; [reflexivity|].
  exists hashed. repeat split.
Qed.

Lemma signup_adds_one_user_witness :
  user_named "alice" (users SampleAuth.empty) = None
  /\ exists hashed,
       hashpw SampleAuth.env "correct horse"
         (gensalt SampleAuth.env (salts_drawn SampleAuth.empty))
       = Ok hashed
       /\ users SampleAuth.with_alice
          = (users SampleAuth.empty
             ++ [{| u_id := "id0";
                    u_username := "alice";
                    u_email := "alice@example.org";
                    u_password := hashed;
                    u_created_at :=
                      auth_clock SampleAuth.env
                        (auth_ticks SampleAuth.empty) |}])%list
       /\ "id0" = object_id SampleAuth.env (ids_drawn SampleAuth.empty).
Proof.
  apply (signup_adds_one_user SampleAuth.alice SampleAuth.env
           SampleAuth.empty SampleAuth.with_alice "id0").
  vm_compute. reflexivity.
Defined.

Lemma unique_usernames_single (u : UserDoc) : unique_usernames [u].
Proof.
  intros name. simpl.
  destruct (u_username u =? name)%string; simpl; lia.
Qed.

(** A sign-up that fails stores nothing. *)
Lemma signup_failure_stores_nothing
    (user : UserCreate) (env : AuthEnv) (w : AuthWorld) (e : exn) :
  fst (Auth.signup user env w) = Raise e ->
  users (snd (Auth.signup user env w)) = users w.
Proof.
  unfold Auth.signup, Gen.try_except, Gen.bind, Auth.users_find_one,
    Auth.bcrypt_gensalt, Auth.bcrypt_hashpw, Auth.datetime_now,
    Auth.users_insert_one, Auth.logger_error, Gen.raise, Gen.ret.
  destruct (users_fails env (OpUsersFindOne _)); simpl; [reflexivity|].
  destruct (find _ (users w)); simpl; [reflexivity|].
  destruct (hashpw env _ _); simpl; [|reflexivity].
  destruct (users_fails env (OpUsersInsertOne _)); simpl;
    [reflexivity|discriminate].
Qed.

(** X23. [signup] keeps the usernames unique: from a collection in which no
    username has two documents, no call of [signup], whether it answers or
    fails, leaves a username with two documents. *)
Theorem signup_keeps_usernames_unique
    (user : UserCreate) (env : AuthEnv) (w : AuthWorld) :
  unique_usernames (users w) ->
  unique_usernames (users (snd (Auth.signup user env w))).
Proof.
  intros U.
  destruct (Auth.signup user env w) as [[id|e] w'] eqn:E.
  - apply signup_answered in E as (N & hashed & _ & E & _).
    simpl. rewrite E. intros name. rewrite filter_app, length_app. simpl.
    destruct (String.eqb_spec (uc_username user) name) as [<-|D]; simpl.
    + unfold user_named in N.
      assert (Z0 : filter (fun u => (u_username u =? uc_username user)%string)
                     (users w) = []).
      { destruct (filter _ (users w)) as [|u l] eqn:F; [reflexivity|].
        assert (I : In u (filter
                           (fun u => (u_username u =? uc_username user)%string)
                           (users w))) by (rewrite F; now left).
        apply filter_In in I as (I & M).
        apply (find_none _ _ N) in I. congruence. }
      rewrite Z0. simpl. lia.
    + specialize (U name). lia.
  - pose proof (signup_failure_stores_nothing user env w e) as K.
    rewrite E in K. simpl in K |- *. rewrite (K eq_refl). exact U.
Qed.

Lemma signup_keeps_usernames_unique_witness :
  unique_usernames
    (users (snd (Auth.signup SampleAuth.alice SampleAuth.env
                   SampleAuth.with_alice))).
Proof.
  apply (signup_keeps_usernames_unique SampleAuth.alice SampleAuth.env
           SampleAuth.with_alice).
  exact (unique_usernames_single
           {| u_id := "id0"; u_username := "alice";
              u_email := "alice@example.org";
              u_password := "s0$correct horse";
              u_created_at := 1700000000 |}).
Defined.

(** X24. [login] lets out HTTP 401 "Invalid username or password" and HTTP
    500 "Error logging in" and nothing else, as long as bcrypt and jwt
    raise errors of their own; it never writes to the users.  An unknown
    username and a wrong password both answer 401, with nothing logged:
    unlike in [signup], the handler's own [HTTPException] gets past
    [except Exception]. *)
Theorem login_outcomes
    (user : UserLogin) (env : AuthEnv) (w : AuthWorld) :
  libraries_raise_no_http env ->
  users (snd (Auth.login user env w)) = users w
  /\ (forall e,
         fst (Auth.login user env w) = Raise e ->
         e = HTTPException 401 "Invalid username or password"
         \/ e = HTTPException 500 "Error logging in")
  /\ (users_fails env (OpUsersFindOne (ul_username user)) = false ->
      user_named (ul_username user) (users w) = None ->
      Auth.login user env w
      = (Raise (HTTPException 401 "Invalid username or password"), w))
  /\ (forall doc,
         users_fails env (OpUsersFindOne (ul_username user)) = false ->
         user_named (ul_username user) (users w) = Some doc ->
         checkpw env (ul_password user) (u_password doc) = Ok false ->
         Auth.login user env w
         = (Raise (HTTPException 401 "Invalid username or password"), w)).
Proof.
  intros (Hc & Hj).
  unfold Auth.login, Gen.try_except, Gen.bind, Auth.users_find_one,
    Auth.bcrypt_checkpw, Auth.create_access_token, Auth.logger_error,
    Gen.raise, Gen.ret, user_named.
  split; [|split; [|split]].
  - destruct (users_fails env (OpUsersFindOne _)); simpl; [reflexivity|].
    destruct (find _ (users w)) as [doc|]; simpl; [|reflexivity].
    destruct (checkpw env _ _) as [[|]|[]]; simpl; try reflexivity.
    destruct (jwt_encode env _) as [token|[]]; reflexivity.
  - intros e.
    destruct (users_fails env (OpUsersFindOne _)); simpl;
      [intros [= <-]; now right|].
    destruct (find _ (users w)) as [doc|]; simpl;
      [|intros [= <-]; now left].
    destruct (checkpw env _ _) as [[|]|e'] eqn:C; simpl.
    + destruct (jwt_encode env _) as [token|e''] eqn:J; simpl;
        [discriminate|].
      destruct e''; simpl; try (intros [= <-]; now right).
      exfalso. exact (Hj _ _ _ J).
    + intros [= <-]; now left.
    + destruct e'; simpl; try (intros [= <-]; now right).
      exfalso. exact (Hc _ _ _ _ C).
  - intros F N. rewrite F, N. reflexivity.
  - intros doc F N C. rewrite F, N. simpl. rewrite C. reflexivity.
Qed.

Lemma login_outcomes_witness :
  Auth.login {| ul_username := "alice"; ul_password := "battery staple" |}
    SampleAuth.env SampleAuth.with_alice
  = (Raise (HTTPException 401 "Invalid username or password"),
     SampleAuth.with_alice).
Proof.
  refine (proj2 (proj2 (proj2 (login_outcomes
                                 {| ul_username := "alice";
                                    ul_password := "battery staple" |}
                                 SampleAuth.env SampleAuth.with_alice _)))
            {| u_id := "id0"; u_username := "alice";
               u_email := "alice@example.org";
               u_password := "s0$correct horse";
               u_created_at := 1700000000 |} _ _ _).
  - split; intros; discriminate.
  - reflexivity.
  - reflexivity.
  - reflexivity.
Defined.

Lemma find_app_last {A : Type} (p : A -> bool) (l : list A) (x : A) :
  find p l = None -> p x = true -> find p (l ++ [x]) = Some x.
Proof.
  intros N P. induction l as [|y l IH]; simpl in *; [now rewrite P|].
  destruct (p y); [discriminate|]. now apply IH.
Qed.

(** X25. Sign up, log in, present the token.  After a sign-up that
    answered, [login] with the same name and password finds the new
    document, returns the token that [create_access_token] makes for the
    name and changes nothing, and [verify_token] reads the name back from
    that token; this holds whenever bcrypt accepts a password against its
    own hash, jwt decodes what it encoded, and the store answers the
    lookup. *)
Theorem signup_then_login
    (user : UserCreate) (env env' : AuthEnv) (w w1 : AuthWorld)
    (id token : string) :
  Auth.signup user env w = (Ok id, w1) ->
  bcrypt_verifies env env' ->
  jwt_round_trip env' ->
  users_fails env' (OpUsersFindOne (uc_username user)) = false ->
  jwt_encode env' (uc_username user) = Ok token ->
  Auth.login {| ul_username := uc_username user;
                ul_password := uc_password user |} env' w1
  = (Ok token, w1)
  /\ Auth.verify_token token env' w1 = (Ok (uc_username user), w1).
Proof.
  intros S B J F T.
  apply signup_answered in S as (N & hashed & H & U & _).
  split.
  - unfold Auth.login, Gen.try_except, Gen.bind, Auth.users_find_one,
      Auth.bcrypt_checkpw, Auth.create_access_token, Gen.raise, Gen.ret.
    simpl. rewrite F, U.
    rewrite (find_app_last _ _ _ N) by (simpl; apply String.eqb_refl).
    simpl. rewrite (B _ _ _ H). simpl. rewrite T. reflexivity.
  - unfold Auth.verify_token. rewrite (J _ _ T). reflexivity.
Qed.

Lemma signup_then_login_witness :
  Auth.login {| ul_username := "alice"; ul_password := "correct horse" |}
    SampleAuth.env SampleAuth.with_alice
  = (Ok "alice", SampleAuth.with_alice)
  /\ Auth.verify_token "alice" SampleAuth.env SampleAuth.with_alice
     = (Ok "alice", SampleAuth.with_alice).
Proof.
  apply (signup_then_login SampleAuth.alice SampleAuth.env SampleAuth.env
           SampleAuth.empty SampleAuth.with_alice "id0" "alice").
  - vm_compute. reflexivity.
  - intros password salt hashed [= <-].
    unfold SampleAuth.env, checkpw. now rewrite String.eqb_refl.
  - intros sub token [= <-]. reflexivity.
  - reflexivity.
  - reflexivity.
Defined.

Lemma check_fraud_endpoint_blacklist_grows_witness :
  listed (snd (check_fraud_endpoint Example.tx_amex "alice" Example.env
                 Example.world)) "ip" "10.0.0.50" = true.
Proof.
  apply (proj1 (check_fraud_endpoint_blacklist_grows Example.tx_amex "alice"
                  Example.env Example.world)).
  reflexivity.
Defined.
